(** * ixdat: the Zilien reader, the Spectrum class and cycle segmentation

    A shallow embedding of

    - [src/ixdat/techniques/cv.py]   ([CyclicVoltammagram.redefine_cycle] and
                                      [__getitem__]),
    - [src/ixdat/readers/zilien.py]  ([ZilienTSVReader], [ZilienSpectrumReader],
                                      [series_list_from_tmp]),
    - [src/ixdat/spectra.py]         ([Spectrum]),

    followed by the properties of the specification that these functions
    decide, and by further properties of the code.  Python values are modelled as the code uses them: lists for
    lists and one-dimensional arrays, association lists in insertion order
    for dicts, [sum] for a call that either raises or returns, and explicit
    state passing where a method reads or writes attributes of [self]. *)

From Stdlib Require Import String Ascii.
From Stdlib Require Import List Bool Arith ZArith Lia QArith.
Import ListNotations.
Local Open Scope list_scope.

Local Open Scope nat_scope.

(* ===================================================================== *)
(** * Python helpers shared by the three modules *)
(* ===================================================================== *)

Module Py.

(** [True in mask] for a boolean numpy array. *)
Definition contains_true (mask : list bool) : bool := existsb (fun b => b) mask.

(** [np.argmax(mask)] on a boolean array: the index of the first [True]
    (the first maximum), and 0 when every entry is [False]. *)
Fixpoint argmax (mask : list bool) : nat :=
  match mask with
  | [] => 0
  | true :: _ => 0
  | false :: rest => if contains_true rest then S (argmax rest) else 0
  end.

(** [a[n:]] for [0 <= n]. *)
Definition slice_from {A} (n : nat) (a : list A) : list A := skipn n a.

(** [a[n:] = c] on a numpy array: every entry from index [n] on becomes
    [c]; the length does not change, and nothing happens for [n >= len(a)]. *)
Definition assign_from {A} (n : nat) (c : A) (a : list A) : list A :=
  firstn n a ++ repeat c (length a - n).

(** [np.zeros(shape)] for a one-dimensional shape. *)
Definition zeros (len : nat) : list Z := repeat 0%Z len.

End Py.

(* ===================================================================== *)
(** * techniques/cv.py *)
(* ===================================================================== *)

Module CV.

Section CycleSegmenter.

(** The potential samples are floats in the source.  The scan only
    compares them and negates them, so the element type and its two
    operations are left open: [ltb a b] is [a < b], and [a > b] is
    [ltb b a]. *)
Variable V : Type.
Variable ltb : V -> V -> bool.
Variable neg : V -> V.

(** The local variables of the [while] loop of [redefine_cycle]. *)
Record scan_state : Type := mk_scan {
  c : Z;                  (* cycle counter *)
  n : nat;                (* scan position *)
  cycle_vec : list Z      (* the cycle index per sample *)
}.

Inductive loop_exit : Type :=
| Break (st : scan_state)
| Continue (st : scan_state).

(** One pass through the body of [while n < N]. *)
Definition loop_body (v : list V) (start_potential : V) (N_points : nat)
           (st : scan_state) : loop_exit :=
  let mask_behind := map (fun x => ltb x start_potential) (Py.slice_from (n st) v) in
  if negb (Py.contains_true mask_behind) then Break st
  else
    let n1 := n st + (Py.argmax mask_behind + N_points) in
    let mask_in_front := map (fun x => ltb start_potential x) (Py.slice_from n1 v) in
    if negb (Py.contains_true mask_in_front) then
      Break (mk_scan (c st) n1 (cycle_vec st))
    else
      let n2 := n1 + Py.argmax mask_in_front in
      let c' := (c st + 1)%Z in
      Continue (mk_scan c' (n2 + N_points) (Py.assign_from n2 c' (cycle_vec st))).

(** [while n < N: ...], with a bound on the number of passes; [None]
    when the bound is used up before the loop has left. *)
Fixpoint while_loop (fuel : nat) (N : nat) (v : list V) (start_potential : V)
         (N_points : nat) (st : scan_state) : option scan_state :=
  match fuel with
  | 0 => None
  | S fuel' =>
      if n st <? N then
        match loop_body v start_potential N_points st with
        | Break st' => Some st'
        | Continue st' => while_loop fuel' N v start_potential N_points st'
        end
      else Some st
  end.

(** The [else] branch of [redefine_cycle] ([start_potential] given):
    the data of the new [cycle] series.  [t] is [self.t], [v] is
    [self.v]; [redox] is the truth value of the argument ([None] counts
    as false).  [N_points] is a Python int; the scan position only moves
    forward for [N_points >= 0], which is what [nat] covers. *)
Definition redefine_cycle (t : list V) (v : list V) (start_potential : V)
           (redox : bool) (N_points : nat) : option (list Z) :=
  let cycle_vec0 := Py.zeros (length t) in
  let N := length t in
  let '(start_potential, v) :=
    if negb redox then (neg start_potential, map neg v) else (start_potential, v) in
  match while_loop (S N) N v start_potential N_points (mk_scan 0%Z 0 cycle_vec0) with
  | Some st => Some (cycle_vec st)
  | None => None
  end.

End CycleSegmenter.

End CV.


(* ===================================================================== *)
(** * Python strings, dicts and exceptions *)
(* ===================================================================== *)

Module PyStr.

Local Open Scope string_scope.

Definition tab : ascii := ascii_of_nat 9.
Definition newline : ascii := ascii_of_nat 10.

(** [s.lstrip("\n")] *)
Fixpoint lstrip_newline (s : string) : string :=
  match s with
  | EmptyString => EmptyString
  | String ch rest => if Ascii.eqb ch newline then lstrip_newline rest else s
  end.

(** [s.rstrip("\n")] *)
Fixpoint rstrip_newline (s : string) : string :=
  match s with
  | EmptyString => EmptyString
  | String ch rest =>
      match rstrip_newline rest with
      | EmptyString => if Ascii.eqb ch newline then EmptyString else String ch EmptyString
      | rest' => String ch rest'
      end
  end.

(** [s.strip("\n")] *)
Definition strip_newline (s : string) : string := rstrip_newline (lstrip_newline s).

(** [s.split(sep)] for a separator of one character: never an empty list. *)
Fixpoint split (sep : ascii) (s : string) : list string :=
  match s with
  | EmptyString => [EmptyString]
  | String ch rest =>
      if Ascii.eqb ch sep then EmptyString :: split sep rest
      else match split sep rest with
           | [] => [String ch EmptyString]
           | part :: parts => String ch part :: parts
           end
  end.

(** [sep.join(parts)] *)
Fixpoint join (sep : string) (parts : list string) : string :=
  match parts with
  | [] => EmptyString
  | [part] => part
  | part :: rest => part ++ sep ++ join sep rest
  end.

(** [s.lower()] on ASCII letters (the only ones the reader lowers). *)
Definition lower_ascii (ch : ascii) : ascii :=
  let k := nat_of_ascii ch in
  if ((65 <=? k) && (k <=? 90))%nat then ascii_of_nat (k + 32) else ch.

Fixpoint lower (s : string) : string :=
  match s with
  | EmptyString => EmptyString
  | String ch rest => String (lower_ascii ch) (lower rest)
  end.

(** [s.endswith(suffix)] *)
Definition endswith (s suffix : string) : bool :=
  (String.length suffix <=? String.length s)%nat &&
  String.eqb (substring (String.length s - String.length suffix) (String.length suffix) s)
             suffix.

(** [sub in s] *)
Definition contains (sub s : string) : bool :=
  match index 0 sub s with Some _ => true | None => false end.

(** [x in (a, b, ...)] for strings. *)
Definition mem (x : string) (options : list string) : bool :=
  existsb (String.eqb x) options.

Definition is_digit (ch : ascii) : bool :=
  let k := nat_of_ascii ch in ((48 <=? k) && (k <=? 57))%nat.

Fixpoint all_digits (s : string) : bool :=
  match s with
  | EmptyString => true
  | String ch rest => is_digit ch && all_digits rest
  end.

(** The longest run of digits [s] starts with, and what follows it. *)
Fixpoint span_digits (s : string) : string * string :=
  match s with
  | EmptyString => (EmptyString, EmptyString)
  | String ch rest =>
      if is_digit ch then
        let '(digits, tail) := span_digits rest in (String ch digits, tail)
      else (EmptyString, s)
  end.

(** The largest index of [ch] in [s], counted from [offset]. *)
Fixpoint rindex (ch : ascii) (s : string) (offset : nat) : option nat :=
  match s with
  | EmptyString => None
  | String d rest =>
      match rindex ch rest (S offset) with
      | Some i => Some i
      | None => if Ascii.eqb d ch then Some offset else None
      end
  end.

(** What [$] does to the text of a match without [re.MULTILINE]: the end
    of the pattern may stand before one final newline.  No group of the
    patterns of this reader ([.] and [[0-9]]) can hold a newline, so a
    match sees the text without that newline, and there is none when a
    newline is left in it. *)
Definition regex_text (s : string) : option string :=
  let body :=
    if endswith s (String newline EmptyString)
    then substring 0 (String.length s - 1) s else s in
  if contains (String newline EmptyString) body then None else Some body.

End PyStr.

(** A Python [dict] with string keys, as the list of its items in insertion
    order. *)
Module PyDict.

Definition dict (V : Type) : Type := list (string * V).

Section Dict.
Context {V : Type}.

(** [d[key]], [None] for a [KeyError]; also [d.get(key)]. *)
Fixpoint get (d : dict V) (key : string) : option V :=
  match d with
  | [] => None
  | (k, v) :: rest => if String.eqb k key then Some v else get rest key
  end.

(** [key in d] *)
Definition contains (d : dict V) (key : string) : bool :=
  match get d key with Some _ => true | None => false end.

(** [d[key] = value]: an old key keeps its place, a new one goes last. *)
Fixpoint set (d : dict V) (key : string) (value : V) : dict V :=
  match d with
  | [] => [(key, value)]
  | (k, v) :: rest =>
      if String.eqb k key then (k, value) :: rest else (k, v) :: set rest key value
  end.

(** [d.update(other)] *)
Definition update (d other : dict V) : dict V :=
  fold_left (fun acc kv => set acc (fst kv) (snd kv)) other d.

End Dict.

(** [d[key] += items] on a [defaultdict(list)]: a missing key is first
    bound to a new empty list, then the list is extended in place. *)
Definition extend {A} (d : dict (list A)) (key : string) (items : list A) : dict (list A) :=
  match get d key with
  | Some old => set d key (old ++ items)
  | None => set d key ([] ++ items)
  end.

(** [d[key].append(item)] on a [defaultdict(list)]. *)
Definition append {A} (d : dict (list A)) (key : string) (item : A) : dict (list A) :=
  match get d key with
  | Some old => set d key (old ++ [item])
  | None => set d key [item]
  end.

End PyDict.

Module PyExn.

(** The exceptions the embedded code raises itself or lets through. *)
Inductive exn : Type :=
| TypeError (msg : string)
| ValueError (msg : string)
| KeyError (key : string)
| IndexError (msg : string)
| AttributeError (msg : string)
| UnboundLocalError (name : string)
| OSError (path : string)
| ReadError (msg : string).

(** The class of an exception, which is what an [except] clause and a
    caller can tell apart. *)
Inductive exn_class : Type :=
| CTypeError | CValueError | CKeyError | CIndexError | CAttributeError
| CUnboundLocalError | COSError | CReadError.

Definition class_of (e : exn) : exn_class :=
  match e with
  | TypeError _ => CTypeError
  | ValueError _ => CValueError
  | KeyError _ => CKeyError
  | IndexError _ => CIndexError
  | AttributeError _ => CAttributeError
  | UnboundLocalError _ => CUnboundLocalError
  | OSError _ => COSError
  | ReadError _ => CReadError
  end.

(** A call that raises ([inl]) or returns ([inr]). *)
Definition result (A : Type) : Type := (exn + A)%type.

(** The class of the exception a call raised, if it raised one. *)
Definition raised_class {A} (r : result A) : option exn_class :=
  match r with
  | inl e => Some (class_of e)
  | inr _ => None
  end.

Definition ret {A} (x : A) : result A := inr x.
Definition raise {A} (e : exn) : result A := inl e.

Definition bind {A B} (m : result A) (k : A -> result B) : result B :=
  match m with
  | inl e => inl e
  | inr x => k x
  end.

(** [for x in items: acc = body(acc, x)], leaving at the first exception. *)
Fixpoint for_each {A S} (items : list A) (body : S -> A -> result S) (acc : S) : result S :=
  match items with
  | [] => ret acc
  | x :: rest => bind (body acc x) (for_each rest body)
  end.

End PyExn.

Notation "x <- m ;; k" := (PyExn.bind m (fun x => k))
  (at level 61, m at next level, right associativity).
Notation "' pat <- m ;; k" := (PyExn.bind m (fun x => match x with pat => k end))
  (at level 61, pat pattern, m at next level, right associativity).
(* ===================================================================== *)
(** * techniques/cv.py: indexing a cyclic voltammagram *)
(* ===================================================================== *)

Module CVIndexing.

Import PyExn.
Local Open Scope string_scope.
Local Open Scope list_scope.
Local Open Scope Z_scope.

(** An element of a list used as a key: an [int], a [bool] (which is no
    [int] for [type(i) is int]), or a value of another type. *)
Inductive element : Type :=
| EInt (z : Z)
| EBool (b : bool)
| EOther (tag : nat).

(** A key of [__getitem__]: a slice whose three fields are [None] or an
    [int] each, an [int], a [bool] (an instance of [int]), a list, or a
    value of another type, such as the name of a series. *)
Inductive key : Type :=
| KSlice (start stop step : option Z)
| KInt (z : Z)
| KBool (b : bool)
| KList (items : list element)
| KOther (tag : nat).

(** Where [__getitem__] hands the key on to: [self.select(key)], or
    [super().__getitem__(key)].  Both are methods of [Measurement], which
    is not part of the sources at hand. *)
Inductive lookup : Type :=
| Select (key : key)
| Super (key : key).

(** The number of items of [range(start, stop, step)] for [step != 0]. *)
Definition range_length (start stop step : Z) : Z :=
  if 0 <? step then
    if start <? stop then (stop - start - 1) / step + 1 else 0
  else
    if stop <? start then (start - stop - 1) / (- step) + 1 else 0.

(** [list(range(start, stop, step))]; [None] is no argument of [range]. *)
Definition range (start stop : option Z) (step : Z) : result (list Z) :=
  match start, stop with
  | Some start, Some stop =>
      if step =? 0 then raise (ValueError "range() arg 3 must not be zero")
      else ret (map (fun k => start + Z.of_nat k * step)
                    (seq 0 (Z.to_nat (range_length start stop step))))
  | _, _ => raise (TypeError "'NoneType' object cannot be interpreted as an integer")
  end.

(** [type(i) is int] *)
Definition type_is_int (i : element) : bool :=
  match i with
  | EInt _ => true
  | EBool _ | EOther _ => false
  end.

Section GetItem.

(** [f"{key}"] for a list, which the message of the error shows. *)
Variable format_key : list element -> string.

(** [CyclicVoltammagram.__getitem__]: the lines printed, and the
    exception raised or the method the key is handed to. *)
Definition __getitem__ (key : key) : list string * result lookup :=
  let slice_as_list :=
    match key with
    | KSlice start stop step =>
        let step := match step with None => 1 | Some step => step end in
        cycles <- range start stop step ;;
        ret (KList (map EInt cycles))
    | _ => ret key
    end in
  match slice_as_list with
  | inl e => ([], inl e)
  | inr key =>
      match key with
      | KInt _ | KBool _ => ([], ret (Select key))
      | KList items =>
          if negb (forallb type_is_int items) then
            ([ "can't get an item of type list unless all elements are int";
               ("you tried to get key = " ++ format_key items ++ ".")%string ],
             raise (AttributeError EmptyString))
          else ([], ret (Select key))
      | KSlice _ _ _ | KOther _ => ([], ret (Super key))
      end
  end.

End GetItem.

End CVIndexing.


(* ===================================================================== *)
(** * numpy arrays and slices *)
(* ===================================================================== *)

Module Np.

Import PyExn.
Local Open Scope string_scope.
Local Open Scope list_scope.
Local Open Scope nat_scope.

(** The bounds [a[b:e]] selects in a sequence of [len] items, for bounds
    that are [None] or not negative. *)
Definition slice_bounds (b e : option nat) (len : nat) : nat * nat :=
  let start := match b with Some b => Nat.min b len | None => 0 end in
  let stop := match e with Some e => Nat.min e len | None => len end in
  (start, stop).

(** [a[b:e]] *)
Definition slice {A} (b e : option nat) (a : list A) : list A :=
  let '(start, stop) := slice_bounds b e (List.length a) in
  firstn (stop - start) (skipn start a).

(** [a[:count]] for a Python int [count]; a negative one counts from the end. *)
Definition slice_to_int {A} (count : Z) (a : list A) : list A :=
  if (0 <=? count)%Z then firstn (Z.to_nat count) a
  else firstn (Z.to_nat (Z.of_nat (List.length a) + count)) a.

(** A two-dimensional array: its rows, each [ncols] long. *)
Record matrix (F : Type) : Type := mk_matrix {
  ncols : nat;
  rows : list (list F)
}.
Arguments mk_matrix {F} ncols rows.
Arguments ncols {F} m.
Arguments rows {F} m.

(** What [np.genfromtxt] returns: one-dimensional for a file of one data
    row, two-dimensional otherwise. *)
Inductive ndarray (F : Type) : Type :=
| Array1 (data : list F)
| Array2 (m : matrix F).
Arguments Array1 {F} data.
Arguments Array2 {F} m.

Section Matrix.
Context {F : Type}.

(** [m[:, b:e]] *)
Definition columns (b e : option nat) (m : matrix F) : matrix F :=
  let '(start, stop) := slice_bounds b e (ncols m) in
  mk_matrix (stop - start) (map (slice b e) (rows m)).

(** [a[:, b:e]] on what [genfromtxt] returned. *)
Definition array_columns (b e : option nat) (a : ndarray F) : result (matrix F) :=
  match a with
  | Array1 _ => raise (IndexError "too many indices for array")
  | Array2 m => ret (columns b e m)
  end.

(** [m[:count, :]] *)
Definition rows_to_int (count : Z) (m : matrix F) : matrix F :=
  mk_matrix (ncols m) (slice_to_int count (rows m)).

(** [m[b:e, :]] *)
Definition rows_range (b e : nat) (m : matrix F) : matrix F :=
  mk_matrix (ncols m) (slice (Some b) (Some e) (rows m)).

Fixpoint column_of_rows (j : nat) (rs : list (list F)) : result (list F) :=
  match rs with
  | [] => ret []
  | r :: rest =>
      match nth_error r j with
      | Some x => col <- column_of_rows j rest ;; ret (x :: col)
      | None => raise (IndexError "index is out of bounds for axis 1")
      end
  end.

(** [m[:, j]] *)
Definition column (j : nat) (m : matrix F) : result (list F) :=
  if j <? ncols m then column_of_rows j (rows m)
  else raise (IndexError "index is out of bounds for axis 1").

End Matrix.

End Np.

(* ===================================================================== *)
(** * readers/zilien.py: the data model *)
(* ===================================================================== *)

Module ZilienData.

Import PyExn PyDict.
Local Open Scope string_scope.
Local Open Scope list_scope.
Local Open Scope nat_scope.

(** Modelled from the spec: the Measurement classes of [ixdat.techniques]
    are not part of the sources at hand except for [CyclicVoltammagram];
    the reader tells them apart with [issubclass] only.  An
    [ECMSMeasurement] is both an [ECMeasurement] and an [MSMeasurement]. *)
Inductive measurement_class : Type :=
| Measurement | ECMeasurement | MSMeasurement | ECMSMeasurement | CyclicVoltammagram.

Definition class_eqb (a b : measurement_class) : bool :=
  match a, b with
  | Measurement, Measurement | ECMeasurement, ECMeasurement
  | MSMeasurement, MSMeasurement | ECMSMeasurement, ECMSMeasurement
  | CyclicVoltammagram, CyclicVoltammagram => true
  | _, _ => false
  end.

Definition issubclass (cls base : measurement_class) : bool :=
  match base, cls with
  | Measurement, _ => true
  | ECMeasurement, (ECMeasurement | ECMSMeasurement | CyclicVoltammagram) => true
  | MSMeasurement, (MSMeasurement | ECMSMeasurement) => true
  | ECMSMeasurement, ECMSMeasurement => true
  | CyclicVoltammagram, CyclicVoltammagram => true
  | _, _ => false
  end.

(** A metadata value after type conversion. *)
Inductive pyval (F : Type) : Type :=
| MStr (s : string)
| MInt (z : Z)
| MFloat (x : F)
| MBool (b : bool).
Arguments MStr {F} s.
Arguments MInt {F} z.
Arguments MFloat {F} x.
Arguments MBool {F} b.

(** Modelled from the spec: the series classes of [ixdat.data_series] are
    not part of the sources at hand.  A series is a named sequence with
    a unit; a TimeSeries has a [tstamp] in addition; a ValueSeries refers
    to the TimeSeries of its time axis. *)
Inductive series (F : Type) : Type :=
| DataSeries (name unit_name : string) (data : list F)
| TimeSeries (name unit_name : string) (data : list F) (tstamp : option F)
| ValueSeries (name unit_name : string) (data : list F) (tseries : series F).
Arguments DataSeries {F} name unit_name data.
Arguments TimeSeries {F} name unit_name data tstamp.
Arguments ValueSeries {F} name unit_name data tseries.

(** A value of a keyword argument of [read], or of an entry of the dict
    an object is constructed from.  [PField] is a Field of one-dimensional
    data with its axes, [PReader] a spectrum reader with its path. *)
Inductive pyobj (F : Type) : Type :=
| PNone
| PStr (s : string)
| PFloat (x : F)
| PSeriesList (l : list (series F))
| PAliases (d : dict (list string))
| PMetadata (d : dict (pyval F))
| PField (name unit_name : string) (data : list F) (axes_series : list (series F))
| PReader (path : option string)
| POther (tag : nat).
Arguments PNone {F}.
Arguments PStr {F} s.
Arguments PFloat {F} x.
Arguments PSeriesList {F} l.
Arguments PAliases {F} d.
Arguments PMetadata {F} d.
Arguments PField {F} name unit_name data axes_series.
Arguments PReader {F} path.
Arguments POther {F} tag.

(** Modelled from the spec: the constructors of the Measurement classes
    are not part of the sources at hand.  A measurement is the class and
    the payload [{name, series_list, aliases, tstamp, metadata, ...}] it
    was constructed from. *)
Record measurement (F : Type) : Type := mk_measurement {
  m_cls : measurement_class;
  m_kwargs : dict (pyobj F)
}.
Arguments mk_measurement {F} m_cls m_kwargs.
Arguments m_cls {F} m.
Arguments m_kwargs {F} m.

(** The attributes of a [ZilienTSVReader]; [None] is Python's [None], the
    value [__init__] gives each of them. *)
Record reader (F : Type) : Type := mk_reader {
  _path_to_file : option string;
  _cls : option measurement_class;
  _measurement : option (measurement F);
  _timestamp : option F;
  _metadata : option (dict (pyval F));
  _series_headers : option (list string);
  _column_headers : option (list string);
  _data : option (Np.ndarray F)
}.
Arguments mk_reader {F} _path_to_file _cls _measurement _timestamp _metadata
  _series_headers _column_headers _data.
Arguments _path_to_file {F} r.
Arguments _cls {F} r.
Arguments _measurement {F} r.
Arguments _timestamp {F} r.
Arguments _metadata {F} r.
Arguments _series_headers {F} r.
Arguments _column_headers {F} r.
Arguments _data {F} r.

(** What a call of [read] can change or leave a trace in: the reader
    itself, the text printed, and the paths passed to [open]. *)
Record world (F : Type) : Type := mk_world {
  self_ : reader F;
  stdout : list string;
  opened : list string
}.
Arguments mk_world {F} self_ stdout opened.
Arguments self_ {F} w.
Arguments stdout {F} w.
Arguments opened {F} w.

(** What the reader takes from outside the repository: the float type of
    numpy with the operations used on it, the conversions [int()] and
    [float()] of Python, the file system, [np.genfromtxt], [pathlib] and
    the helpers of [reading_tools]. *)
Class Platform : Type := {
  float : Type;
  isnan : float -> bool;
  fmul : float -> float -> float;
  fadd : float -> float -> float;
  feqb : float -> float -> bool;
  float_of_int : Z -> float;
  py_int : string -> option Z;
  py_float : string -> option float;
  (** the lines of a text file, each with its line end; [None] when
      [open] fails *)
  open_text : string -> option (list string);
  (** [np.genfromtxt(handle, delimiter="\t")] on the lines left *)
  genfromtxt : list string -> result (Np.ndarray float);
  (** [Path(p).stem] and [Path(p).name] *)
  path_stem : string -> string;
  path_name : string -> string;
  (** [timestamp_string_to_tstamp(timestamp_string, form)] *)
  timestamp_string_to_tstamp : string -> string -> result float;
  (** [pd.read_csv(path, header=9, delimiter="\t")]: the columns by name *)
  read_csv : string -> result (dict (list float));
  (** [re.search(FLOAT_MATCH, line)]: the text of the match *)
  search_float : string -> option string
}.

End ZilienData.

(* ===================================================================== *)
(** * readers/zilien.py: module-level functions and static methods *)
(* ===================================================================== *)

Module Itertools.

(** [itertools.zip_longest(xs, ys)]: the shorter side is filled with [None]. *)
Fixpoint zip_longest {A B} (xs : list A) (ys : list B) : list (option A * option B) :=
  match xs, ys with
  | [], [] => []
  | x :: xs', [] => (Some x, None) :: zip_longest xs' []
  | [], y :: ys' => (None, Some y) :: map (fun y => (None, Some y)) ys'
  | x :: xs', y :: ys' => (Some x, Some y) :: zip_longest xs' ys'
  end.

Section Groupby.
Variable A : Type.
(** [a == b] on the items *)
Variable eqb : A -> A -> bool.

(** The groups of [itertools.groupby] from the point where the group
    of [tgtkey] is open and holds [group]: an item goes to the open
    group as long as [tgtkey == item]; the first item of a group is its
    key and is not compared with itself. *)
Fixpoint groupby_from (tgtkey : A) (group : list A) (items : list A)
  : list (A * list A) :=
  match items with
  | [] => [(tgtkey, group)]
  | x :: rest =>
      if eqb tgtkey x then groupby_from tgtkey (group ++ [x]) rest
      else (tgtkey, group) :: groupby_from x [x] rest
  end.

(** [[(key, list(group)) for key, group in groupby(items)]] *)
Definition groupby (items : list A) : list (A * list A) :=
  match items with
  | [] => []
  | x :: rest => groupby_from x [x] rest
  end.

End Groupby.

End Itertools.

Module Zilien.

Import PyExn PyDict ZilienData.
Local Open Scope string_scope.
Local Open Scope list_scope.
Local Open Scope nat_scope.

Definition ZILIEN_TIMESTAMP_FORM : string := "%Y-%m-%d %H_%M_%S".
Definition ZILIEN_MASS_COLUMN_NAMES : list string := ["Mass  [AMU]"; "Mass [AMU]"].
Definition ZILIEN_EC_ALIASES : dict (list string) :=
  [ ("t", ["Potential time [s]"]);
    ("raw_potential", ["Voltage [V]"]);
    ("raw_current", ["Current [mA]"]);
    ("cycle", ["Cycle [n]"]) ].

(** [ZILIEN_ALIASES[cls]], [None] for a [KeyError]. *)
Definition ZILIEN_ALIASES (cls : measurement_class) : option (dict (list string)) :=
  match cls with
  | ECMSMeasurement => Some ZILIEN_EC_ALIASES
  | MSMeasurement => Some []
  | ECMeasurement => Some ZILIEN_EC_ALIASES
  | Measurement | CyclicVoltammagram => None
  end.

Definition BIOLOGIC_SERIES_NAME : string := "EC-lab".

(** [ZILIEN_COLUMN_HEADER_RE.match(s)] for [^(.+?) \[(.+?)\]$]: the second
    group.  The first group is lazy, so it ends at the first [" ["] that
    is not at the start; the second group runs to the closing bracket,
    which the anchored end makes the last character. *)
Definition zilien_header_unit (s : string) : option string :=
  match PyStr.regex_text s with
  | None => None
  | Some s =>
      if PyStr.endswith s "]" then
        match index 1 " [" s with
        | Some i =>
            if i + 3 <=? String.length s - 1
            then Some (substring (i + 2) (String.length s - 1 - (i + 2)) s)
            else None
        | None => None
        end
      else None
  end.

(** [BIOLOGIC_COLUMN_HEADER_RE.match(s)] for [^(.+)/(.+)$]: the second
    group.  The first group is greedy, so it ends at the last [/] that
    leaves a character on its right and has one on its left. *)
Definition biologic_header_unit (s : string) : option string :=
  match PyStr.regex_text s with
  | None => None
  | Some s =>
      match PyStr.rindex "/" (substring 1 (String.length s - 2) s) 1 with
      | Some i => Some (substring (i + 1) (String.length s - (i + 1)) s)
      | None => None
      end
  end.

(** [to_mass]: the digits after [M] when the string has the form
    [^C[0-9]+M([0-9]+)$], else [None]. *)
Definition to_mass (s : string) : option string :=
  match PyStr.regex_text s with
  | Some (String "C" rest) =>
      match PyStr.span_digits rest with
      | (String _ _, String "M" mass) =>
          match mass with
          | EmptyString => None
          | _ => if PyStr.all_digits mass then Some mass else None
          end
      | _ => None
      end
  | _ => None
  end.

(** [_get_series_splits]: the index pairs and the non-empty headers.
    [zip_longest] pairs each index with the next one and the last index
    with [None]. *)
Definition _get_series_splits (series_headers : list string)
  : list (option nat * option nat) * list string :=
  let found :=
    fold_left
      (fun (acc : list nat * list string) (item : nat * string) =>
         let '(series_split_indices, nonempty_headers) := acc in
         let '(index, series_header) := item in
         if negb (String.eqb series_header EmptyString)
         then (series_split_indices ++ [index], nonempty_headers ++ [series_header])
         else acc)
      (combine (seq 0 (List.length series_headers)) series_headers)
      ([], []) in
  let '(series_split_indices, nonempty_headers) := found in
  (Itertools.zip_longest series_split_indices (Np.slice (Some 1) None series_split_indices),
   nonempty_headers).

(** [_get_biologic_splits] *)
Definition _get_biologic_splits {A} (eqb : A -> A -> bool) (technique_numbers : list A)
  : list (nat * nat) :=
  snd (fold_left
         (fun (acc : nat * list (nat * nat)) (item : A * list A) =>
            let '(index, splits) := acc in
            let group_length := List.length (snd item) in
            (index + group_length, splits ++ [(index, index + group_length)]))
         (Itertools.groupby A eqb technique_numbers)
         (0, [])).

(** [_form_names_and_unit]: series name, unit and standard name. *)
Definition _form_names_and_unit (series_header column_header : string)
  : string * string * option string :=
  if PyStr.mem column_header ["Time [s]"; "time/s"] then
    let unit := "s" in
    let name :=
      if String.eqb series_header "pot"
      then ("Potential " ++ PyStr.lower column_header)%string
      else if String.eqb series_header BIOLOGIC_SERIES_NAME
      then ("Biologic " ++ PyStr.lower column_header)%string
      else (series_header ++ " " ++ PyStr.lower column_header)%string in
    (name, unit, None)
  else
    let unit :=
      match zilien_header_unit column_header with
      | Some unit => unit
      | None =>
          match biologic_header_unit column_header with
          | Some unit => unit
          | None => EmptyString
          end
      end in
    let setpoint_or_value :=
      existsb (PyStr.endswith series_header) ["setpoint"; "value"] in
    if setpoint_or_value then
      ((series_header ++ " [" ++ unit ++ "]")%string, unit, None)
    else
      match to_mass series_header with
      | Some mass =>
          (("M" ++ mass ++ " [" ++ unit ++ "]")%string, unit, Some ("M" ++ mass)%string)
      | None => (column_header, unit, None)
      end.

Section Reader.

Context {P : Platform}.

(** [parse_metadata_line] *)
Definition parse_metadata_line (line : string) : result (string * pyval float) :=
  match PyStr.split PyStr.tab (PyStr.strip_newline line) with
  | [name; comment; attach_to_series; type_as_str; value] =>
      let full_name :=
        match attach_to_series with
        | EmptyString => name
        | _ => (attach_to_series ++ "_" ++ name)%string
        end in
      if String.eqb type_as_str "string" then ret (full_name, MStr value)
      else if String.eqb type_as_str "int" then
        match py_int value with
        | Some z => ret (full_name, MInt z)
        | None => raise (ValueError "invalid literal for int()")
        end
      else if String.eqb type_as_str "double" then
        match py_float value with
        | Some x => ret (full_name, MFloat x)
        | None => raise (ValueError "could not convert string to float")
        end
      else if String.eqb type_as_str "bool" then
        ret (full_name, MBool (String.eqb value "true"))
      else
        raise (TypeError ("Unknown metadata type " ++ type_as_str ++ " for " ++ name)%string)
  | _ => raise (ValueError "wrong number of values to unpack")
  end.

(** [file_handle.readline()]: the next line, or the empty string at the
    end of the file. *)
Definition readline (handle : list string) : string * list string :=
  match handle with
  | [] => (EmptyString, [])
  | line :: rest => (line, rest)
  end.

(** [for _ in range(k): key, value = parse_metadata_line(readline());
    metadata[key] = value] *)
Fixpoint read_metadata_lines (k : nat) (handle : list string)
         (metadata : dict (pyval float)) : result (list string * dict (pyval float)) :=
  match k with
  | 0 => ret (handle, metadata)
  | S k' =>
      let '(line, handle) := readline handle in
      '(key, value) <- parse_metadata_line line ;;
      read_metadata_lines k' handle (set metadata key value)
  end.

(** [range(metadata["num_header_lines"] - fixed)]: how often the loop
    runs.  A [bool] counts as 0 or 1; a string or a float is no operand
    of the subtraction or of [range]. *)
Definition header_lines_left (metadata : dict (pyval float)) (fixed : Z) : result nat :=
  match get metadata "num_header_lines" with
  | None => raise (KeyError "num_header_lines")
  | Some (MInt z) => ret (Z.to_nat (z - fixed))
  | Some (MBool b) => ret (Z.to_nat ((if b then 1 else 0) - fixed))
  | Some (MFloat _) => raise (TypeError "'float' object cannot be interpreted as an integer")
  | Some (MStr _) => raise (TypeError "unsupported operand type(s) for -: 'str' and 'int'")
  end.

(** [_read_metadata]: the metadata, the two header rows, and the lines
    the handle has not read. *)
Definition _read_metadata (file_handle : list string)
  : result (dict (pyval float) * list string * list string * list string) :=
  let metadata : dict (pyval float) := [] in
  let fixed_metadata_lines_amount := 4 in
  '(file_handle, metadata) <-
    read_metadata_lines fixed_metadata_lines_amount file_handle metadata ;;
  left <- header_lines_left metadata (Z.of_nat fixed_metadata_lines_amount) ;;
  '(file_handle, metadata) <- read_metadata_lines left file_handle metadata ;;
  let metadata :=
    if negb (contains metadata "file_format_version")
    then set metadata "file_format_version" (MInt 1)
    else metadata in
  let '(line, file_handle) := readline file_handle in
  let series_headers := PyStr.split PyStr.tab (PyStr.strip_newline line) in
  let '(line, file_handle) := readline file_handle in
  let column_headers := PyStr.split PyStr.tab (PyStr.strip_newline line) in
  ret (metadata, series_headers, column_headers, file_handle).

(** [ZilienTSVReader.__init__] *)
Definition __init__ : reader float := mk_reader None None None None None None None None.

(** An attribute that must not be [None] where it is used. *)
Definition attribute {A} (name : string) (value : option A) : result A :=
  match value with
  | Some x => ret x
  | None => raise (TypeError ("self." ++ name ++ " is None")%string)
  end.

(** [m[:count, :]] for a count taken from the metadata. *)
Definition rows_to_count (count : pyval float) (m : Np.matrix float)
  : result (Np.matrix float) :=
  match count with
  | MInt z => ret (Np.rows_to_int z m)
  | MBool b => ret (Np.rows_to_int (if b then 1 else 0)%Z m)
  | MFloat _ | MStr _ => raise (TypeError "slice indices must be integers")
  end.

(** [column_headers.index(header)] *)
Fixpoint list_index (header : string) (column_headers : list string) : result nat :=
  match column_headers with
  | [] => raise (ValueError (header ++ " is not in list")%string)
  | h :: rest =>
      if String.eqb h header then ret 0
      else i <- list_index header rest ;; ret (S i)
  end.

Definition names_and_units_t : Type := list (string * string * option string).

(** One pass through the loop of [_create_series_objects], on the pair
    [(series_objects, time_series)]. *)
Definition create_series_step (self : reader float) (names_and_units : names_and_units_t)
           (data_rows_split : Np.matrix float)
           (acc : list (series float) * option (series float))
           (item : nat * string)
  : result (list (series float) * option (series float)) :=
  let '(series_objects, time_series) := acc in
  let '(column_number, column_header) := item in
  if PyStr.mem column_header ["experiment_number"; "technique_number"] then ret acc
  else
    column_data <- Np.column column_number data_rows_split ;;
    if forallb isnan column_data then ret acc
    else
      match nth_error names_and_units column_number with
      | None => raise (IndexError "list index out of range")
      | Some (series_name, unit, standard_name) =>
          if PyStr.mem column_header ["Time [s]"; "time/s"] then
            let series_object :=
              TimeSeries series_name unit column_data (_timestamp self) in
            ret (series_objects ++ [series_object], Some series_object)
          else
            match time_series with
            | None =>
                raise (ValueError "Time column must be first in a dataset series.")
            | Some tseries =>
                let series_object := ValueSeries series_name unit column_data tseries in
                ret (series_objects ++ [series_object], time_series)
            end
      end.

(** [_create_series_objects] *)
Definition _create_series_objects (self : reader float) (column_headers : list string)
           (names_and_units : names_and_units_t) (data_rows_split : Np.matrix float)
  : result (list (series float)) :=
  '(series_objects, _) <-
    for_each (combine (seq 0 (List.length column_headers)) column_headers)
             (create_series_step self names_and_units data_rows_split)
             ([], None) ;;
  ret series_objects.

(** The mass aliases of a block: [aliases[standard_name].append(series_name)]
    for every column with a standard name. *)
Definition block_aliases (names_and_units : names_and_units_t) : dict (list string) :=
  fold_left
    (fun aliases (item : string * string * option string) =>
       let '(series_name, _, standard_name) := item in
       match standard_name with
       | Some (String _ _ as standard_name) => append aliases standard_name series_name
       | Some EmptyString | None => aliases
       end)
    names_and_units [].

(** [_zilien_dataset_part] *)
Definition _zilien_dataset_part (self : reader float) (series_header : string)
           (column_headers : list string) (data_columns_split : Np.matrix float)
  : result (list (series float) * dict (list string)) :=
  metadata <- attribute "_metadata" (_metadata self) ;;
  let key := (series_header ++ "_" ++ series_header ++ "_count")%string in
  match get metadata key with
  | None => raise (KeyError key)
  | Some count =>
      let names_and_units := map (_form_names_and_unit series_header) column_headers in
      let aliases := block_aliases names_and_units in
      data_rows_split <- rows_to_count count data_columns_split ;;
      column_series <-
        _create_series_objects self column_headers names_and_units data_rows_split ;;
      ret (column_series, aliases)
  end.

(** [exp_nums * 1000 + tech_nums] *)
Definition split_vector (exp_nums tech_nums : list float) : list float :=
  map (fun '(e, t) => fadd (fmul e (float_of_int 1000)) t) (combine exp_nums tech_nums).

(** [_biologic_dataset_part] *)
Definition _biologic_dataset_part (self : reader float) (column_headers : list string)
           (data_columns_split : Np.matrix float)
  : result (list (series float)) :=
  metadata <- attribute "_metadata" (_metadata self) ;;
  let key := (BIOLOGIC_SERIES_NAME ++ "_" ++ BIOLOGIC_SERIES_NAME ++ "_count")%string in
  match get metadata key with
  | None => raise (KeyError key)
  | Some count =>
      let names_and_units :=
        map (_form_names_and_unit BIOLOGIC_SERIES_NAME) column_headers in
      exp_index <- list_index "experiment_number" column_headers ;;
      counted <- rows_to_count count data_columns_split ;;
      exp_nums <- Np.column exp_index counted ;;
      tech_index <- list_index "technique_number" column_headers ;;
      tech_nums <- Np.column tech_index counted ;;
      let splits := _get_biologic_splits feqb (split_vector exp_nums tech_nums) in
      for_each splits
        (fun column_series '(begin, end_) =>
           part <- _create_series_objects self column_headers names_and_units
                     (Np.rows_range begin end_ data_columns_split) ;;
           ret (column_series ++ part))
        []
  end.

(** One pass through the loop of [_form_series], on the pair
    [(series, aliases)]. *)
Definition form_series_step (self : reader float)
           (acc : list (series float) * dict (list string))
           (item : string * (option nat * option nat))
  : result (list (series float) * dict (list string)) :=
  let '(series, aliases) := acc in
  let '(series_header, (begin, end_)) := item in
  cls <- attribute "_cls" (_cls self) ;;
  if negb (issubclass cls ECMeasurement)
     && PyStr.mem series_header ["pot"; BIOLOGIC_SERIES_NAME] then ret acc
  else if negb (issubclass cls MSMeasurement)
          && match to_mass series_header with Some _ => true | None => false end
  then ret acc
  else
    column_headers <- attribute "_column_headers" (_column_headers self) ;;
    let column_headers_split := Np.slice begin end_ column_headers in
    data <- attribute "_data" (_data self) ;;
    data_columns_split <- Np.array_columns begin end_ data ;;
    if String.eqb series_header BIOLOGIC_SERIES_NAME then
      column_series <- _biologic_dataset_part self column_headers_split data_columns_split ;;
      ret (series ++ column_series, aliases)
    else
      '(column_series, aliases_part) <-
        _zilien_dataset_part self series_header column_headers_split data_columns_split ;;
      let aliases :=
        fold_left (fun aliases '(standard_name, series_name) =>
                     extend aliases standard_name series_name)
                  aliases_part aliases in
      ret (series ++ column_series, aliases).

(** [_form_series] *)
Definition _form_series (self : reader float)
  : result (list (series float) * dict (list string)) :=
  series_headers <- attribute "_series_headers" (_series_headers self) ;;
  let '(series_split_indices, nonempty_headers) := _get_series_splits series_headers in
  for_each (combine nonempty_headers series_split_indices)
           (form_series_step self)
           ([], []).

(** ** [ZilienTSVReader.read] *)

(** A method that reads and writes the world and raises or returns.
    What was assigned before an exception stays assigned. *)
Definition M (A : Type) : Type := world float -> result A * world float.

Definition mret {A} (x : A) : M A := fun w => (ret x, w).

Definition mbind {A B} (m : M A) (k : A -> M B) : M B :=
  fun w =>
    match m w with
    | (inl e, w') => (inl e, w')
    | (inr x, w') => k x w'
    end.

Definition lift {A} (r : result A) : M A := fun w => (r, w).

Definition get_self : M (reader float) := fun w => (ret (self_ w), w).

Definition set_self (f : reader float -> reader float) : M unit :=
  fun w => (ret tt, mk_world (f (self_ w)) (stdout w) (opened w)).

Definition print (text : string) : M unit :=
  fun w => (ret tt, mk_world (self_ w) (stdout w ++ [text]) (opened w)).

(** [open(path)]: the lines of the file. *)
Definition open_ (path : string) : M (list string) :=
  fun w =>
    let w' := mk_world (self_ w) (stdout w) (opened w ++ [path]) in
    match open_text path with
    | Some lines => (ret lines, w')
    | None => (raise (OSError path), w')
    end.

Notation "x <~ m ;; k" := (mbind m (fun x => k))
  (at level 61, m at next level, right associativity).
Notation "m ;;; k" := (mbind m (fun _ => k))
  (at level 61, right associativity).

Definition set__cls (v : measurement_class) (r : reader float) : reader float :=
  mk_reader (_path_to_file r) (Some v) (_measurement r) (_timestamp r) (_metadata r)
            (_series_headers r) (_column_headers r) (_data r).
Definition set__path_to_file (v : string) (r : reader float) : reader float :=
  mk_reader (Some v) (_cls r) (_measurement r) (_timestamp r) (_metadata r)
            (_series_headers r) (_column_headers r) (_data r).
Definition set__measurement (v : measurement float) (r : reader float) : reader float :=
  mk_reader (_path_to_file r) (_cls r) (Some v) (_timestamp r) (_metadata r)
            (_series_headers r) (_column_headers r) (_data r).
Definition set__timestamp (v : float) (r : reader float) : reader float :=
  mk_reader (_path_to_file r) (_cls r) (_measurement r) (Some v) (_metadata r)
            (_series_headers r) (_column_headers r) (_data r).
Definition set__headers (metadata : dict (pyval float))
           (series_headers column_headers : list string) (r : reader float) : reader float :=
  mk_reader (_path_to_file r) (_cls r) (_measurement r) (_timestamp r) (Some metadata)
            (Some series_headers) (Some column_headers) (_data r).
Definition set__data (v : Np.ndarray float) (r : reader float) : reader float :=
  mk_reader (_path_to_file r) (_cls r) (_measurement r) (_timestamp r) (_metadata r)
            (_series_headers r) (_column_headers r) (Some v).

(** [kwargs["technique"] == text] *)
Definition is_str (value : option (pyobj float)) (text : string) : bool :=
  match value with
  | Some (PStr s) => String.eqb s text
  | _ => false
  end.

(** The first statement of [read] after the guard: the class to read
    the file as, and [kwargs] with its [technique]. *)
Definition resolve_technique (cls : measurement_class) (kwargs : dict (pyobj float))
  : measurement_class * dict (pyobj float) :=
  if contains kwargs "technique" then
    let technique := get kwargs "technique" in
    let cls := if is_str technique "EC-MS" then ECMSMeasurement else cls in
    let cls := if is_str technique "EC" then ECMeasurement else cls in
    let cls := if is_str technique "MS" then MSMeasurement else cls in
    (cls, kwargs)
  else
    let cls := if class_eqb cls Measurement then ECMSMeasurement else cls in
    let kwargs :=
      if issubclass cls ECMSMeasurement then set kwargs "technique" (PStr "EC-MS")
      else if issubclass cls ECMeasurement then set kwargs "technique" (PStr "EC")
      else if issubclass cls MSMeasurement then set kwargs "technique" (PStr "MS")
      else kwargs in
    (cls, kwargs).

(** [float(value)] for a metadata value. *)
Definition float_of_pyval (value : pyval float) : result float :=
  match value with
  | MStr s =>
      match py_float s with
      | Some x => ret x
      | None => raise (ValueError "could not convert string to float")
      end
  | MInt z => ret (float_of_int z)
  | MFloat x => ret x
  | MBool b => ret (float_of_int (if b then 1 else 0)%Z)
  end.

(** The start time of the measurement: the metadata item
    [start_time_unix], or else the time stamp in the file name. *)
Definition start_time (metadata : dict (pyval float)) (file_stem : string)
  : result float :=
  match get metadata "start_time_unix" with
  | Some value => float_of_pyval value
  | None =>
      timestamp_string_to_tstamp
        (PyStr.join " " (Np.slice None (Some 2) (PyStr.split " " file_stem)))
        ZILIEN_TIMESTAMP_FORM
  end.

(** [for standard_name, general_aliases in ZILIEN_ALIASES[cls].items():
    aliases[standard_name] += general_aliases] *)
Definition add_general_aliases (cls : measurement_class) (aliases : dict (list string))
  : result (dict (list string)) :=
  match ZILIEN_ALIASES cls with
  | None => raise (KeyError "cls")
  | Some general =>
      ret (fold_left (fun aliases '(standard_name, general_aliases) =>
                        extend aliases standard_name general_aliases)
                     general aliases)
  end.

(** [ZilienTSVReader.read(path_to_file, cls, name, **kwargs)] *)
Definition read (path_to_file : string) (cls : measurement_class)
           (name : option string) (kwargs : dict (pyobj float))
  : M (option (measurement float)) :=
  self <~ get_self ;;
  match _path_to_file self with
  | Some old_path =>
      print ("This ZilienTSVReader has already read " ++ old_path ++ ". "
             ++ "Returning the measurement resulting from the original read. "
             ++ "Use a new Reader if you want to read another file.")%string ;;;
      mret (_measurement self)
  | None =>
      let '(cls, kwargs) := resolve_technique cls kwargs in
      set_self (set__cls cls) ;;;
      set_self (set__path_to_file path_to_file) ;;;
      (* Parse metadata items *)
      file_handle <~ open_ path_to_file ;;
      parsed <~ lift (_read_metadata file_handle) ;;
      let '(metadata, series_headers, column_headers, file_handle) := parsed in
      set_self (set__headers metadata series_headers column_headers) ;;;
      (* Read raw data *)
      _ <~ open_ path_to_file ;;
      data <~ lift (genfromtxt file_handle) ;;
      set_self (set__data data) ;;;
      let file_stem := path_stem path_to_file in
      timestamp <~ lift (start_time metadata file_stem) ;;
      set_self (set__timestamp timestamp) ;;;
      (* Extract series data and form series *)
      self <~ get_self ;;
      formed <~ lift (_form_series self) ;;
      let '(series, aliases) := formed in
      aliases <~ lift (add_general_aliases cls aliases) ;;
      let measurement_kwargs : dict (pyobj float) :=
        [ ("name", PStr match name with
                        | Some (String _ _ as name) => name
                        | Some EmptyString | None => file_stem
                        end);
          ("series_list", PSeriesList series);
          ("aliases", PAliases aliases);
          ("tstamp", PFloat timestamp);
          ("metadata", PMetadata metadata) ] in
      let measurement_kwargs := update measurement_kwargs kwargs in
      let measurement := mk_measurement cls measurement_kwargs in
      set_self (set__measurement measurement) ;;;
      mret (Some measurement)
  end.

(** ** [ZilienSpectrumReader.read] *)

(** Modelled from the spec: the Spectrum classes are constructed with
    [from_dict], which is not part of the sources at hand; a spectrum
    that was read is the class and the dict it is constructed from. *)
Inductive spectrum_class : Type := Spectrum | MSSpectrum.

(** The [for ... else] over [ZILIEN_MASS_COLUMN_NAMES]: the first name
    that is a column of [df], with the column. *)
Fixpoint find_mass_column (df : dict (list float)) (names : list string)
  : option (string * list float) :=
  match names with
  | [] => None
  | x_name :: rest =>
      match get df x_name with
      | Some x => Some (x_name, x)
      | None => find_mass_column df rest
      end
  end.

(** [for i in range(k): line = f.readline(); if "Mass scan started at [s]"
    in line: tstamp = float(re.search(FLOAT_MATCH, line).group())] *)
Fixpoint scan_tstamp (k : nat) (f : list string) (tstamp : option float)
  : result (option float) :=
  match k with
  | 0 => ret tstamp
  | S k' =>
      let '(line, f) := readline f in
      if PyStr.contains "Mass scan started at [s]" line then
        match search_float line with
        | None => raise (AttributeError "'NoneType' object has no attribute 'group'")
        | Some text =>
            match py_float text with
            | Some x => scan_tstamp k' f (Some x)
            | None => raise (ValueError "could not convert string to float")
            end
        end
      else scan_tstamp k' f tstamp
  end.

(** [ZilienSpectrumReader.read(path_to_spectrum, cls, **kwargs)] on a
    reader whose attribute [path_to_spectrum] is [self_path]: the class
    and the dict passed to [from_dict]. *)
Definition spectrum_read (self_path : option string) (path_to_spectrum : string)
           (cls : option spectrum_class) (kwargs : dict (pyobj float))
  : result (spectrum_class * dict (pyobj float)) :=
  let self_path :=
    match path_to_spectrum with
    | EmptyString => self_path
    | _ => Some path_to_spectrum
    end in
  let cls := match cls with Some cls => cls | None => MSSpectrum end in
  match self_path with
  | None => raise (ValueError "Invalid file path or buffer object type")
  | Some path =>
      df <- read_csv path ;;
      let y_name := "Current [A]" in
      match find_mass_column df ZILIEN_MASS_COLUMN_NAMES with
      | None =>
          raise (ReadError ("Can't find a mass column in " ++ path ++ ". "
                            ++ "Looked for one of ['Mass  [AMU]', 'Mass [AMU]']")%string)
      | Some (x_name, x) =>
          match get df y_name with
          | None => raise (KeyError y_name)
          | Some y =>
              match open_text path with
              | None => raise (OSError path)
              | Some f =>
                  tstamp <- scan_tstamp 10 f None ;;
                  let xseries := DataSeries x_name "m/z" x in
                  let field := PField y_name "A" y [xseries] in
                  match tstamp with
                  | None => raise (UnboundLocalError "tstamp")
                  | Some tstamp =>
                      let obj_as_dict : dict (pyobj float) :=
                        [ ("name", PStr (path_name path));
                          ("technique", PStr "MS");
                          ("field", field);
                          ("reader", PReader (Some path));
                          ("tstamp", PFloat tstamp) ] in
                      ret (cls, update obj_as_dict kwargs)
                  end
              end
          end
      end
  end.
End Reader.
End Zilien.

(* ===================================================================== *)
(** * A small platform and file, to run the reader on *)
(* ===================================================================== *)

Module ZilienExample.

Import PyExn PyDict ZilienData.
Local Open Scope string_scope.
Local Open Scope list_scope.
Local Open Scope nat_scope.

(** Floats that are whole numbers, and NaN ([None]). *)
Definition xfloat : Type := option Z.

Definition lift2 (f : Z -> Z -> Z) (a b : xfloat) : xfloat :=
  match a, b with
  | Some x, Some y => Some (f x y)
  | _, _ => None
  end.

Fixpoint digits_value (s : string) (acc : Z) : Z :=
  match s with
  | EmptyString => acc
  | String ch rest => digits_value rest (10 * acc + Z.of_nat (nat_of_ascii ch - 48))%Z
  end.

(** [int(s)] for a string of digits. *)
Definition parse_int (s : string) : option Z :=
  match s with
  | EmptyString => None
  | _ => if PyStr.all_digits s then Some (digits_value s 0%Z) else None
  end.

(** A line of tab-separated cells with its line end. *)
Definition tsv_line (cells : list string) : string :=
  (PyStr.join (String PyStr.tab EmptyString) cells ++ String PyStr.newline EmptyString)%string.

Definition demo_path : string := "2021-04-20 11_16_18 demo.tsv".

Definition demo_data : list string :=
  [ tsv_line ["0"; "5"; "0"; "7"];
    tsv_line ["1"; "6"; "1"; "8"];
    tsv_line ["2"; "6"; "2"; "9"] ].

(** A Zilien file with seven metadata lines, the two header rows (a
    potential block and one mass channel), and three rows of data. *)
Definition demo_file : list string :=
  [ tsv_line ["file_format_version"; EmptyString; EmptyString; "int"; "2"];
    tsv_line ["num_header_lines"; EmptyString; EmptyString; "int"; "7"];
    tsv_line ["num_data_header_lines"; EmptyString; EmptyString; "int"; "2"];
    tsv_line ["data_start"; EmptyString; EmptyString; "int"; "10"];
    tsv_line ["start_time_unix"; EmptyString; EmptyString; "double"; "1618917378"];
    tsv_line ["pot_count"; EmptyString; "pot"; "int"; "3"];
    tsv_line ["C0M2_count"; EmptyString; "C0M2"; "int"; "2"];
    tsv_line ["pot"; EmptyString; "C0M2"; EmptyString];
    tsv_line ["Time [s]"; "Voltage [V]"; "Time [s]"; "M2-H2 [A]"] ]
  ++ demo_data.

(** The same file with the voltage column before the time column of its block. *)
Definition time_second_path : string := "2021-04-20 11_16_18 time second.tsv".

Definition time_second_file : list string :=
  firstn 8 demo_file
  ++ [ tsv_line ["Voltage [V]"; "Time [s]"; "Time [s]"; "M2-H2 [A]"] ]
  ++ demo_data.

(** The same file with a metadata line of the type [color]. *)
Definition color_path : string := "2021-04-20 11_16_18 color.tsv".

Definition color_file : list string :=
  firstn 4 demo_file
  ++ [ tsv_line ["trace_color"; EmptyString; EmptyString; "color"; "red"] ]
  ++ skipn 5 demo_file.

(** A spectrum file read by pandas: with a mass column, and without one. *)
Definition spectrum_path : string := "spectrum.tsv".
Definition no_mass_path : string := "no mass.tsv".

Definition parse_row (line : string) : list xfloat :=
  map parse_int (PyStr.split PyStr.tab (PyStr.strip_newline line)).

#[export] Instance platform : Platform := {|
  float := xfloat;
  isnan := fun x => match x with None => true | Some _ => false end;
  fmul := lift2 Z.mul;
  fadd := lift2 Z.add;
  feqb := fun a b => match a, b with Some x, Some y => Z.eqb x y | _, _ => false end;
  float_of_int := fun z => Some z;
  py_int := parse_int;
  py_float := fun s => match parse_int s with Some z => Some (Some z) | None => None end;
  open_text := fun path =>
    if String.eqb path demo_path then Some demo_file
    else if String.eqb path time_second_path then Some time_second_file
    else if String.eqb path color_path then Some color_file
    else if String.eqb path spectrum_path then
      Some [tsv_line ["Mass scan started at [s]"; "12"]]
    else None;
  genfromtxt := fun lines =>
    match lines with
    | [line] => ret (Np.Array1 (parse_row line))
    | _ =>
        ret (Np.Array2 (Np.mk_matrix (List.length (parse_row (hd EmptyString lines)))
                                     (map parse_row lines)))
    end;
  path_stem := fun path => substring 0 (String.length path - 4) path;
  path_name := fun path => path;
  timestamp_string_to_tstamp := fun _ _ => ret (Some 0%Z);
  read_csv := fun path =>
    if String.eqb path spectrum_path then
      ret [("Mass [AMU]", [Some 2%Z; Some 4%Z]); ("Current [A]", [Some 10%Z; Some 20%Z])]
    else if String.eqb path no_mass_path then
      ret [("m/z", [Some 2%Z; Some 4%Z]); ("Current [A]", [Some 10%Z; Some 20%Z])]
    else raise (OSError path);
  search_float := fun line =>
    match PyStr.split PyStr.tab (PyStr.strip_newline line) with
    | [_; text] => Some text
    | _ => None
    end
|}.

(** A world with a reader fresh from [__init__]. *)
Definition fresh_world : world float :=
  mk_world Zilien.__init__ [] [].

(** The first read of the demo file as an [ECMSMeasurement]: what it
    returns and the world it leaves. *)
Definition demo_read : result (option (measurement float)) * world float :=
  Zilien.read demo_path ECMSMeasurement None [] fresh_world.

Definition demo_world : world float := snd demo_read.

Definition demo_measurement : measurement float :=
  match fst demo_read with
  | inr (Some m) => m
  | _ => mk_measurement Measurement []
  end.

End ZilienExample.

(* ===================================================================== *)
(** * readers/zilien.py: the files of a Zilien tmp directory *)
(* ===================================================================== *)

Module ZilienTmp.

Import PyExn PyDict ZilienData.
Local Open Scope string_scope.
Local Open Scope list_scope.
Local Open Scope nat_scope.

(** Modelled from the spec: the series classes of [ixdat.data_series] are
    not part of the sources at hand.  The series of a tmp file are a
    TimeSeries and a ValueSeries on it; the unit of the ValueSeries is
    [None] for a column that is no mass. *)
Inductive series (F : Type) : Type :=
| TimeSeries (name unit_name : string) (data : list F) (tstamp : F)
| ValueSeries (name : string) (unit_name : option string) (data : list F)
              (tseries : series F).
Arguments TimeSeries {F} name unit_name data tstamp.
Arguments ValueSeries {F} name unit_name data tseries.

(** [s.startswith(prefix)] *)
Fixpoint starts_with (prefix s : string) : bool :=
  match prefix, s with
  | EmptyString, _ => true
  | String _ _, EmptyString => false
  | String a prefix', String b s' => Ascii.eqb a b && starts_with prefix' s'
  end.

(** The longest run of characters other than [.] that [s] starts with,
    and what follows it. *)
Fixpoint span_not_dot (s : string) : string * string :=
  match s with
  | EmptyString => (EmptyString, EmptyString)
  | String ch rest =>
      if Ascii.eqb ch "." then (EmptyString, s)
      else let '(run, tail) := span_not_dot rest in (String ch run, tail)
  end.

(** [re.search(r"\.([^\.]+)\.data", s)]: the group of the leftmost match.
    A match starts at a [.]; its group cannot hold a [.], so it is the
    whole run up to the next [.], which must start [.data]. *)
Fixpoint search_column (s : string) : option string :=
  match s with
  | EmptyString => None
  | String ch rest =>
      if Ascii.eqb ch "." then
        match span_not_dot rest with
        | (String c run, tail) =>
            if starts_with ".data" tail then Some (String c run) else search_column rest
        | (EmptyString, _) => search_column rest
        end
      else search_column rest
  end.

(** [re.search("M[0-9]+", s)]: the text of the leftmost match, an [M] and
    all the digits that follow it. *)
Fixpoint search_mass (s : string) : option string :=
  match s with
  | EmptyString => None
  | String ch rest =>
      if Ascii.eqb ch "M" then
        match PyStr.span_digits rest with
        | (String d ds, _) => Some (String "M" (String d ds))
        | (EmptyString, _) => search_mass rest
        end
      else search_mass rest
  end.

Section TmpFile.

Context {P : Platform}.

(** [pd.read_csv(path, delimiter="\t", names=[t_name, v_name], header=0)]:
    the two columns of the frame. *)
Variable read_csv_named : string -> string -> string -> result (list float * list float).

(** [series_list_from_tmp]: the lines printed, and the exception raised
    or the list returned. *)
Definition series_list_from_tmp (path_to_file : string)
  : list string * result (list (series float)) :=
  let file_name := path_name path_to_file in
  let timestamp_string := substring 0 19 file_name in
  match timestamp_string_to_tstamp timestamp_string Zilien.ZILIEN_TIMESTAMP_FORM with
  | inl e => ([], inl e)
  | inr tstamp =>
      match search_column file_name with
      | None => ([("could not find column name in " ++ path_to_file)%string], ret [])
      | Some v_name =>
          let '(v_name, unit) :=
            match search_mass v_name with
            | Some mass => (mass, Some "A")
            | None => (v_name, None)
            end in
          let t_name := (v_name ++ "-x")%string in
          match read_csv_named path_to_file t_name v_name with
          | inl e => ([], inl e)
          | inr (t_data, v_data) =>
              let tseries := TimeSeries t_name "s" t_data tstamp in
              let vseries := ValueSeries v_name unit v_data tseries in
              ([], ret [tseries; vseries])
          end
      end
  end.

(** The loop of [ZilienTMPReader.read] over the files of the directory:
    [series_list += series_list_from_tmp(tmp_file)]. *)
Fixpoint series_of_files (tmp_files : list string) (series_list : list (series float))
  : list string * result (list (series float)) :=
  match tmp_files with
  | [] => ([], ret series_list)
  | tmp_file :: rest =>
      match series_list_from_tmp tmp_file with
      | (printed, inl e) => (printed, inl e)
      | (printed, inr part) =>
          let '(printed', r) := series_of_files rest (series_list ++ part) in
          (printed ++ printed', r)
      end
  end.

End TmpFile.

End ZilienTmp.


(* ===================================================================== *)
(** * Further readers and files, to run the readers on *)
(* ===================================================================== *)

Module ZilienCases.

Import PyExn PyDict ZilienData.
Local Open Scope string_scope.
Local Open Scope list_scope.
Local Open Scope nat_scope.

(** A reader whose metadata counts no row for the block [MFC value]. *)
Definition reader_without_rows : reader ZilienExample.xfloat :=
  mk_reader None None None None
            (Some [("MFC value_MFC value_count", MInt 0%Z)])
            None None None.

(** One row of a block whose flow column stands before its time column. *)
Definition flow_before_time : Np.matrix ZilienExample.xfloat :=
  Np.mk_matrix 2 [[Some 1%Z; Some 2%Z]].

(** Two rows of a potential block. *)
Definition potential_rows : Np.matrix ZilienExample.xfloat :=
  Np.mk_matrix 2 [[Some 0%Z; Some 5%Z]; [Some 1%Z; Some 6%Z]].

(** Keyword arguments for [read]. *)
Definition sample_kwargs : dict (pyobj ZilienExample.xfloat) :=
  [("sample_name", PStr "Pt"); ("tstamp", PFloat (Some 7%Z))].

(** A spectrum file whose line with the start of the mass scan is the
    eleventh one. *)
Definition late_marker_file : list string :=
  repeat (ZilienExample.tsv_line ["comment"; "1"]) 10
  ++ [ZilienExample.tsv_line ["Mass scan started at [s]"; "12"]].

(** The platform of [ZilienExample] with that file under every path, and
    a frame of two columns for it. *)
Definition late_marker_platform : Platform := {|
  float := ZilienExample.xfloat;
  isnan := isnan (Platform := ZilienExample.platform);
  fmul := fmul (Platform := ZilienExample.platform);
  fadd := fadd (Platform := ZilienExample.platform);
  feqb := feqb (Platform := ZilienExample.platform);
  float_of_int := float_of_int (Platform := ZilienExample.platform);
  py_int := py_int (Platform := ZilienExample.platform);
  py_float := py_float (Platform := ZilienExample.platform);
  open_text := fun _ => Some late_marker_file;
  genfromtxt := genfromtxt (Platform := ZilienExample.platform);
  path_stem := path_stem (Platform := ZilienExample.platform);
  path_name := path_name (Platform := ZilienExample.platform);
  timestamp_string_to_tstamp :=
    timestamp_string_to_tstamp (Platform := ZilienExample.platform);
  read_csv := fun _ =>
    ret [("Mass [AMU]", [Some 2%Z; Some 4%Z]); ("Current [A]", [Some 10%Z; Some 20%Z])];
  search_float := search_float (Platform := ZilienExample.platform)
|}.

(** The demo file with the voltage column before the time column of its
    block, and no voltage recorded: the column holds [nan] in every row. *)
Definition nan_column_file : list string :=
  firstn 8 ZilienExample.demo_file
  ++ [ ZilienExample.tsv_line ["Voltage [V]"; "Time [s]"; "Time [s]"; "M2-H2 [A]"];
       ZilienExample.tsv_line ["nan"; "0"; "0"; "7"];
       ZilienExample.tsv_line ["nan"; "1"; "1"; "8"];
       ZilienExample.tsv_line ["nan"; "2"; "2"; "9"] ].

(** The platform of [ZilienExample] with that file under every path. *)
Definition nan_column_platform : Platform := {|
  float := ZilienExample.xfloat;
  isnan := isnan (Platform := ZilienExample.platform);
  fmul := fmul (Platform := ZilienExample.platform);
  fadd := fadd (Platform := ZilienExample.platform);
  feqb := feqb (Platform := ZilienExample.platform);
  float_of_int := float_of_int (Platform := ZilienExample.platform);
  py_int := py_int (Platform := ZilienExample.platform);
  py_float := py_float (Platform := ZilienExample.platform);
  open_text := fun _ => Some nan_column_file;
  genfromtxt := genfromtxt (Platform := ZilienExample.platform);
  path_stem := path_stem (Platform := ZilienExample.platform);
  path_name := path_name (Platform := ZilienExample.platform);
  timestamp_string_to_tstamp :=
    timestamp_string_to_tstamp (Platform := ZilienExample.platform);
  read_csv := read_csv (Platform := ZilienExample.platform);
  search_float := search_float (Platform := ZilienExample.platform)
|}.

(** A frame of two columns of one row each, for every tmp file. *)
Definition two_columns (path t_name v_name : string)
  : result (list ZilienExample.xfloat * list ZilienExample.xfloat) :=
  ret ([Some 1%Z], [Some 2%Z]).

End ZilienCases.


(* ===================================================================== *)
(** * spectra.py *)
(* ===================================================================== *)

Module Spectra.

Import PyExn.
Local Open Scope string_scope.
Local Open Scope list_scope.
Local Open Scope nat_scope.

Local Set Warnings "-register-all".

(** A numpy array of any number of dimensions, over exact numbers. *)
Inductive ndarray : Type :=
| Scalar (v : Q)
| Array (items : list ndarray).

(** [np.array(l)] for a list of numbers. *)
Definition vector (l : list Q) : ndarray := Array (map Scalar l).

(** [a.shape] *)
Fixpoint shape (a : ndarray) : list nat :=
  match a with
  | Scalar _ => []
  | Array items =>
      List.length items :: match items with
                           | [] => []
                           | first :: _ => shape first
                           end
  end.

(** [len(a)] *)
Definition len (a : ndarray) : result nat :=
  match a with
  | Scalar _ => raise (TypeError "len() of unsized object")
  | Array items => ret (List.length items)
  end.

(** [a[i]] *)
Definition item (a : ndarray) (i : nat) : result ndarray :=
  match a with
  | Scalar _ => raise (IndexError "invalid index to scalar variable.")
  | Array items =>
      match nth_error items i with
      | Some x => ret x
      | None => raise (IndexError "index is out of bounds for axis 0")
      end
  end.

(** [a + t] for a number [t]: the sum entry by entry. *)
Fixpoint add_scalar (a : ndarray) (t : Q) : ndarray :=
  match a with
  | Scalar v => Scalar (v + t)
  | Array items => Array (map (fun x => add_scalar x t) items)
  end.

(** A reference to an object. *)
Definition loc : Type := nat.

(** Modelled from the spec: the classes [DataSeries], [TimeSeries] and
    [Field] of [ixdat.data_series] are not part of the sources at hand.  A
    series has a name, a unit and its data, a TimeSeries a [tstamp] in
    addition; a Field has a name, a unit, data of any number of dimensions,
    and the list of its axes it was made with.

    These are the objects the methods of [Spectrum] make and reach.  A
    list that an object holds is an object of its own. *)
Inductive obj : Type :=
| ODataSeries (name : string) (unit_name : option string) (data : ndarray)
| OTimeSeries (name : string) (unit_name : option string) (data : ndarray)
              (tstamp : option Q)
| OField (name : string) (unit_name : option string) (data : ndarray) (axes_series : loc)
| OList (items : list loc)
| OPlaceHolder (field_id : option nat)
| OSpectrum (name : string) (technique : option string) (metadata : option nat)
            (sample_name : option string) (reader : option nat) (_field : loc).

(** The store: the object of reference [l] is the [l]-th one made. *)
Definition heap : Type := list obj.

(** A method: it runs on a store and raises, or returns a value and the
    store it leaves. *)
Definition H (A : Type) : Type := heap -> result (A * heap).

Definition hret {A} (x : A) : H A := fun h => ret (x, h).

Definition hraise {A} (e : exn) : H A := fun _ => raise e.

Definition hbind {A B} (m : H A) (k : A -> H B) : H B :=
  fun h => match m h with
           | inl e => inl e
           | inr (x, h') => k x h'
           end.

Notation "x <== m ;; k" := (hbind m (fun x => k))
  (at level 61, m at next level, right associativity).

(** A new object. *)
Definition alloc (o : obj) : H loc := fun h => ret (List.length h, h ++ [o]).

(** The object of a reference. *)
Definition deref (l : loc) : H obj :=
  fun h => match nth_error h l with
           | Some o => ret (o, h)
           | None => raise (AttributeError "no such object")
           end.

Fixpoint replace_nth {A} (n : nat) (x : A) (l : list A) : list A :=
  match l, n with
  | [], _ => []
  | _ :: rest, 0 => x :: rest
  | y :: rest, S n' => y :: replace_nth n' x rest
  end.

(** An object changed in place. *)
Definition store (l : loc) (o : obj) : H unit :=
  fun h => ret (tt, replace_nth l o h).

(** [series.data], [series.name], [series.unit_name] for a series or a field. *)
Definition get_data (l : loc) : H ndarray :=
  o <== deref l ;;
  match o with
  | ODataSeries _ _ data | OTimeSeries _ _ data _ | OField _ _ data _ => hret data
  | _ => hraise (AttributeError "data")
  end.

Definition get_name (l : loc) : H string :=
  o <== deref l ;;
  match o with
  | ODataSeries name _ _ | OTimeSeries name _ _ _ | OField name _ _ _ => hret name
  | _ => hraise (AttributeError "name")
  end.

Definition get_unit_name (l : loc) : H (option string) :=
  o <== deref l ;;
  match o with
  | ODataSeries _ unit_name _ | OTimeSeries _ unit_name _ _ | OField _ unit_name _ _ =>
      hret unit_name
  | _ => hraise (AttributeError "unit_name")
  end.

(** [tseries.tstamp] *)
Definition get_tstamp (l : loc) : H (option Q) :=
  o <== deref l ;;
  match o with
  | OTimeSeries _ _ _ tstamp => hret tstamp
  | _ => hraise (AttributeError "tstamp")
  end.

(** Modelled from the spec: [Field.axes_series] is a property of the class
    [Field], which is not part of the sources at hand.  A Field refers to
    its axes without owning them, and each reference is resolved by a
    lookup; the property resolves them in their order and puts them in a
    list made at the access: the list the caller gets is the caller's own,
    and no other object holds it. *)
Definition get_axes_series (l : loc) : H (list loc) :=
  o <== deref l ;;
  match o with
  | OField _ _ _ axes_series =>
      a <== deref axes_series ;;
      match a with
      | OList items => hret items
      | _ => hraise (TypeError "object is not iterable")
      end
  | _ => hraise (AttributeError "axes_series")
  end.

(** [some_list[i]] *)
Definition list_item (some_list : list loc) (i : nat) : H loc :=
  match nth_error some_list i with
  | Some x => hret x
  | None => hraise (IndexError "list index out of range")
  end.

(** [some_list.append(x)], for a list that only the caller holds: the
    caller's list is from then on the longer one. *)
Definition list_append (some_list : list loc) (x : loc) : list loc :=
  some_list ++ [x].

(** The keyword arguments of the constructors; [None] for one not given. *)
Record kwargs : Type := mk_kwargs {
  k_name : option string;
  k_technique : option string;
  k_metadata : option nat;
  k_sample_name : option string;
  k_reader : option nat;
  k_field : option loc;
  k_field_id : option nat
}.

Definition no_kwargs : kwargs := mk_kwargs None None None None None None None.

Section Spectrum.

(** [PlaceHolderObject.get_object()]: the backend loads the Field of an id
    into the store. *)
Variable get_object : option nat -> H loc.

(** [Spectrum.__init__]; the plotter it sets up has no part in the data. *)
Definition __init__ (name : string) (technique : option string) (metadata : option nat)
           (sample_name : option string) (reader : option nat)
           (field : option loc) (field_id : option nat) : H loc :=
  _field <== match field with
             | Some field => hret field
             | None => alloc (OPlaceHolder field_id)
             end ;;
  alloc (OSpectrum name technique metadata sample_name reader _field).

(** Modelled from the spec: [Saveable.from_dict] is not part of the
    sources at hand; it constructs the object from the entries of the dict,
    passed to the class as keyword arguments. *)
Definition from_dict (d : kwargs) : H loc :=
  match k_name d with
  | None => hraise (TypeError "__init__() missing 1 required positional argument: 'name'")
  | Some name =>
      __init__ name (k_technique d) (k_metadata d) (k_sample_name d) (k_reader d)
               (k_field d) (k_field_id d)
  end.

(** [Spectrum.from_field] *)
Definition from_field (field : loc) (kw : kwargs) : H loc :=
  let spectrum_as_dict :=
    mk_kwargs (k_name kw) (k_technique kw) (k_metadata kw) (k_sample_name kw)
              (k_reader kw) (Some field) (k_field_id kw) in
  match k_name spectrum_as_dict with
  | None =>
      name <== get_name field ;;
      from_dict (mk_kwargs (Some name) (k_technique kw) (k_metadata kw) (k_sample_name kw)
                           (k_reader kw) (Some field) (k_field_id kw))
  | Some _ => from_dict spectrum_as_dict
  end.

(** [Spectrum.from_series] *)
Definition from_series (xseries yseries : loc) (tstamp : option Q) (kw : kwargs) : H loc :=
  tseries <== alloc (OTimeSeries "spectrum time / [s]" (Some "s") (vector [0%Q]) tstamp) ;;
  ydata <== get_data yseries ;;
  axes_series <== alloc (OList [xseries; tseries]) ;;
  name <== get_name yseries ;;
  unit_name <== get_unit_name yseries ;;
  field <== alloc (OField name unit_name (Array [ydata]) axes_series) ;;
  from_field field kw.

(** [Spectrum.from_data] *)
Definition from_data (x y : list Q) (tstamp : option Q) (x_name y_name : string)
           (x_unit_name y_unit_name : option string) (kw : kwargs) : H loc :=
  xseries <== alloc (ODataSeries x_name x_unit_name (vector x)) ;;
  yseries <== alloc (ODataSeries y_name y_unit_name (vector y)) ;;
  from_series xseries yseries tstamp kw.

(** The property [field]: a placeholder is replaced by the object it
    stands for, once. *)
Definition field (self : loc) : H loc :=
  o <== deref self ;;
  match o with
  | OSpectrum name technique metadata sample_name reader _field =>
      f <== deref _field ;;
      match f with
      | OPlaceHolder field_id =>
          loaded <== get_object field_id ;;
          _ <== store self (OSpectrum name technique metadata sample_name reader loaded) ;;
          hret loaded
      | _ => hret _field
      end
  | _ => hraise (AttributeError "_field")
  end.

(** The property [data_objects] *)
Definition data_objects (self : loc) : H (list loc) :=
  f <== field self ;;
  series_list <== get_axes_series f ;;
  f <== field self ;;
  let series_list := list_append series_list f in
  hret series_list.

(** The properties [xseries], [x], [y], [tseries] and [tstamp] *)
Definition xseries (self : loc) : H loc :=
  f <== field self ;;
  axes <== get_axes_series f ;;
  list_item axes 0.

Definition x (self : loc) : H ndarray :=
  xs <== xseries self ;;
  get_data xs.

Definition y (self : loc) : H ndarray :=
  f <== field self ;;
  data <== get_data f ;;
  fun h => r <- item data 0 ;; ret (r, h).

Definition tseries (self : loc) : H loc :=
  f <== field self ;;
  axes <== get_axes_series f ;;
  list_item axes 1.

Definition tstamp (self : loc) : H ndarray :=
  ts <== tseries self ;;
  data <== get_data ts ;;
  first <== (fun h => r <- item data 0 ;; ret (r, h)) ;;
  base <== get_tstamp ts ;;
  match base with
  | Some base => hret (add_scalar first base)
  | None => hraise (TypeError "unsupported operand type(s) for +: 'int' and 'NoneType'")
  end.

(** The properties [x_name], [y_name] and [yseries]; the series of [y] is
    made anew at every call. *)
Definition x_name (self : loc) : H string :=
  xs <== xseries self ;;
  get_name xs.

Definition y_name (self : loc) : H string :=
  f <== field self ;;
  get_name f.

Definition yseries (self : loc) : H loc :=
  f <== field self ;;
  name <== get_name f ;;
  data <== y self ;;
  f <== field self ;;
  unit_name <== get_unit_name f ;;
  alloc (ODataSeries name unit_name data).

End Spectrum.

(** A backend that has nothing to load. *)
Definition no_backend : option nat -> H loc :=
  fun _ => hraise (AttributeError "get_object").

(** A store with a Field made by hand (reference 3) for the spectrum of
    [x = [1, 2, 3]] and [y = [10, 20, 30]] at the time 100: a mass axis, a
    time axis of the one sample 5 after the time stamp 95, the list of the
    two, and data of the shape (3, 1). *)
Definition hand_made_field : heap :=
  [ ODataSeries "mass" (Some "m/z") (vector [1; 2; 3]%Q);
    OTimeSeries "time" (Some "s") (vector [5%Q]) (Some 95%Q);
    OList [0; 1];
    OField "signal" (Some "A")
           (Array [vector [10%Q]; vector [20%Q]; vector [30%Q]]) 2 ].

End Spectra.

(* ===================================================================== *)
(** * A backend and a store, to run the spectrum on *)
(* ===================================================================== *)

Module SpectraCases.

Import PyExn Spectra.
Local Open Scope string_scope.
Local Open Scope list_scope.
Local Open Scope nat_scope.

(** The objects of the Field the backend holds under the id 7, made in a
    store of [n] objects. *)
Definition stored_field (n : loc) : heap :=
  [ ODataSeries "mass" (Some "m/z") (vector [1; 2; 3]%Q);
    OTimeSeries "time" (Some "s") (vector [5%Q]) (Some 95%Q);
    OList [n; n + 1];
    OField "signal" (Some "A") (Array [vector [10; 20; 30]%Q]) (n + 2) ].

(** A backend with one Field, of the id 7. *)
Definition backend : option nat -> H loc :=
  fun field_id h =>
    match field_id with
    | Some 7 => ret (List.length h + 3, h ++ stored_field (List.length h))
    | _ => raise (KeyError "field_id")
    end.

(** The store after [Spectrum("lazy", field_id=7)]: the placeholder and
    the spectrum. *)
Definition lazy_store : heap :=
  [ OPlaceHolder (Some 7); OSpectrum "lazy" None None None None 0 ].

End SpectraCases.


(* ===================================================================== *)
(** * The notions the properties are stated with *)
(* ===================================================================== *)

(** ** Cycle segmentation *)

(** A list of cycle indices that never goes down from one sample to a later one. *)
Definition non_decreasing (l : list Z) : Prop :=
  forall i j a b, i <= j -> nth_error l i = Some a -> nth_error l j = Some b -> (a <= b)%Z.

(** The cycle index goes up at sample [i]. *)
Definition registers_at (cycle : list Z) (i : nat) : Prop :=
  1 <= i /\
  exists a b, nth_error cycle (i - 1) = Some a /\ nth_error cycle i = Some b /\ (a < b)%Z.

(** The [N] samples before sample [i] are all behind the threshold. *)
Definition behind_before {V : Type} (ltb : V -> V -> bool) (v : list V)
           (start_potential : V) (N i : nat) : Prop :=
  N <= i /\
  forall j, i - N <= j < i ->
            exists x, nth_error v j = Some x /\ ltb x start_potential = true.

(** What every pass of the loop keeps true of its local variables, for
    an array of [N] samples. *)
Record scan_inv (N : nat) (st : CV.scan_state) : Prop := {
  inv_c : (0 <= CV.c st)%Z;
  inv_len : length (CV.cycle_vec st) = N;
  inv_mono : non_decreasing (CV.cycle_vec st);
  inv_range : forall x, In x (CV.cycle_vec st) -> (0 <= x <= CV.c st)%Z;
  inv_hd : CV.cycle_vec st <> [] -> hd_error (CV.cycle_vec st) = Some 0%Z
}.

(** ** The row splitter and the column splitter *)

(** [splits] lists, in order, runs that start at row [start], follow each
    other without a gap, hold at least one row each, and end at [stop]. *)
Fixpoint contiguous_runs (start : nat) (splits : list (nat * nat)) (stop : nat) : Prop :=
  match splits with
  | [] => start = stop
  | (b, e) :: rest => b = start /\ b < e /\ contiguous_runs e rest stop
  end.

(** The running sum of the group lengths, which the loop of
    [_get_biologic_splits] computes. *)
Fixpoint layout {A} (index : nat) (groups : list (A * list A)) : list (nat * nat) :=
  match groups with
  | [] => []
  | (_, group) :: rest =>
      (index, index + length group) :: layout (index + length group) rest
  end.

(** The maximal runs of constant key of [keys] from row [start] on. *)
Inductive maximal_runs {A : Type} (keys : list A) : nat -> list (nat * nat) -> Prop :=
| runs_done : maximal_runs keys (length keys) []
| runs_next (b e : nat) (rest : list (nat * nat)) :
    b < e ->
    e <= length keys ->
    (forall i, b <= i < e -> nth_error keys i = nth_error keys b) ->
    (e < length keys -> nth_error keys e <> nth_error keys b) ->
    maximal_runs keys e rest ->
    maximal_runs keys b ((b, e) :: rest).

(** The header cell is not the empty string. *)
Definition nonempty (s : string) : bool := negb (String.eqb s EmptyString).

(** The indices of the non-empty cells of a header row whose first cell
    has index [offset]. *)
Fixpoint positions (offset : nat) (series_headers : list string) : list nat :=
  match series_headers with
  | [] => []
  | h :: rest =>
      if nonempty h then offset :: positions (S offset) rest
      else positions (S offset) rest
  end.

(** The number of empty cells a header row starts with. *)
Fixpoint leading_empty (series_headers : list string) : nat :=
  match series_headers with
  | [] => 0
  | h :: rest => if nonempty h then 0 else S (leading_empty rest)
  end.

(** Where a slice [a[b:e]] of a row of [L] cells stops. *)
Definition stop_of (L : nat) (e : option nat) : nat :=
  match e with Some e => e | None => L end.

(** [ranges] are column ranges that follow each other from column [lo] to
    column [hi]: each begins where the one before it ends and holds at
    least one column; the last one is open-ended ([None]), every other one
    ends at a column index. *)
Fixpoint tiles (ranges : list (option nat * option nat)) (lo hi : nat) : Prop :=
  match ranges with
  | [] => lo = hi
  | (b, e) :: rest =>
      b = Some lo /\
      lo < stop_of hi e /\
      (e = None <-> rest = []) /\
      tiles rest (stop_of hi e) hi
  end.

(** Every entry is below all later ones. *)
Fixpoint increasing (l : list nat) : Prop :=
  match l with
  | [] => True
  | x :: rest => (forall y, In y rest -> x < y) /\ increasing rest
  end.

(** ** The alias table and the reader *)

(** The list a standard name stands for in an alias table; empty when the
    table has no entry for it. *)
Definition entries (d : PyDict.dict (list string)) (k : string) : list string :=
  match PyDict.get d k with
  | Some l => l
  | None => []
  end.

Section ReaderNotions.

Import PyExn PyDict ZilienData.
Context {P : Platform}.

(** The reader as [read] has set it up when it calls [_form_series]. *)
Definition loaded_reader (r : reader float) (cls : measurement_class) (path : string)
           (metadata : dict (pyval float)) (series_headers column_headers : list string)
           (data : Np.ndarray float) (timestamp : float) : reader float :=
  Zilien.set__timestamp timestamp
    (Zilien.set__data data
       (Zilien.set__headers metadata series_headers column_headers
          (Zilien.set__path_to_file path (Zilien.set__cls cls r)))).

(** The payload [read] constructs the measurement from, before
    [kwargs] is merged into it. *)
Definition payload (name : option string) (file_stem : string)
           (series : list (series float)) (aliases : dict (list string))
           (timestamp : float) (metadata : dict (pyval float)) : dict (pyobj float) :=
  [ ("name"%string, PStr match name with
                         | Some (String _ _ as name) => name
                         | Some EmptyString | None => file_stem
                         end);
    ("series_list"%string, PSeriesList series);
    ("aliases"%string, PAliases aliases);
    ("tstamp"%string, PFloat timestamp);
    ("metadata"%string, PMetadata metadata) ].

(** The four type tags of a metadata line. *)
Definition known_types : list string :=
  ["string"%string; "int"%string; "double"%string; "bool"%string].

(** A metadata line of five fields whose type tag is one of the four. *)
Definition well_typed_line (line : string) : Prop :=
  exists name comment attach_to_series type_as_str value,
    PyStr.split PyStr.tab (PyStr.strip_newline line)
    = [name; comment; attach_to_series; type_as_str; value] /\
    PyStr.mem type_as_str known_types = true.

(** The line a handle reads after [i] calls of [readline]; the empty
    string past the end of the file. *)
Definition line_at (handle : list string) (i : nat) : string := nth i handle EmptyString.

(** A column the loop of [_create_series_objects] passes over: one of the
    two structural columns of the EC-lab block, or a column that holds
    missing values only. *)
Definition skipped_column (data : Np.matrix float) (j : nat) (header : string) : Prop :=
  PyStr.mem header ["experiment_number"%string; "technique_number"%string] = true \/
  exists col, Np.column j data = inr col /\ forallb isnan col = true.

(** A value column stands where no time column has been built yet: the
    columns before it are all passed over, and it is neither passed over
    nor a time column. *)
Definition value_column_first (column_headers : list string)
           (names_and_units : Zilien.names_and_units_t) (data : Np.matrix float) : Prop :=
  exists pre header post col entry,
    column_headers = pre ++ header :: post /\
    (forall j h, nth_error pre j = Some h -> skipped_column data j h) /\
    PyStr.mem header ["experiment_number"%string; "technique_number"%string] = false /\
    Np.column (length pre) data = inr col /\
    forallb isnan col = false /\
    nth_error names_and_units (length pre) = Some entry /\
    PyStr.mem header ["Time [s]"%string; "time/s"%string] = false.

(** The exception [_create_series_objects] raises. *)
Definition time_column_error : exn :=
  ValueError "Time column must be first in a dataset series.".

(** The rows [_zilien_dataset_part] hands to [_create_series_objects]: the
    first [count] rows of the block, for the count the metadata
    ([self._metadata]) gives. *)
Definition counted_rows (metadata : option (dict (pyval float))) (series_header : string)
           (data_columns_split : Np.matrix float) : option (Np.matrix float) :=
  match metadata with
  | Some metadata =>
      match get metadata (series_header ++ "_" ++ series_header ++ "_count")%string with
      | Some count =>
          match Zilien.rows_to_count count data_columns_split with
          | inr rows => Some rows
          | inl _ => None
          end
      | None => None
      end
  | None => None
  end.

(** The runs [_biologic_dataset_part] splits the rows of the EC-lab block
    into, when it gets as far as splitting them. *)
Definition biologic_runs (metadata : option (dict (pyval float)))
           (column_headers : list string)
           (data_columns_split : Np.matrix float) : option (list (nat * nat)) :=
  match counted_rows metadata Zilien.BIOLOGIC_SERIES_NAME data_columns_split with
  | Some counted =>
      match Zilien.list_index "experiment_number" column_headers,
            Zilien.list_index "technique_number" column_headers with
      | inr exp_index, inr tech_index =>
          match Np.column exp_index counted, Np.column tech_index counted with
          | inr exp_nums, inr tech_nums =>
              Some (Zilien._get_biologic_splits feqb (Zilien.split_vector exp_nums tech_nums))
          | _, _ => None
          end
      | _, _ => None
      end
  | None => None
  end.

(** The class reads the block of this header: the block is not one that
    [_form_series] passes over for the class. *)
Definition block_is_read (cls : measurement_class) (series_header : string) : bool :=
  negb (negb (issubclass cls ECMeasurement)
        && PyStr.mem series_header ["pot"%string; Zilien.BIOLOGIC_SERIES_NAME])
  && negb (negb (issubclass cls MSMeasurement)
           && match Zilien.to_mass series_header with Some _ => true | None => false end).

(** The blocks of a header row: each non-empty header with its columns. *)
Definition blocks_of (series_headers : list string)
  : list (string * (option nat * option nat)) :=
  combine (snd (Zilien._get_series_splits series_headers))
          (fst (Zilien._get_series_splits series_headers)).

(** In the rows handed to [_create_series_objects] for this block, no value
    column stands where no time column has been built: in the first
    [count] rows of an ordinary block, and in each run of the EC-lab block. *)
Definition time_column_first (metadata : option (dict (pyval float)))
           (series_header : string)
           (column_headers : list string) (data_columns_split : Np.matrix float) : Prop :=
  if String.eqb series_header Zilien.BIOLOGIC_SERIES_NAME then
    exists runs,
      biologic_runs metadata column_headers data_columns_split = Some runs /\
      forall b e,
        In (b, e) runs ->
        ~ value_column_first column_headers
            (map (Zilien._form_names_and_unit Zilien.BIOLOGIC_SERIES_NAME) column_headers)
            (Np.rows_range b e data_columns_split)
  else
    exists rows,
      counted_rows metadata series_header data_columns_split = Some rows /\
      ~ value_column_first column_headers
          (map (Zilien._form_names_and_unit series_header) column_headers) rows.

End ReaderNotions.

(** ** The store of a spectrum *)

Section StoreNotions.

Import Spectra.

(** The six objects [from_data] makes, the first of them at reference [n]. *)
Definition spectrum_objects (n : loc) (x y : list Q) (tstamp : option Q)
           (x_name y_name : string) (x_unit_name y_unit_name : option string)
           (kw : kwargs) : heap :=
  [ ODataSeries x_name x_unit_name (vector x);
    ODataSeries y_name y_unit_name (vector y);
    OTimeSeries "spectrum time / [s]" (Some "s"%string) (vector [0%Q]) tstamp;
    OList [n; n + 2];
    OField y_name y_unit_name (Array [vector y]) (n + 3);
    OSpectrum match k_name kw with Some name => name | None => y_name end
              (k_technique kw) (k_metadata kw) (k_sample_name kw) (k_reader kw) (n + 4) ].

(** In the store [h], [self] is a spectrum whose field [f] is loaded and
    holds [data] and the axes list [axes], a list of [items]. *)
Record spectrum_at (h : heap) (self f axes : loc) (data : ndarray) (items : list loc)
  : Prop := {
  at_self : exists name technique metadata sample_name reader,
      nth_error h self = Some (OSpectrum name technique metadata sample_name reader f);
  at_field : exists name unit_name, nth_error h f = Some (OField name unit_name data axes);
  at_axes : nth_error h axes = Some (OList items)
}.

(** [series] is an object with the attribute [data], and [data] is its value. *)
Definition has_data (h : heap) (series : loc) (data : ndarray) : Prop :=
  get_data series h = inr (data, h).

(** [np.array([[v] for v in y])]: the values of [y] as an array of the
    shape (N, 1), one row for each value. *)
Definition column (y : list Q) : ndarray := Array (map (fun v => vector [v]) y).

(** A Field built by hand over matching axes for the spectrum of [x] and
    the time stamp [tstamp], with the data [data]: its first axis is a
    series of the data [x], its second axis a TimeSeries of one sample,
    which stands for the time [tstamp]. *)
Definition explicit_field (h : heap) (f : loc) (data : ndarray) (x : list Q) (tstamp : Q)
  : Prop :=
  exists name unit_name axes xs ts tname tunit t0 base,
    nth_error h f = Some (OField name unit_name data axes) /\
    nth_error h axes = Some (OList [xs; ts]) /\
    has_data h xs (vector x) /\
    nth_error h ts = Some (OTimeSeries tname tunit (vector [t0]) (Some base)) /\
    (t0 + base)%Q = tstamp.

End StoreNotions.

(** [field.data.shape] *)
Definition field_shape (h : Spectra.heap) (f : Spectra.loc) : option (list nat) :=
  match nth_error h f with
  | Some (Spectra.OField _ _ data _) => Some (Spectra.shape data)
  | _ => None
  end.

(** [[len(axis.data) for axis in field.axes_series]] *)
Definition axes_lengths (h : Spectra.heap) (f : Spectra.loc) : option (list nat) :=
  match nth_error h f with
  | Some (Spectra.OField _ _ _ axes) =>
      match nth_error h axes with
      | Some (Spectra.OList items) =>
          fold_right
            (fun axis acc =>
               match Spectra.get_data axis h, acc with
               | inr (data, _), Some lens =>
                   match Spectra.len data with
                   | inr n => Some (n :: lens)
                   | inl _ => None
                   end
               | _, _ => None
               end)
            (Some []) items
      | _ => None
      end
  | _ => None
  end.

(** The invariant of a Field, as the specification states it:
    [data.shape[i] == len(axes[i].data)] for every axis index [i]. *)
Definition field_shape_invariant (h : Spectra.heap) (f : Spectra.loc) : Prop :=
  exists dims, field_shape h f = Some dims /\ axes_lengths h f = Some dims.

(* ===================================================================== *)
(** * Further notions: what the scan of [redefine_cycle] keeps *)
(* ===================================================================== *)

(** A sample is behind the threshold, in the direction of the scan: below
    [start_potential] for an anodic scan ([redox] true); for a cathodic
    one the code compares the negated values. *)
Definition behind {V : Type} (ltb : V -> V -> bool) (neg : V -> V) (redox : bool)
           (start_potential x : V) : bool :=
  if redox then ltb x start_potential else ltb (neg x) (neg start_potential).

(** A sample is ahead of the threshold, in the direction of the scan. *)
Definition ahead {V : Type} (ltb : V -> V -> bool) (neg : V -> V) (redox : bool)
           (start_potential x : V) : bool :=
  if redox then ltb start_potential x else ltb (neg start_potential) (neg x).

(** What every pass of the loop keeps true of the places where the cycle
    index goes up, for the samples [v] and the threshold [sp] as the loop
    compares them: the index is the counter from [N_points] before the scan
    position on; it goes up by one at a time, at a sample ahead of the
    threshold that lies [N_points] or more before the scan position and
    [N_points] or more after a sample behind the threshold; and two such
    places are [2 * N_points] or more apart. *)
Record scan_trace {V : Type} (ltb : V -> V -> bool) (v : list V) (sp : V)
       (N_points : nat) (st : CV.scan_state) : Prop := {
  tr_tail : forall k x,
      CV.n st - N_points <= k -> nth_error (CV.cycle_vec st) k = Some x -> x = CV.c st;
  tr_reg : forall i,
      registers_at (CV.cycle_vec st) i ->
      i + N_points <= CV.n st /\
      (exists a, nth_error (CV.cycle_vec st) (i - 1) = Some a /\
                 nth_error (CV.cycle_vec st) i = Some (a + 1)%Z) /\
      (exists x, nth_error v i = Some x /\ ltb sp x = true) /\
      (exists j x, j + N_points <= i /\ nth_error v j = Some x /\ ltb x sp = true);
  tr_gap : forall i j,
      registers_at (CV.cycle_vec st) i -> registers_at (CV.cycle_vec st) j ->
      i < j -> i + 2 * N_points <= j
}.


(* ===================================================================== *)
(** * Further notions: the text of a Zilien file *)
(* ===================================================================== *)

(** The character occurs in the string. *)
Fixpoint has_char (ch : ascii) (s : string) : bool :=
  match s with
  | EmptyString => false
  | String d rest => Ascii.eqb d ch || has_char ch rest
  end.

(** How often the character occurs in the string. *)
Fixpoint count_char (ch : ascii) (s : string) : nat :=
  match s with
  | EmptyString => 0
  | String d rest => (if Ascii.eqb d ch then 1 else 0) + count_char ch rest
  end.

(** A cell of a line: a text without a tab and without a line end. *)
Definition cell (s : string) : Prop :=
  has_char PyStr.tab s = false /\ has_char PyStr.newline s = false.

(** The name [parse_metadata_line] gives an item: the name of the series
    it is attached to goes in front, if there is one. *)
Definition full_name (attach_to_series name : string) : string :=
  match attach_to_series with
  | EmptyString => name
  | _ => (attach_to_series ++ "_" ++ name)%string
  end.

(** A string of one digit or more. *)
Definition digits (s : string) : Prop := s <> EmptyString /\ PyStr.all_digits s = true.


(* ===================================================================== *)
(** * Further notions: the series of a block and the alias table *)
(* ===================================================================== *)

(** The time series the next value series is attached to, after the
    series [l] have been made with [current] before them: the last
    TimeSeries of [l], or [current] when [l] has none. *)
Fixpoint last_time {F : Type} (current : option (ZilienData.series F))
         (l : list (ZilienData.series F)) : option (ZilienData.series F) :=
  match l with
  | [] => current
  | ZilienData.TimeSeries name unit_name data tstamp :: rest =>
      last_time (Some (ZilienData.TimeSeries name unit_name data tstamp)) rest
  | _ :: rest => last_time current rest
  end.

(** The series [l] are TimeSeries and ValueSeries only, and every
    ValueSeries refers to the TimeSeries nearest before it ([current] for
    those before the first TimeSeries of [l]). *)
Fixpoint time_ordered {F : Type} (current : option (ZilienData.series F))
         (l : list (ZilienData.series F)) : Prop :=
  match l with
  | [] => True
  | ZilienData.TimeSeries name unit_name data tstamp :: rest =>
      time_ordered (Some (ZilienData.TimeSeries name unit_name data tstamp)) rest
  | ZilienData.ValueSeries _ _ _ tseries :: rest =>
      current = Some tseries /\ time_ordered current rest
  | ZilienData.DataSeries _ _ _ :: _ => False
  end.

(** The name of a mass: [M] and one digit or more. *)
Definition mass_name (k : string) : Prop :=
  exists mass, digits mass /\ k = ("M" ++ mass)%string.

(** The [technique] that [read] gives a measurement of each of the
    classes in [ZILIEN_ALIASES]; no other class has one here. *)
Definition technique_of (cls : ZilienData.measurement_class) : option string :=
  match cls with
  | ZilienData.ECMSMeasurement => Some "EC-MS"%string
  | ZilienData.ECMeasurement => Some "EC"%string
  | ZilienData.MSMeasurement => Some "MS"%string
  | _ => None
  end.

(** What the loop of [_create_series_objects] keeps of its two variables,
    the series made so far and the time series at hand. *)
Definition series_loop_inv {P : ZilienData.Platform}
           (self : ZilienData.reader ZilienData.float)
           (acc : list (ZilienData.series ZilienData.float)
                  * option (ZilienData.series ZilienData.float)) : Prop :=
  time_ordered None (fst acc) /\
  last_time None (fst acc) = snd acc /\
  (forall name unit_name data tstamp,
      In (ZilienData.TimeSeries name unit_name data tstamp) (fst acc) ->
      tstamp = ZilienData._timestamp self).


(** The name of a series. *)
Definition series_name {F : Type} (s : ZilienData.series F) : string :=
  match s with
  | ZilienData.DataSeries name _ _
  | ZilienData.TimeSeries name _ _ _
  | ZilienData.ValueSeries name _ _ _ => name
  end.

(** The names of the series of the measurement a call of [read] returned;
    [None] when the call raised or returned no measurement. *)
Definition returned_series_names {F : Type}
           (r : PyExn.result (option (ZilienData.measurement F))) : option (list string) :=
  match r with
  | inr (Some m) =>
      match PyDict.get (ZilienData.m_kwargs m) "series_list" with
      | Some (ZilienData.PSeriesList l) => Some (map series_name l)
      | _ => None
      end
  | _ => None
  end.
(* ===================================================================== *)
(** * Further notions: a spectrum of two points *)
(* ===================================================================== *)

(** The store after [Spectrum.from_data([1, 2], [3, 4], tstamp=0)] in an
    empty store: the spectrum is at the reference 5, its field at 4, the
    axes of the field at 0 and 2. *)
Definition two_point_spectrum : Spectra.heap :=
  spectrum_objects 0 [1; 2]%Q [3; 4]%Q (Some 0%Q) "x" "y" None None Spectra.no_kwargs.

(* ===================================================================== *)
(** * Properties of cycle segmentation *)
(* ===================================================================== *)

Lemma assign_from_length {A} (k : nat) (x : A) (a : list A) :
  length (Py.assign_from k x a) = length a.
Proof.
  unfold Py.assign_from. rewrite length_app, length_firstn, repeat_length. lia.
Qed.

Lemma nth_error_repeat_inv {A} (x y : A) (k i : nat) :
  nth_error (repeat x k) i = Some y -> y = x.
Proof.
  intros H. apply nth_error_In in H. apply repeat_spec in H. exact H.
Qed.

Lemma assign_from_nth {A} (k : nat) (x y : A) (a : list A) (i : nat) :
  nth_error (Py.assign_from k x a) i = Some y ->
  (i < k /\ nth_error a i = Some y) \/ (k <= i /\ y = x).
Proof.
  unfold Py.assign_from. intros H.
  destruct (Nat.lt_ge_cases i (length (firstn k a))) as [Hlt | Hge].
  - rewrite nth_error_app1 in H by exact Hlt. left.
    rewrite length_firstn in Hlt.
    rewrite nth_error_firstn in H.
    destruct (Nat.ltb_spec i k); [split; [assumption | exact H] | discriminate].
  - rewrite nth_error_app2 in H by exact Hge.
    assert (Hi : i - length (firstn k a) < length (repeat x (length a - k))).
    { apply nth_error_Some. rewrite H. discriminate. }
    apply nth_error_repeat_inv in H.
    rewrite repeat_length in Hi. rewrite length_firstn in Hi, Hge.
    right. split; [lia | exact H].
Qed.

Lemma assign_from_hd {A} (k : nat) (x : A) (a : list A) :
  1 <= k -> hd_error (Py.assign_from k x a) = hd_error a \/ a = [].
Proof.
  intros Hk. destruct a as [| y a]; [right; reflexivity | left].
  destruct k as [| k]; [lia | reflexivity].
Qed.

Section CycleSegmenterFacts.

Variable V : Type.
Variable ltb : V -> V -> bool.
Variable neg : V -> V.

Lemma scan_inv_init (N : nat) :
  scan_inv N (CV.mk_scan 0%Z 0 (Py.zeros N)).
Proof.
  unfold Py.zeros. constructor; simpl.
  - lia.
  - apply repeat_length.
  - intros i j a b _ Ha Hb.
    apply nth_error_repeat_inv in Ha. apply nth_error_repeat_inv in Hb. lia.
  - intros x Hx. apply repeat_spec in Hx. lia.
  - destruct N; [intros H; now elim H | reflexivity].
Qed.

(** A pass that goes on to the next one stamps the tail of the array with
    the next counter value and moves the scan position forward. *)
Lemma loop_body_continue (N : nat) (v : list V) (sp : V) (N_points : nat)
      (st st' : CV.scan_state) :
  1 <= N_points ->
  scan_inv N st ->
  CV.loop_body V ltb v sp N_points st = CV.Continue st' ->
  scan_inv N st' /\ CV.n st < CV.n st'.
Proof.
  intros HN Hinv. unfold CV.loop_body.
  destruct (negb _); [discriminate |].
  destruct (negb _); [discriminate |].
  intros H. injection H as <-. simpl.
  set (n2 := CV.n st + _ + _).
  assert (Hn2 : 1 <= n2) by (subst n2; lia).
  destruct Hinv as [Hc Hlen Hmono Hrange Hhd].
  split; [constructor; simpl | lia].
  - lia.
  - rewrite assign_from_length. exact Hlen.
  - intros i j a b Hij Ha Hb.
    apply assign_from_nth in Ha. apply assign_from_nth in Hb.
    destruct Ha as [[Hi Ha] | [Hi ->]], Hb as [[Hj Hb] | [Hj ->]].
    + exact (Hmono i j a b Hij Ha Hb).
    + apply nth_error_In in Ha. apply Hrange in Ha. lia.
    + lia.
    + lia.
  - intros x Hx. apply In_nth_error in Hx. destruct Hx as [i Hi].
    apply assign_from_nth in Hi. destruct Hi as [[_ Hi] | [_ ->]].
    + apply nth_error_In in Hi. apply Hrange in Hi. lia.
    + lia.
  - intros Hne.
    destruct (assign_from_hd n2 (CV.c st + 1)%Z (CV.cycle_vec st) Hn2) as [-> | E].
    + apply Hhd. intros E. rewrite E in Hne. unfold Py.assign_from in Hne.
      simpl in Hne. rewrite firstn_nil in Hne. now elim Hne.
    + rewrite E in Hne. unfold Py.assign_from in Hne.
      simpl in Hne. rewrite firstn_nil in Hne. now elim Hne.
Qed.

Lemma loop_body_break (N : nat) (v : list V) (sp : V) (N_points : nat)
      (st st' : CV.scan_state) :
  scan_inv N st ->
  CV.loop_body V ltb v sp N_points st = CV.Break st' ->
  scan_inv N st'.
Proof.
  intros Hinv. unfold CV.loop_body.
  destruct (negb _).
  - intros H. injection H as <-. exact Hinv.
  - destruct (negb _); [| discriminate].
    intros H. injection H as <-. destruct Hinv. constructor; assumption.
Qed.

(** The loop leaves by its own condition or by [break] before the bound
    on the passes is reached, and keeps the invariant. *)
Lemma while_loop_total (N : nat) (v : list V) (sp : V) (N_points : nat) :
  1 <= N_points ->
  forall fuel st,
    N - CV.n st < fuel ->
    scan_inv N st ->
    exists st', CV.while_loop V ltb fuel N v sp N_points st = Some st' /\ scan_inv N st'.
Proof.
  intros HN. induction fuel as [| fuel IH]; intros st Hfuel Hinv; [lia |].
  simpl. destruct (Nat.ltb_spec (CV.n st) N) as [Hlt | Hge].
  - destruct (CV.loop_body V ltb v sp N_points st) as [st' | st'] eqn:E.
    + exists st'. split; [reflexivity |]. eapply loop_body_break; eassumption.
    + destruct (loop_body_continue N v sp N_points st st' HN Hinv E) as [Hinv' Hn].
      apply IH; [lia | exact Hinv'].
  - exists st. split; [reflexivity | exact Hinv].
Qed.

End CycleSegmenterFacts.

(** C5.  For time and potential arrays of the same length, a given
    [start_potential], either scan direction and [N_points >= 1],
    [redefine_cycle] returns a cycle-index array that has the length of the
    input, holds integers (its entries are of type [Z], and none is
    negative), never decreases, and starts with 0. *)
Theorem redefine_cycle_contract :
  forall (V : Type) (ltb : V -> V -> bool) (neg : V -> V)
         (t v : list V) (start_potential : V) (redox : bool) (N_points : nat),
    length t = length v ->
    1 <= N_points ->
    exists cycle : list Z,
      CV.redefine_cycle V ltb neg t v start_potential redox N_points = Some cycle /\
      length cycle = length t /\
      non_decreasing cycle /\
      (forall x, In x cycle -> (0 <= x)%Z) /\
      (t <> [] -> hd_error cycle = Some 0%Z).
Proof.
  intros V ltb neg t v sp redox N_points _ HN. unfold CV.redefine_cycle.
  set (args := if negb redox then _ else _). destruct args as [sp' v'].
  destruct (while_loop_total V ltb (length t) v' sp' N_points HN (S (length t))
              (CV.mk_scan 0%Z 0 (Py.zeros (length t)))) as [st' [E Hinv]].
  - simpl. lia.
  - apply scan_inv_init.
  - rewrite E. exists (CV.cycle_vec st'). destruct Hinv as [Hc Hlen Hmono Hrange Hhd].
    repeat split; try assumption.
    + intros x Hx. apply Hrange in Hx. lia.
    + intros Ht. apply Hhd. intros E'. rewrite E' in Hlen.
      destruct t; [now elim Ht | discriminate].
Qed.

Lemma redefine_cycle_contract_witness :
  length [0; 1; 2; 3; 4; 5]%Z = length [0; 2; 2; 0; 0; 3]%Z /\
  1 <= 2 /\
  exists cycle : list Z,
    CV.redefine_cycle Z Z.ltb Z.opp [0; 1; 2; 3; 4; 5]%Z [0; 2; 2; 0; 0; 3]%Z 1%Z true 2
      = Some cycle /\
    length cycle = 6 /\
    non_decreasing cycle /\
    (forall x, In x cycle -> (0 <= x)%Z) /\
    ([0; 1; 2; 3; 4; 5]%Z <> [] -> hd_error cycle = Some 0%Z).
Proof.
  split; [reflexivity |]. split; [lia |].
  apply (redefine_cycle_contract Z Z.ltb Z.opp
           [0; 1; 2; 3; 4; 5]%Z [0; 2; 2; 0; 0; 3]%Z 1%Z true 2); [reflexivity | lia].
Defined.

(** C4.  The scan at [v = [0; 2; 2]], [start_potential = 1], anodic,
    [N_points = 2]: the cycle index goes up at sample 2, although the
    potential was behind the threshold for one sample only (sample 0): the
    sample before the increment is ahead of the threshold, so neither the
    two samples nor the one sample before it are all behind. *)
Theorem redefine_cycle_skips_debounce_check :
  CV.redefine_cycle Z Z.ltb Z.opp [0; 1; 2]%Z [0; 2; 2]%Z 1%Z true 2 = Some [0; 0; 1]%Z /\
  registers_at [0; 0; 1]%Z 2 /\
  map (fun x => Z.ltb x 1) [0; 2; 2]%Z = [true; false; false] /\
  ~ behind_before Z.ltb [0; 2; 2]%Z 1%Z 2 2 /\
  ~ behind_before Z.ltb [0; 2; 2]%Z 1%Z 1 2.
Proof.
  split; [reflexivity |]. split.
  { split; [lia |]. exists 0%Z, 1%Z. repeat split; lia. }
  split; [reflexivity |]. split.
  - intros [_ H]. destruct (H 1) as [x [Hx Hlt]]; [lia |].
    injection Hx as <-. discriminate.
  - intros [_ H]. destruct (H 1) as [x [Hx Hlt]]; [lia |].
    injection Hx as <-. discriminate.
Qed.

(* ===================================================================== *)
(** * Properties of the row splitter of the EC-lab block *)
(* ===================================================================== *)

Lemma biologic_splits_layout {A} (eqb : A -> A -> bool) (keys : list A) :
  Zilien._get_biologic_splits eqb keys = layout 0 (Itertools.groupby A eqb keys).
Proof.
  unfold Zilien._get_biologic_splits.
  assert (H : forall groups index splits,
             snd (fold_left
                    (fun (acc : nat * list (nat * nat)) (item : A * list A) =>
                       let '(index, splits) := acc in
                       let group_length := length (snd item) in
                       (index + group_length, splits ++ [(index, index + group_length)]))
                    groups (index, splits))
             = splits ++ layout index groups).
  { induction groups as [| [k g] groups IH]; intros index splits; simpl.
    - now rewrite app_nil_r.
    - rewrite IH, <- app_assoc. reflexivity. }
  apply (H _ 0 []).
Qed.

Section RunFacts.

Variable A : Type.
Variable eqb : A -> A -> bool.
Hypothesis eqb_eq : forall a b, eqb a b = true <-> a = b.

Lemma nth_error_run (pre items : list A) (k : A) (m i : nat) :
  length pre <= i < length pre + m ->
  nth_error (pre ++ repeat k m ++ items) i = Some k.
Proof.
  intros Hi. rewrite nth_error_app2 by lia.
  rewrite nth_error_app1 by (rewrite repeat_length; lia).
  apply nth_error_repeat. lia.
Qed.

Lemma nth_error_after_run (pre items : list A) (k : A) (m : nat) :
  nth_error (pre ++ repeat k m ++ items) (length pre + m) = nth_error items 0.
Proof.
  rewrite nth_error_app2 by lia.
  rewrite nth_error_app2 by (rewrite repeat_length; lia).
  rewrite repeat_length. f_equal. lia.
Qed.

(** The groups of [groupby] from an open group of [m] copies of the key
    [k], laid out from the row where that group starts. *)
Lemma groupby_from_runs (items : list A) :
  forall (k : A) (m : nat) (pre : list A),
    1 <= m ->
    maximal_runs (pre ++ repeat k m ++ items) (length pre)
      (layout (length pre) (Itertools.groupby_from A eqb k (repeat k m) items)).
Proof.
  induction items as [| x items IH]; intros k m pre Hm; simpl.
  - assert (Hlen : length (pre ++ repeat k m ++ []) = length pre + m).
    { rewrite !length_app, repeat_length. simpl. lia. }
    rewrite repeat_length.
    apply runs_next.
    + lia.
    + lia.
    + intros i Hi. rewrite !nth_error_run by lia. reflexivity.
    + lia.
    + rewrite <- Hlen. apply runs_done.
  - destruct (eqb k x) eqn:E.
    + apply eqb_eq in E. subst x.
      replace (repeat k m ++ [k]) with (repeat k (S m)) by (simpl; apply repeat_cons).
      replace (pre ++ repeat k m ++ k :: items) with (pre ++ repeat k (S m) ++ items).
      * apply IH. lia.
      * change (repeat k (S m)) with (k :: repeat k m).
        rewrite repeat_cons, <- app_assoc. reflexivity.
    + assert (Hne : k <> x).
      { intros ->. assert (Hx : eqb x x = true) by (apply eqb_eq; reflexivity). congruence. }
      simpl. rewrite repeat_length.
      assert (Hlen : length (pre ++ repeat k m ++ x :: items)
                     = length pre + m + S (length items)).
      { rewrite !length_app, repeat_length. simpl. lia. }
      apply runs_next.
      * lia.
      * lia.
      * intros i Hi. rewrite !nth_error_run by lia. reflexivity.
      * intros _. rewrite nth_error_after_run, nth_error_run by lia. simpl. congruence.
      * specialize (IH x 1 (pre ++ repeat k m)).
        rewrite length_app, repeat_length in IH. simpl in IH.
        rewrite <- app_assoc in IH. apply IH. lia.
Qed.

Lemma biologic_splits_maximal_runs (keys : list A) :
  maximal_runs keys 0 (Zilien._get_biologic_splits eqb keys).
Proof.
  rewrite biologic_splits_layout. destruct keys as [| x keys]; simpl.
  - apply runs_done.
  - apply (groupby_from_runs keys x 1 []). lia.
Qed.

Lemma maximal_runs_contiguous (keys : list A) (start : nat) (splits : list (nat * nat)) :
  maximal_runs keys start splits -> contiguous_runs start splits (length keys).
Proof.
  induction 1; simpl; auto.
Qed.

Lemma maximal_runs_in (keys : list A) (start : nat) (splits : list (nat * nat)) :
  maximal_runs keys start splits ->
  forall b e, In (b, e) splits ->
    (forall i, b <= i < e -> nth_error keys i = nth_error keys b) /\
    (e < length keys -> nth_error keys e <> nth_error keys b).
Proof.
  induction 1 as [| b e rest Hbe Hle Hconst Hmax Hrest IH]; intros b' e' Hin.
  - destruct Hin.
  - destruct Hin as [E | Hin].
    + injection E as <- <-. split; assumption.
    + apply IH. exact Hin.
Qed.

End RunFacts.

(** C1.  For every vector of composite run keys, of any type of numbers
    on which [==] tells equal keys from different ones, [_get_biologic_splits]
    returns the maximal contiguous runs of constant key as (begin, end)
    pairs in row order: the runs start at row 0, each begins where the one
    before it ends, the last ends with the vector, none is empty; the key is
    the same on all rows of a run; and the row after a run has another key.
    A key that comes back after another key therefore begins a run of its
    own: for [5001, 5001, 5001, 7002, 7002, 5001] the runs are
    [(0,3), (3,5), (5,6)]. *)
Theorem biologic_splits_partition :
  (forall (A : Type) (eqb : A -> A -> bool),
      (forall a b, eqb a b = true <-> a = b) ->
      forall keys : list A,
        let splits := Zilien._get_biologic_splits eqb keys in
        contiguous_runs 0 splits (length keys) /\
        (forall b e i, In (b, e) splits -> b <= i < e ->
                       nth_error keys i = nth_error keys b) /\
        (forall b e, In (b, e) splits -> e < length keys ->
                     nth_error keys e <> nth_error keys b)) /\
  Zilien._get_biologic_splits Z.eqb [5001; 5001; 5001; 7002; 7002; 5001]%Z
    = [(0, 3); (3, 5); (5, 6)].
Proof.
  split; [| reflexivity].
  intros A eqb eqb_eq keys splits.
  pose proof (biologic_splits_maximal_runs A eqb eqb_eq keys) as H.
  fold splits in H. split; [| split].
  - eapply maximal_runs_contiguous. exact H.
  - intros b e i Hin Hi. exact (proj1 (maximal_runs_in _ _ _ _ H b e Hin) i Hi).
  - intros b e Hin He. exact (proj2 (maximal_runs_in _ _ _ _ H b e Hin) He).
Qed.

Lemma biologic_splits_partition_witness :
  (forall a b : Z, Z.eqb a b = true <-> a = b) /\
  let keys := [1001; 1001; 1002; 1002; 1002; 1001; 2001]%Z in
  let splits := Zilien._get_biologic_splits Z.eqb keys in
  contiguous_runs 0 splits (length keys) /\
  (forall b e i, In (b, e) splits -> b <= i < e ->
                 nth_error keys i = nth_error keys b) /\
  (forall b e, In (b, e) splits -> e < length keys ->
               nth_error keys e <> nth_error keys b).
Proof.
  split; [exact Z.eqb_eq |].
  exact (proj1 biologic_splits_partition Z Z.eqb Z.eqb_eq
               [1001; 1001; 1002; 1002; 1002; 1001; 2001]%Z).
Defined.

(* ===================================================================== *)
(** * Properties of the column splitter *)
(* ===================================================================== *)

Lemma series_splits_positions (series_headers : list string) :
  Zilien._get_series_splits series_headers =
  (Itertools.zip_longest (positions 0 series_headers) (tl (positions 0 series_headers)),
   filter nonempty series_headers).
Proof.
  unfold Zilien._get_series_splits.
  assert (H : forall hs offset indices names,
             fold_left
               (fun (acc : list nat * list string) (item : nat * string) =>
                  let '(series_split_indices, nonempty_headers) := acc in
                  let '(index, series_header) := item in
                  if negb (String.eqb series_header EmptyString)
                  then (series_split_indices ++ [index], nonempty_headers ++ [series_header])
                  else acc)
               (combine (seq offset (length hs)) hs) (indices, names)
             = (indices ++ positions offset hs, names ++ filter nonempty hs)).
  { induction hs as [| h hs IH]; intros offset indices names; simpl.
    - now rewrite !app_nil_r.
    - unfold nonempty. destruct (negb (String.eqb h EmptyString)).
      + rewrite IH, <- !app_assoc. reflexivity.
      + apply IH. }
  rewrite (H series_headers 0 [] []). simpl. f_equal.
  f_equal. unfold Np.slice, Np.slice_bounds.
  destruct (positions 0 series_headers) as [| p ps]; simpl; [reflexivity |].
  rewrite Nat.sub_0_r. apply firstn_all.
Qed.

Lemma positions_spec (hs : list string) :
  forall offset i,
    In i (positions offset hs) <->
    offset <= i /\ exists h, nth_error hs (i - offset) = Some h /\ nonempty h = true.
Proof.
  induction hs as [| h hs IH]; intros offset i; simpl.
  - split; [intros [] | intros [_ [h [H _]]]].
    destruct (i - offset); discriminate.
  - destruct (nonempty h) eqn:E; simpl; rewrite IH.
    + split.
      * intros [<- | [Hle [h' [Hn Hh]]]].
        -- split; [lia |]. exists h. rewrite Nat.sub_diag. auto.
        -- split; [lia |]. exists h'. replace (i - offset) with (S (i - S offset)) by lia. auto.
      * intros [Hle [h' [Hn Hh]]].
        destruct (Nat.eq_dec offset i) as [-> | Hne]; [left; reflexivity | right].
        split; [lia |]. exists h'.
        replace (i - offset) with (S (i - S offset)) in Hn by lia. auto.
    + split.
      * intros [Hle [h' [Hn Hh]]].
        split; [lia |]. exists h'. replace (i - offset) with (S (i - S offset)) by lia. auto.
      * intros [Hle [h' [Hn Hh]]].
        destruct (Nat.eq_dec offset i) as [-> | Hne].
        -- rewrite Nat.sub_diag in Hn. simpl in Hn. congruence.
        -- split; [lia |]. exists h'.
           replace (i - offset) with (S (i - S offset)) in Hn by lia. auto.
Qed.

Lemma positions_increasing (hs : list string) :
  forall offset, increasing (positions offset hs).
Proof.
  induction hs as [| h hs IH]; intros offset; simpl; [exact I |].
  destruct (nonempty h); simpl; [split |]; try apply IH.
  intros y Hy. apply positions_spec in Hy. lia.
Qed.

Lemma positions_bound (hs : list string) (offset i : nat) :
  In i (positions offset hs) -> i < offset + length hs.
Proof.
  intros H. apply positions_spec in H. destruct H as [Hle [h [Hn _]]].
  assert (i - offset < length hs) by (apply nth_error_Some; congruence). lia.
Qed.

Lemma positions_hd (hs : list string) :
  forall offset,
    hd (offset + length hs) (positions offset hs) = offset + leading_empty hs.
Proof.
  induction hs as [| h hs IH]; intros offset; simpl; [reflexivity |].
  destruct (nonempty h); simpl; [lia |].
  rewrite <- Nat.add_succ_comm. rewrite IH. lia.
Qed.

Lemma zip_longest_tl_tiles (L : nat) (ps : list nat) :
  increasing ps ->
  (forall p, In p ps -> p < L) ->
  tiles (Itertools.zip_longest ps (tl ps)) (hd L ps) L.
Proof.
  induction ps as [| p ps IH]; intros Hinc Hlt; [reflexivity |].
  destruct ps as [| q ps].
  - simpl. repeat split; auto. apply Hlt. now left.
  - change (Itertools.zip_longest (p :: q :: ps) (tl (p :: q :: ps)))
      with ((Some p, Some q) :: Itertools.zip_longest (q :: ps) (tl (q :: ps))).
    destruct Hinc as [Hp Hinc].
    split; [reflexivity |]. split; [apply Hp; now left |]. split.
    + split; [discriminate |]. destruct ps; discriminate.
    + apply IH; [exact Hinc |]. intros r Hr. apply Hlt. now right.
Qed.

Lemma zip_longest_tl_begins (ps : list nat) :
  map fst (Itertools.zip_longest ps (tl ps)) = map Some ps.
Proof.
  induction ps as [| p ps IH]; simpl; [reflexivity |].
  destruct ps as [| q ps]; simpl; [reflexivity |].
  f_equal. exact IH.
Qed.

Lemma increasing_NoDup (l : list nat) : increasing l -> NoDup l.
Proof.
  induction l as [| x l IH]; intros H; constructor.
  - intros Hin. apply (proj1 H) in Hin. lia.
  - apply IH. exact (proj2 H).
Qed.

Lemma NoDup_map_Some {A} (l : list A) : NoDup l -> NoDup (map Some l).
Proof.
  induction 1 as [| x l Hx Hl IH]; simpl; constructor; [| exact IH].
  rewrite in_map_iff. intros [y [E Hy]]. injection E as ->. contradiction.
Qed.

(** C2, as the code has it.  The ranges [_get_series_splits] returns, one
    per non-empty header cell, follow each other from the first non-empty
    header cell to the end of the row, the end of the last one being [None]
    (which a slice reads as the length [L] of the row): they cover the
    columns from that cell on without gap or overlap; the non-empty header
    indices are exactly the begins of the ranges, each of one range; when
    the first cell of the row is not empty the ranges cover all of
    [[0, L)]; and an entirely empty row gives no range. *)
Theorem series_splits_cover :
  forall series_headers : list string,
    let L := length series_headers in
    let ranges := fst (Zilien._get_series_splits series_headers) in
    tiles ranges (leading_empty series_headers) L /\
    (forall i, In (Some i) (map fst ranges) <->
               exists h, nth_error series_headers i = Some h /\ h <> EmptyString) /\
    NoDup (map fst ranges) /\
    (forall i, i < L -> leading_empty series_headers <= i ->
               exists b e, In (Some b, e) ranges /\ b <= i < stop_of L e) /\
    ((exists h rest, series_headers = h :: rest /\ h <> EmptyString) ->
     tiles ranges 0 L) /\
    ((forall h, In h series_headers -> h = EmptyString) -> ranges = []).
Proof.
  intros hs L ranges. subst ranges. rewrite series_splits_positions. simpl.
  pose proof (positions_hd hs 0) as Hhd. simpl in Hhd. fold L in Hhd.
  assert (Htiles : tiles (Itertools.zip_longest (positions 0 hs) (tl (positions 0 hs)))
                         (leading_empty hs) L).
  { rewrite <- Hhd. apply zip_longest_tl_tiles.
    - apply positions_increasing.
    - intros p Hp. apply positions_bound in Hp. exact Hp. }
  split; [exact Htiles |].
  split; [| split; [| split; [| split]]].
  - intros i. rewrite zip_longest_tl_begins, in_map_iff. split.
    + intros [j [E Hj]]. injection E as ->. apply positions_spec in Hj.
      destruct Hj as [_ [h [Hn Hh]]]. rewrite Nat.sub_0_r in Hn.
      exists h. split; [exact Hn |]. intros ->. discriminate.
    + intros [h [Hn Hh]]. exists i. split; [reflexivity |].
      apply positions_spec. split; [lia |]. exists h. rewrite Nat.sub_0_r.
      split; [exact Hn |]. unfold nonempty.
      destruct (String.eqb_spec h EmptyString); [contradiction | reflexivity].
  - rewrite zip_longest_tl_begins. apply NoDup_map_Some.
    apply increasing_NoDup, positions_increasing.
  - clear Hhd. revert Htiles. generalize (leading_empty hs) as lo.
    generalize (Itertools.zip_longest (positions 0 hs) (tl (positions 0 hs))) as rs.
    induction rs as [| [b e] rs IH]; intros lo Htiles i Hi Hlo; simpl in Htiles.
    + lia.
    + destruct Htiles as [-> [Hlt [_ Hrest]]].
      destruct (Nat.lt_ge_cases i (stop_of L e)) as [Hin | Hge].
      * exists lo, e. split; [now left | lia].
      * destruct (IH (stop_of L e) Hrest i Hi Hge) as [b' [e' [Hin Hb]]].
        exists b', e'. split; [now right | exact Hb].
  - intros [h [rest [-> Hh]]].
    assert (E : leading_empty (h :: rest) = 0).
    { simpl. unfold nonempty.
      destruct (String.eqb_spec h EmptyString); [contradiction | reflexivity]. }
    rewrite E in Htiles. exact Htiles.
  - intros Hall.
    assert (E : positions 0 hs = []).
    { destruct (positions 0 hs) as [| p ps] eqn:E; [reflexivity |].
      assert (Hp : In p (positions 0 hs)) by (rewrite E; now left).
      apply positions_spec in Hp. destruct Hp as [_ [h [Hn Hh]]].
      apply nth_error_In in Hn. apply Hall in Hn. subst h. discriminate. }
    rewrite E. reflexivity.
Qed.

(** C2 as stated fails on a header row that starts with an empty cell: for
    the row of an empty cell, the cell [pot] and an empty cell, the only
    range is [(1, None)], and column 0 lies in no range. *)
Lemma series_splits_leading_gap :
  fst (Zilien._get_series_splits [EmptyString; "pot"%string; EmptyString]) = [(Some 1, None)] /\
  ~ (forall i, i < 3 ->
       exists b e,
         In (Some b, e) (fst (Zilien._get_series_splits
                                [EmptyString; "pot"%string; EmptyString])) /\
         b <= i < stop_of 3 e).
Proof.
  split; [reflexivity |].
  intros H. destruct (H 0) as [b [e [Hin Hb]]]; [lia |].
  simpl in Hin. destruct Hin as [E | []]. injection E as <- <-. lia.
Qed.

(* ===================================================================== *)
(** * Properties of the alias table *)
(* ===================================================================== *)

Section DictFacts.

Import PyDict.
Context {V : Type}.

Lemma get_set_same (d : dict V) (k : string) (v : V) :
  get (set d k v) k = Some v.
Proof.
  induction d as [| [k0 v0] d IH]; simpl.
  - now rewrite String.eqb_refl.
  - destruct (String.eqb k0 k) eqn:E; simpl; rewrite E; [reflexivity | exact IH].
Qed.

Lemma get_set_other (d : dict V) (k k' : string) (v : V) :
  k <> k' -> get (set d k v) k' = get d k'.
Proof.
  intros Hne. induction d as [| [k0 v0] d IH]; simpl.
  - destruct (String.eqb_spec k k'); [contradiction | reflexivity].
  - destruct (String.eqb_spec k0 k) as [-> | Hk]; simpl.
    + destruct (String.eqb_spec k k'); [contradiction | reflexivity].
    + destruct (String.eqb k0 k'); [reflexivity | exact IH].
Qed.

Lemma get_update_other (other d : dict V) (k : string) :
  get other k = None -> get (update d other) k = get d k.
Proof.
  unfold update. revert d. induction other as [| [k0 v0] other IH]; intros d H; simpl.
  - reflexivity.
  - simpl in H. destruct (String.eqb_spec k0 k) as [-> | Hk]; [discriminate |].
    rewrite IH by exact H. apply get_set_other. exact Hk.
Qed.

Lemma get_not_in (d : dict V) (k : string) :
  ~ In k (map fst d) -> get d k = None.
Proof.
  induction d as [| [k0 v0] d IH]; simpl; intros H; [reflexivity |].
  destruct (String.eqb_spec k0 k) as [-> | Hk].
  - elim H. now left.
  - apply IH. intros Hin. apply H. now right.
Qed.

End DictFacts.

Lemma get_extend (d : PyDict.dict (list string)) (k k' : string) (items : list string) :
  PyDict.get (PyDict.extend d k items) k' =
  if String.eqb k k' then Some (entries d k ++ items) else PyDict.get d k'.
Proof.
  unfold PyDict.extend, entries.
  destruct (String.eqb_spec k k') as [<- | Hne].
  - destruct (PyDict.get d k); apply get_set_same.
  - destruct (PyDict.get d k); apply get_set_other; exact Hne.
Qed.

(** Extending a table by the items of a dict, key by key, puts the new
    names after the ones the table has, and leaves every other entry as it
    is. *)
Lemma fold_extend_get (general : PyDict.dict (list string)) :
  NoDup (map fst general) ->
  forall (d : PyDict.dict (list string)) (k : string),
    PyDict.get
      (fold_left (fun aliases '(standard_name, general_aliases) =>
                    PyDict.extend aliases standard_name general_aliases)
                 general d) k
    = match PyDict.get general k with
      | Some g => Some (entries d k ++ g)
      | None => PyDict.get d k
      end.
Proof.
  induction general as [| [k0 g0] general IH]; intros Hnd d k; simpl.
  - reflexivity.
  - inversion Hnd as [| ? ? Hnotin Hnd']; subst.
    rewrite (IH Hnd'). unfold entries at 1. rewrite !get_extend.
    destruct (String.eqb_spec k0 k) as [-> | Hne].
    + rewrite (get_not_in general k Hnotin). reflexivity.
    + reflexivity.
Qed.

Lemma ZILIEN_EC_ALIASES_keys : NoDup (map fst Zilien.ZILIEN_EC_ALIASES).
Proof.
  simpl. repeat constructor; simpl; intuition discriminate.
Qed.

Lemma add_general_aliases_spec (cls : ZilienData.measurement_class)
      (block merged : PyDict.dict (list string)) :
  Zilien.add_general_aliases cls block = inr merged ->
  exists general,
    Zilien.ZILIEN_ALIASES cls = Some general /\
    forall k,
      PyDict.get merged k =
      match PyDict.get general k with
      | Some g => Some (entries block k ++ g)
      | None => PyDict.get block k
      end.
Proof.
  unfold Zilien.add_general_aliases.
  destruct (Zilien.ZILIEN_ALIASES cls) as [general |] eqn:E; [| discriminate].
  intros H. injection H as <-. exists general. split; [reflexivity |].
  intros k. apply fold_extend_get.
  destruct cls; simpl in E; try discriminate; injection E as <-;
    first [apply ZILIEN_EC_ALIASES_keys | constructor].
Qed.

(* ===================================================================== *)
(** * Properties of [ZilienTSVReader.read] *)
(* ===================================================================== *)

Section ReadFacts.

Import PyExn PyDict ZilienData.
Context {P : Platform}.

(** A read on a reader that has not read yet returns only when every
    step of it has returned: opening the file, the metadata, the data,
    the start time, the series, and the general aliases. *)
Lemma read_fresh_inv (path : string) (cls : measurement_class) (name : option string)
      (kwargs : dict (pyobj float)) (w w' : world float)
      (r : option (measurement float)) :
  _path_to_file (self_ w) = None ->
  Zilien.read path cls name kwargs w = (inr r, w') ->
  let cls' := fst (Zilien.resolve_technique cls kwargs) in
  let kwargs' := snd (Zilien.resolve_technique cls kwargs) in
  exists lines metadata series_headers column_headers rest data timestamp series block merged,
    open_text path = Some lines /\
    Zilien._read_metadata lines = inr (metadata, series_headers, column_headers, rest) /\
    genfromtxt rest = inr data /\
    Zilien.start_time metadata (path_stem path) = inr timestamp /\
    let self := loaded_reader (self_ w) cls' path metadata series_headers
                              column_headers data timestamp in
    Zilien._form_series self = inr (series, block) /\
    Zilien.add_general_aliases cls' block = inr merged /\
    let m := mk_measurement cls'
               (update (payload name (path_stem path) series merged timestamp metadata)
                       kwargs') in
    r = Some m /\
    w' = mk_world (Zilien.set__measurement m self) (stdout w)
                         ((opened w ++ [path]) ++ [path]).
Proof.
  intros Hfresh. unfold Zilien.read, Zilien.mbind, Zilien.get_self. simpl.
  rewrite Hfresh.
  destruct (Zilien.resolve_technique cls kwargs) as [cls' kwargs']. simpl.
  unfold Zilien.open_, Zilien.lift. simpl.
  destruct (open_text path) as [lines |] eqn:Eopen; [| simpl; discriminate]. simpl.
  destruct (Zilien._read_metadata lines) as [e | [[[metadata sh] ch] rest]] eqn:Emeta;
    [discriminate |]. simpl.
  destruct (genfromtxt rest) as [e | data] eqn:Edata; [discriminate |]. simpl.
  destruct (Zilien.start_time metadata (path_stem path)) as [e | ts] eqn:Etime;
    [discriminate |]. simpl.
  match goal with
  | |- context [Zilien._form_series ?s] =>
      change s with (loaded_reader (self_ w) cls' path metadata sh ch data ts)
  end.
  destruct (Zilien._form_series _) as [e | [series block]] eqn:Eform; [discriminate |].
  destruct (Zilien.add_general_aliases cls' block) as [e | merged] eqn:Emerge;
    [discriminate |]. simpl.
  intros H. injection H as <- <-.
  exists lines, metadata, sh, ch, rest, data, ts, series, block, merged.
  repeat split; assumption.
Qed.

End ReadFacts.

(* ===================================================================== *)
(** * The errors of the readers *)
(* ===================================================================== *)

Section ErrorFacts.

Import PyExn PyDict ZilienData.
Context {P : Platform}.

Lemma parse_metadata_line_unknown_type
      (line name comment attach_to_series type_as_str value : string) :
  PyStr.split PyStr.tab (PyStr.strip_newline line)
  = [name; comment; attach_to_series; type_as_str; value] ->
  PyStr.mem type_as_str known_types = false ->
  Zilien.parse_metadata_line line
  = inl (TypeError ("Unknown metadata type " ++ type_as_str ++ " for " ++ name)%string).
Proof.
  intros Hsplit Hmem. unfold Zilien.parse_metadata_line. rewrite Hsplit.
  unfold PyStr.mem, known_types in Hmem. simpl in Hmem.
  destruct (String.eqb type_as_str "string"); [discriminate |].
  destruct (String.eqb type_as_str "int"); [discriminate |].
  destruct (String.eqb type_as_str "double"); [discriminate |].
  destruct (String.eqb type_as_str "bool"); [discriminate |].
  reflexivity.
Qed.

Lemma parse_metadata_line_ok (line : string) (kv : string * pyval float) :
  Zilien.parse_metadata_line line = inr kv -> well_typed_line line.
Proof.
  unfold Zilien.parse_metadata_line, well_typed_line.
  destruct (PyStr.split PyStr.tab (PyStr.strip_newline line))
    as [| name [| comment [| attach [| ty [| value [| extra more]]]]]];
    try discriminate.
  intros H. exists name, comment, attach, ty, value. split; [reflexivity |].
  unfold PyStr.mem, known_types. simpl.
  destruct (String.eqb ty "string"); [reflexivity |].
  destruct (String.eqb ty "int"); [reflexivity |].
  destruct (String.eqb ty "double"); [reflexivity |].
  destruct (String.eqb ty "bool"); [reflexivity |].
  discriminate.
Qed.

Lemma read_metadata_lines_ok (k : nat) :
  forall (handle handle' : list string) (metadata metadata' : dict (pyval float)),
    Zilien.read_metadata_lines k handle metadata = inr (handle', metadata') ->
    handle' = skipn k handle /\
    forall i, i < k -> well_typed_line (line_at handle i).
Proof.
  induction k as [| k IH]; intros handle handle' metadata metadata' H; simpl in H.
  - injection H as <- <-. split; [reflexivity | intros i Hi; lia].
  - destruct (Zilien.readline handle) as [line rest] eqn:Hline.
    destruct (Zilien.parse_metadata_line line) as [e | [key value]] eqn:Hparse;
      [discriminate |].
    simpl in H. apply IH in H. destruct H as [-> Hrest].
    assert (Hl : line = line_at handle 0 /\ rest = skipn 1 handle).
    { destruct handle; simpl in Hline; injection Hline as <- <-; split; reflexivity. }
    destruct Hl as [-> ->]. split.
    + rewrite skipn_skipn. f_equal. lia.
    + intros [| i] Hi.
      * eapply parse_metadata_line_ok. exact Hparse.
      * specialize (Hrest i ltac:(lia)). unfold line_at in *.
        destruct handle; simpl in *; [destruct i; exact Hrest | exact Hrest].
Qed.

(** [_read_metadata] returns only when each of the metadata lines it read,
    [n] of them, is well typed; the data begins two header rows later. *)
Lemma read_metadata_ok (lines rest series_headers column_headers : list string)
      (metadata : dict (pyval float)) :
  Zilien._read_metadata lines = inr (metadata, series_headers, column_headers, rest) ->
  exists n,
    4 <= n /\
    rest = skipn (n + 2) lines /\
    forall i, i < n -> well_typed_line (line_at lines i).
Proof.
  unfold Zilien._read_metadata. intros H.
  destruct (Zilien.read_metadata_lines 4 lines []) as [e | [handle1 md1]] eqn:H1;
    [discriminate |].
  cbn [bind] in H.
  destruct (Zilien.header_lines_left md1 (Z.of_nat 4)) as [e | left] eqn:Hleft;
    [discriminate |].
  cbn [bind] in H.
  destruct (Zilien.read_metadata_lines left handle1 md1) as [e | [handle2 md2]] eqn:H2;
    [discriminate |].
  cbn [bind] in H.
  destruct (Zilien.readline handle2) as [line1 handle3] eqn:Hl1.
  destruct (Zilien.readline handle3) as [line2 handle4] eqn:Hl2.
  injection H as _ _ _ <-.
  apply read_metadata_lines_ok in H1. destruct H1 as [-> Hfirst].
  apply read_metadata_lines_ok in H2. destruct H2 as [-> Hmore].
  exists (4 + left). split; [lia |]. split.
  - assert (Hr : forall h l r, Zilien.readline h = (l, r) -> r = skipn 1 h).
    { intros h l r Hh. destruct h; simpl in Hh; injection Hh as <- <-; reflexivity. }
    apply Hr in Hl1. apply Hr in Hl2. subst handle4 handle3.
    rewrite !skipn_skipn. f_equal. lia.
  - intros i Hi. destruct (Nat.lt_ge_cases i 4) as [Hlt | Hge].
    + apply Hfirst. exact Hlt.
    + specialize (Hmore (i - 4) ltac:(lia)). unfold line_at in *.
      rewrite nth_skipn in Hmore. replace (4 + (i - 4)) with i in Hmore by lia.
      exact Hmore.
Qed.

Lemma create_series_loop (self : reader float) (names_and_units : Zilien.names_and_units_t)
      (data : Np.matrix float) (header : string) (post : list string)
      (col : list float) (entry : string * string * option string) :
  forall (pre : list string) (offset : nat) (objs : list (series float)),
    (forall j h, nth_error pre j = Some h -> skipped_column data (offset + j) h) ->
    PyStr.mem header ["experiment_number"%string; "technique_number"%string] = false ->
    Np.column (offset + length pre) data = inr col ->
    forallb isnan col = false ->
    nth_error names_and_units (offset + length pre) = Some entry ->
    PyStr.mem header ["Time [s]"%string; "time/s"%string] = false ->
    for_each (combine (seq offset (length (pre ++ header :: post))) (pre ++ header :: post))
             (Zilien.create_series_step self names_and_units data)
             (objs, None)
    = inl time_column_error.
Proof.
  induction pre as [| p pre IH]; intros offset objs Hskip Hmeta Hcol Hnan Hentry Htime.
  - cbn [app length seq combine for_each]. cbn [length] in Hcol, Hentry.
    rewrite Nat.add_0_r in Hcol, Hentry.
    unfold Zilien.create_series_step at 1. rewrite Hmeta, Hcol. cbn [bind].
    rewrite Hnan, Hentry. destruct entry as [[series_name unit] standard_name].
    rewrite Htime. reflexivity.
  - cbn [app length seq combine for_each].
    assert (Hstep : Zilien.create_series_step self names_and_units data (objs, None) (offset, p)
                    = inr (objs, None)).
    { unfold Zilien.create_series_step.
      destruct (Hskip 0 p eq_refl) as [Hm | [c [Hc Hn]]].
      - rewrite Hm. reflexivity.
      - destruct (PyStr.mem p _); [reflexivity |].
        rewrite Nat.add_0_r in Hc. rewrite Hc. cbn [bind]. rewrite Hn. reflexivity. }
    rewrite Hstep. cbn [bind].
    apply IH; try assumption.
    + intros j h Hj. replace (S offset + j) with (offset + S j) by lia.
      apply Hskip. exact Hj.
    + cbn [length] in Hcol.
      replace (S offset + length pre) with (offset + S (length pre)) by lia. exact Hcol.
    + cbn [length] in Hentry.
      replace (S offset + length pre) with (offset + S (length pre)) by lia. exact Hentry.
Qed.

Lemma create_series_step_skipped (self : reader float)
      (names_and_units : Zilien.names_and_units_t) (data : Np.matrix float)
      (acc : list (series float) * option (series float)) (j : nat) (header : string) :
  skipped_column data j header ->
  Zilien.create_series_step self names_and_units data acc (j, header) = inr acc.
Proof.
  intros Hskip. unfold Zilien.create_series_step. destruct acc as [objs time_series].
  destruct Hskip as [Hm | [c [Hc Hn]]].
  - rewrite Hm. reflexivity.
  - destruct (PyStr.mem header _); [reflexivity |].
    rewrite Hc. cbn [bind]. rewrite Hn. reflexivity.
Qed.

Lemma create_series_loop_skipped (self : reader float)
      (names_and_units : Zilien.names_and_units_t) (data : Np.matrix float) :
  forall (column_headers : list string) (offset : nat)
         (acc : list (series float) * option (series float)),
    (forall j h, nth_error column_headers j = Some h -> skipped_column data (offset + j) h) ->
    for_each (combine (seq offset (length column_headers)) column_headers)
             (Zilien.create_series_step self names_and_units data) acc
    = inr acc.
Proof.
  induction column_headers as [| p rest IH]; intros offset acc Hskip; [reflexivity |].
  cbn [length seq combine for_each].
  rewrite create_series_step_skipped.
  - cbn [bind]. apply IH. intros j h Hj.
    replace (S offset + j) with (offset + S j) by lia. apply Hskip. exact Hj.
  - specialize (Hskip 0 p eq_refl). rewrite Nat.add_0_r in Hskip. exact Hskip.
Qed.

Lemma create_series_objects_all_skipped (self : reader float)
      (column_headers : list string) (names_and_units : Zilien.names_and_units_t)
      (data : Np.matrix float) :
  (forall j h, nth_error column_headers j = Some h -> skipped_column data j h) ->
  Zilien._create_series_objects self column_headers names_and_units data = inr [].
Proof.
  intros Hskip. unfold Zilien._create_series_objects.
  rewrite create_series_loop_skipped by exact Hskip. reflexivity.
Qed.

Lemma create_series_objects_value_first (self : reader float)
      (column_headers : list string) (names_and_units : Zilien.names_and_units_t)
      (data : Np.matrix float) :
  value_column_first column_headers names_and_units data ->
  Zilien._create_series_objects self column_headers names_and_units data
  = inl time_column_error.
Proof.
  intros (pre & header & post & col & entry & -> & Hskip & Hmeta & Hcol & Hnan & Hentry & Htime).
  unfold Zilien._create_series_objects.
  rewrite (create_series_loop self names_and_units data header post col entry pre 0 []);
    try assumption; reflexivity.
Qed.

Lemma zilien_dataset_part_value_first (self : reader float) (series_header : string)
      (column_headers : list string) (data_columns_split rows : Np.matrix float) :
  counted_rows (_metadata self) series_header data_columns_split = Some rows ->
  value_column_first column_headers
    (map (Zilien._form_names_and_unit series_header) column_headers) rows ->
  Zilien._zilien_dataset_part self series_header column_headers data_columns_split
  = inl time_column_error.
Proof.
  unfold counted_rows, Zilien._zilien_dataset_part. intros Hrows Hfirst.
  destruct (_metadata self) as [metadata |]; [| discriminate]. cbn [Zilien.attribute bind ret].
  destruct (get metadata _) as [count |]; [| discriminate].
  destruct (Zilien.rows_to_count count data_columns_split) as [e | rows']; [discriminate |].
  injection Hrows as ->. cbn [bind].
  rewrite (create_series_objects_value_first _ _ _ _ Hfirst). reflexivity.
Qed.

Lemma zilien_dataset_part_ok (self : reader float) (series_header : string)
      (column_headers : list string) (data_columns_split : Np.matrix float)
      (out : list (series float) * dict (list string)) :
  Zilien._zilien_dataset_part self series_header column_headers data_columns_split = inr out ->
  exists rows,
    counted_rows (_metadata self) series_header data_columns_split = Some rows /\
    ~ value_column_first column_headers
        (map (Zilien._form_names_and_unit series_header) column_headers) rows.
Proof.
  intros H.
  destruct (counted_rows (_metadata self) series_header data_columns_split) as [rows |] eqn:Hrows.
  - exists rows. split; [reflexivity |]. intros Hfirst.
    rewrite (zilien_dataset_part_value_first _ _ _ _ _ Hrows Hfirst) in H. discriminate.
  - exfalso. revert H Hrows. unfold counted_rows, Zilien._zilien_dataset_part.
    destruct (_metadata self) as [metadata |]; [| discriminate].
    cbn [Zilien.attribute bind ret].
    destruct (get metadata _) as [count |]; [| discriminate].
    destruct (Zilien.rows_to_count count data_columns_split) as [e | rows']; discriminate.
Qed.

Lemma create_series_objects_ok (self : reader float) (column_headers : list string)
      (names_and_units : Zilien.names_and_units_t) (data : Np.matrix float)
      (objs : list (series float)) :
  Zilien._create_series_objects self column_headers names_and_units data = inr objs ->
  ~ value_column_first column_headers names_and_units data.
Proof.
  intros H Hfirst. rewrite (create_series_objects_value_first _ _ _ _ Hfirst) in H.
  discriminate.
Qed.

(** A loop that ends without an exception has run its body on every item
    without one. *)
Lemma for_each_ok {A S} (body : S -> A -> result S) (items : list A) :
  forall (acc final : S),
    for_each items body acc = inr final ->
    forall x, In x items -> exists a a', body a x = inr a'.
Proof.
  induction items as [| y items IH]; intros acc final H x Hin; [destruct Hin |].
  cbn [for_each] in H. destruct (body acc y) as [e | acc'] eqn:Hy; [discriminate |].
  cbn [bind] in H. destruct Hin as [<- | Hin].
  - exists acc, acc'. exact Hy.
  - eapply IH; eassumption.
Qed.

Lemma biologic_dataset_part_ok (self : reader float) (column_headers : list string)
      (data_columns_split : Np.matrix float) (out : list (series float)) :
  Zilien._biologic_dataset_part self column_headers data_columns_split = inr out ->
  exists runs,
    biologic_runs (_metadata self) column_headers data_columns_split = Some runs /\
    forall b e,
      In (b, e) runs ->
      ~ value_column_first column_headers
          (map (Zilien._form_names_and_unit Zilien.BIOLOGIC_SERIES_NAME) column_headers)
          (Np.rows_range b e data_columns_split).
Proof.
  unfold Zilien._biologic_dataset_part, biologic_runs, counted_rows.
  destruct (_metadata self) as [metadata |]; [| discriminate].
  cbn [Zilien.attribute bind ret].
  destruct (get metadata _) as [count |]; [| discriminate].
  destruct (Zilien.list_index "experiment_number" column_headers) as [e | exp_index];
    [discriminate |]. cbn [bind].
  destruct (Zilien.rows_to_count count data_columns_split) as [e | counted];
    [discriminate |]. cbn [bind].
  destruct (Np.column exp_index counted) as [e | exp_nums]; [discriminate |]. cbn [bind].
  destruct (Zilien.list_index "technique_number" column_headers) as [e | tech_index];
    [discriminate |]. cbn [bind].
  destruct (Np.column tech_index counted) as [e | tech_nums]; [discriminate |]. cbn [bind].
  intros H. eexists. split; [reflexivity |].
  intros b e Hin.
  destruct (for_each_ok _ _ _ _ H (b, e) Hin) as [a [a' Hbody]]. cbn beta iota in Hbody.
  destruct (Zilien._create_series_objects self column_headers _ _) as [err | part] eqn:Hc;
    [discriminate |].
  eapply create_series_objects_ok. exact Hc.
Qed.

Lemma form_series_step_passed_over (self : reader float) (cls : measurement_class)
      (acc : list (series float) * dict (list string))
      (series_header : string) (b e : option nat) :
  _cls self = Some cls ->
  block_is_read cls series_header = false ->
  Zilien.form_series_step self acc (series_header, (b, e)) = inr acc.
Proof.
  intros Hcls Hread. unfold Zilien.form_series_step. destruct acc as [series aliases].
  rewrite Hcls. cbn [Zilien.attribute bind ret].
  unfold block_is_read in Hread. apply andb_false_iff in Hread.
  destruct Hread as [H | H]; apply negb_false_iff in H.
  - rewrite H. reflexivity.
  - destruct (negb (issubclass cls ECMeasurement) && _); [reflexivity |].
    rewrite H. reflexivity.
Qed.

Lemma form_series_step_ok (self : reader float) (cls : measurement_class)
      (acc acc' : list (series float) * dict (list string))
      (series_header : string) (b e : option nat) :
  _cls self = Some cls ->
  block_is_read cls series_header = true ->
  Zilien.form_series_step self acc (series_header, (b, e)) = inr acc' ->
  exists column_headers m,
    _column_headers self = Some column_headers /\
    _data self = Some (Np.Array2 m) /\
    time_column_first (_metadata self) series_header
                      (Np.slice b e column_headers) (Np.columns b e m).
Proof.
  intros Hcls Hread. unfold Zilien.form_series_step. destruct acc as [series aliases].
  rewrite Hcls. cbn [Zilien.attribute bind ret].
  unfold block_is_read in Hread. apply andb_prop in Hread. destruct Hread as [H1 H2].
  apply negb_true_iff in H1. apply negb_true_iff in H2. rewrite H1, H2.
  destruct (_column_headers self) as [column_headers |]; [| discriminate].
  cbn [Zilien.attribute bind ret].
  destruct (_data self) as [[data | m] |]; try discriminate.
  cbn [Zilien.attribute Np.array_columns bind ret].
  intros H. exists column_headers, m. split; [reflexivity |]. split; [reflexivity |].
  unfold time_column_first.
  destruct (String.eqb series_header Zilien.BIOLOGIC_SERIES_NAME).
  - destruct (Zilien._biologic_dataset_part self _ _) as [err | out] eqn:Hb; [discriminate |].
    eapply biologic_dataset_part_ok. exact Hb.
  - destruct (Zilien._zilien_dataset_part self series_header _ _) as [err | out] eqn:Hz;
      [discriminate |].
    eapply zilien_dataset_part_ok. exact Hz.
Qed.

Lemma form_series_ok (self : reader float) (cls : measurement_class)
      (series_headers : list string) (out : list (series float) * dict (list string)) :
  _cls self = Some cls ->
  _series_headers self = Some series_headers ->
  Zilien._form_series self = inr out ->
  forall series_header b e,
    In (series_header, (b, e)) (blocks_of series_headers) ->
    block_is_read cls series_header = true ->
    exists column_headers m,
      _column_headers self = Some column_headers /\
      _data self = Some (Np.Array2 m) /\
      time_column_first (_metadata self) series_header
                      (Np.slice b e column_headers) (Np.columns b e m).
Proof.
  intros Hcls Hsh. unfold Zilien._form_series. rewrite Hsh. cbn [Zilien.attribute bind ret].
  unfold blocks_of.
  destruct (Zilien._get_series_splits series_headers) as [indices names]. cbn [fst snd].
  intros H series_header b e Hin Hread.
  destruct (for_each_ok _ _ _ _ H _ Hin) as [a [a' Hstep]].
  eapply form_series_step_ok; eassumption.
Qed.

(** [ZilienSpectrumReader.read] on a file whose table has neither of the
    two mass columns. *)
Lemma spectrum_read_no_mass_column (self_path : option string) (path_to_spectrum path : string)
      (cls : option Zilien.spectrum_class) (kwargs : dict (pyobj float))
      (df : dict (list float)) :
  match path_to_spectrum with
  | EmptyString => self_path
  | _ => Some path_to_spectrum
  end = Some path ->
  read_csv path = inr df ->
  (forall x_name, In x_name Zilien.ZILIEN_MASS_COLUMN_NAMES -> get df x_name = None) ->
  Zilien.spectrum_read self_path path_to_spectrum cls kwargs
  = inl (ReadError ("Can't find a mass column in " ++ path ++ ". "
                    ++ "Looked for one of ['Mass  [AMU]', 'Mass [AMU]']")%string).
Proof.
  intros Hpath Hdf Hnone. unfold Zilien.spectrum_read. rewrite Hpath, Hdf. cbn [bind].
  unfold Zilien.ZILIEN_MASS_COLUMN_NAMES in *. cbn [Zilien.find_mass_column].
  rewrite (Hnone "Mass  [AMU]"%string) by (simpl; auto).
  rewrite (Hnone "Mass [AMU]"%string) by (simpl; auto).
  reflexivity.
Qed.

End ErrorFacts.

(** C3, as the code has it.  Each of the three conditions raises an
    exception, of a class of its own: a metadata line with an unknown type
    tag a [TypeError]; a value column met before the time column of its
    block has been built a [ValueError], when the column is none of the two
    structural columns and holds a value that is not NaN in the rows read;
    a spectrum file without a mass column a [ReadError].  None of them is
    caught on the way: a read of a Zilien file that returns has read
    well-typed metadata lines only, and in every block the class reads, no
    such value column stood before the time column.  A column that holds
    NaN only in the rows read, or one of the two structural columns, is
    passed over and raises nothing, wherever it stands: a block of such
    columns only gives no series and no exception.  A block that the class
    does not read is passed over as a whole. *)
Theorem reader_errors_are_fatal :
  (* an unknown type tag *)
  (forall (P : ZilienData.Platform)
          (line name comment attach_to_series type_as_str value : string),
      PyStr.split PyStr.tab (PyStr.strip_newline line)
      = [name; comment; attach_to_series; type_as_str; value] ->
      PyStr.mem type_as_str known_types = false ->
      Zilien.parse_metadata_line line
      = inl (PyExn.TypeError
               ("Unknown metadata type " ++ type_as_str ++ " for " ++ name)%string)) /\
  (* a value column before the time column *)
  (forall (P : ZilienData.Platform) (self : ZilienData.reader ZilienData.float)
          (column_headers : list string)
          (names_and_units : Zilien.names_and_units_t)
          (data_rows_split : Np.matrix ZilienData.float),
      value_column_first column_headers names_and_units data_rows_split ->
      Zilien._create_series_objects self column_headers names_and_units data_rows_split
      = inl (PyExn.ValueError "Time column must be first in a dataset series.")) /\
  (* no mass column *)
  (forall (P : ZilienData.Platform) (self_path : option string)
          (path_to_spectrum path : string) (cls : option Zilien.spectrum_class)
          (kwargs : PyDict.dict (ZilienData.pyobj ZilienData.float))
          (df : PyDict.dict (list ZilienData.float)),
      match path_to_spectrum with
      | EmptyString => self_path
      | _ => Some path_to_spectrum
      end = Some path ->
      ZilienData.read_csv path = inr df ->
      (forall x_name, In x_name Zilien.ZILIEN_MASS_COLUMN_NAMES -> PyDict.get df x_name = None) ->
      Zilien.spectrum_read self_path path_to_spectrum cls kwargs
      = inl (PyExn.ReadError
               ("Can't find a mass column in " ++ path ++ ". "
                ++ "Looked for one of ['Mass  [AMU]', 'Mass [AMU]']")%string)) /\
  (* the first two are fatal to the read *)
  (forall (P : ZilienData.Platform) (w w' : ZilienData.world ZilienData.float) (path : string)
          (cls : ZilienData.measurement_class) (name : option string)
          (kwargs : PyDict.dict (ZilienData.pyobj ZilienData.float))
          (r : option (ZilienData.measurement ZilienData.float)),
      ZilienData._path_to_file (ZilienData.self_ w) = None ->
      Zilien.read path cls name kwargs w = (inr r, w') ->
      exists lines metadata series_headers column_headers rest data n,
        ZilienData.open_text path = Some lines /\
        Zilien._read_metadata lines = inr (metadata, series_headers, column_headers, rest) /\
        ZilienData.genfromtxt rest = inr data /\
        4 <= n /\
        rest = skipn (n + 2) lines /\
        (forall i, i < n -> well_typed_line (line_at lines i)) /\
        (forall series_header b e,
            In (series_header, (b, e)) (blocks_of series_headers) ->
            block_is_read (fst (Zilien.resolve_technique cls kwargs)) series_header = true ->
            exists m,
              data = Np.Array2 m /\
              time_column_first (Some metadata) series_header
                                (Np.slice b e column_headers) (Np.columns b e m))) /\
  (* a column that is passed over raises nothing, wherever it stands *)
  (forall (P : ZilienData.Platform) (self : ZilienData.reader ZilienData.float)
          (names_and_units : Zilien.names_and_units_t)
          (data_rows_split : Np.matrix ZilienData.float)
          (acc : list (ZilienData.series ZilienData.float)
                 * option (ZilienData.series ZilienData.float))
          (column_number : nat) (column_header : string),
      skipped_column data_rows_split column_number column_header ->
      Zilien.create_series_step self names_and_units data_rows_split acc
                                (column_number, column_header)
      = inr acc) /\
  (forall (P : ZilienData.Platform) (self : ZilienData.reader ZilienData.float)
          (column_headers : list string)
          (names_and_units : Zilien.names_and_units_t)
          (data_rows_split : Np.matrix ZilienData.float),
      (forall j h, nth_error column_headers j = Some h ->
                   skipped_column data_rows_split j h) ->
      Zilien._create_series_objects self column_headers names_and_units data_rows_split
      = inr []) /\
  (* a block that the class does not read is passed over *)
  (forall (P : ZilienData.Platform) (self : ZilienData.reader ZilienData.float)
          (cls : ZilienData.measurement_class)
          (acc : list (ZilienData.series ZilienData.float) * PyDict.dict (list string))
          (series_header : string) (b e : option nat),
      ZilienData._cls self = Some cls ->
      block_is_read cls series_header = false ->
      Zilien.form_series_step self acc (series_header, (b, e)) = inr acc).
Proof.
  split; [| split; [| split; [| split; [| split; [| split]]]]].
  - intros P. apply parse_metadata_line_unknown_type.
  - intros P. apply create_series_objects_value_first.
  - intros P. apply spectrum_read_no_mass_column.
  - intros P w w' path cls name kwargs r Hfresh Hread.
    destruct (read_fresh_inv path cls name kwargs w w' r Hfresh Hread)
      as (lines & metadata & sh & ch & rest & data & ts & series & block & merged
          & Hopen & Hmeta & Hdata & _ & Hform & _).
    destruct (read_metadata_ok _ _ _ _ _ Hmeta) as (n & Hn & Hrest & Hlines).
    exists lines, metadata, sh, ch, rest, data, n.
    repeat (split; [assumption |]).
    intros series_header b e Hin Hblock.
    destruct (form_series_ok
                (loaded_reader (ZilienData.self_ w) (fst (Zilien.resolve_technique cls kwargs))
                               path metadata sh ch data ts)
                (fst (Zilien.resolve_technique cls kwargs)) sh _ eq_refl eq_refl Hform
                series_header b e Hin Hblock)
      as (ch' & m & Hch & Hm & Htime).
    cbn in Hch, Hm. injection Hch as <-. injection Hm as ->.
    exists m. split; [reflexivity | exact Htime].
  - intros P. apply create_series_step_skipped.
  - intros P. apply create_series_objects_all_skipped.
  - intros P. apply form_series_step_passed_over.
Qed.

Section ErrorDemo.

Existing Instance ZilienExample.platform.

Lemma reader_errors_are_fatal_witness :
  Zilien.parse_metadata_line
    (ZilienExample.tsv_line ["trace_color"; EmptyString; EmptyString; "color"; "red"]%string)
  = inl (PyExn.TypeError "Unknown metadata type color for trace_color") /\
  Zilien._create_series_objects Zilien.__init__ ["Voltage [V]"; "Time [s]"]%string
    (map (Zilien._form_names_and_unit "pot") ["Voltage [V]"; "Time [s]"]%string)
    (Np.mk_matrix 2 [[Some 5%Z; Some 0%Z]; [Some 6%Z; Some 1%Z]])
  = inl (PyExn.ValueError "Time column must be first in a dataset series.") /\
  Zilien.spectrum_read None ZilienExample.no_mass_path None []
  = inl (PyExn.ReadError
           "Can't find a mass column in no mass.tsv. Looked for one of ['Mass  [AMU]', 'Mass [AMU]']") /\
  Zilien._create_series_objects Zilien.__init__ ["Voltage [V]"; "technique_number"]%string
    (map (Zilien._form_names_and_unit "pot") ["Voltage [V]"; "technique_number"]%string)
    (Np.mk_matrix 2 [[None; Some 1%Z]; [None; Some 1%Z]])
  = inr [].
Proof.
  split; [| split; [| split]].
  - apply (proj1 reader_errors_are_fatal ZilienExample.platform _
             "trace_color"%string EmptyString EmptyString "color"%string "red"%string);
      reflexivity.
  - apply (proj1 (proj2 reader_errors_are_fatal) ZilienExample.platform).
    exists [], "Voltage [V]"%string, ["Time [s]"%string], [Some 5%Z; Some 6%Z],
      ("Voltage [V]"%string, "V"%string, None).
    repeat split; try reflexivity.
    intros j h Hj. destruct j; discriminate.
  - apply (proj1 (proj2 (proj2 reader_errors_are_fatal)) ZilienExample.platform None
             ZilienExample.no_mass_path ZilienExample.no_mass_path None []
             [("m/z"%string, [Some 2%Z; Some 4%Z]);
              ("Current [A]"%string, [Some 10%Z; Some 20%Z])]).
    + reflexivity.
    + reflexivity.
    + intros x_name [<- | [<- | []]]; reflexivity.
  - apply (proj1 (proj2 (proj2 (proj2 (proj2 (proj2 reader_errors_are_fatal)))))
             ZilienExample.platform).
    intros [| [| j]] h Hj.
    + right. exists [None; None]. split; reflexivity.
    + injection Hj as <-. left. reflexivity.
    + destruct j; discriminate Hj.
Defined.

(** C3 as stated fails.  The three conditions do not raise one exception
    class: reading the demo file with a [color] line raises a [TypeError],
    with the voltage column before the time column a [ValueError], and the
    spectrum file without a mass column a [ReadError].  And a value column
    before the time column of its block is not always an error: with the
    voltage column before the time column and [nan] in all its rows, the
    read raises nothing and returns a measurement without the voltage; read
    as an [MSMeasurement], which passes the potential block over, the file
    with the voltage before the time gives its mass series. *)
Lemma reader_errors_not_uniform :
  PyExn.raised_class
    (fst (Zilien.read ZilienExample.color_path ZilienData.ECMSMeasurement None []
                      ZilienExample.fresh_world)) = Some PyExn.CTypeError /\
  PyExn.raised_class
    (fst (Zilien.read ZilienExample.time_second_path ZilienData.ECMSMeasurement None []
                      ZilienExample.fresh_world)) = Some PyExn.CValueError /\
  PyExn.raised_class
    (Zilien.spectrum_read None ZilienExample.no_mass_path None []) = Some PyExn.CReadError /\
  ~ (exists c : PyExn.exn_class,
      PyExn.raised_class
        (fst (Zilien.read ZilienExample.color_path ZilienData.ECMSMeasurement None []
                          ZilienExample.fresh_world)) = Some c /\
      PyExn.raised_class
        (fst (Zilien.read ZilienExample.time_second_path ZilienData.ECMSMeasurement None []
                          ZilienExample.fresh_world)) = Some c /\
      PyExn.raised_class
        (Zilien.spectrum_read None ZilienExample.no_mass_path None []) = Some c) /\
  nth_error ZilienCases.nan_column_file 8
  = Some (ZilienExample.tsv_line ["Voltage [V]"; "Time [s]"; "Time [s]"; "M2-H2 [A]"]%string) /\
  returned_series_names
    (fst (Zilien.read (P := ZilienCases.nan_column_platform) ZilienExample.demo_path
                      ZilienData.ECMSMeasurement None [] ZilienExample.fresh_world))
  = Some ["Potential time [s]"; "C0M2 time [s]"; "M2 [A]"]%string /\
  returned_series_names
    (fst (Zilien.read ZilienExample.time_second_path ZilienData.MSMeasurement None []
                      ZilienExample.fresh_world))
  = Some ["C0M2 time [s]"; "M2 [A]"]%string.
Proof.
  assert (H1 : PyExn.raised_class
                 (fst (Zilien.read ZilienExample.color_path ZilienData.ECMSMeasurement None []
                                   ZilienExample.fresh_world)) = Some PyExn.CTypeError)
    by (vm_compute; reflexivity).
  assert (H2 : PyExn.raised_class
                 (fst (Zilien.read ZilienExample.time_second_path ZilienData.ECMSMeasurement
                                   None [] ZilienExample.fresh_world)) = Some PyExn.CValueError)
    by (vm_compute; reflexivity).
  split; [exact H1 |]. split; [exact H2 |]. split; [vm_compute; reflexivity |].
  split.
  { intros [c [E1 [E2 _]]]. rewrite H1 in E1. rewrite H2 in E2. congruence. }
  split; [reflexivity |]. split; vm_compute; reflexivity.
Qed.

End ErrorDemo.

Lemma resolve_technique_keeps_aliases {P : ZilienData.Platform}
      (cls : ZilienData.measurement_class)
      (kwargs : PyDict.dict (ZilienData.pyobj ZilienData.float)) :
  PyDict.get (snd (Zilien.resolve_technique cls kwargs)) "aliases"
  = PyDict.get kwargs "aliases".
Proof.
  unfold Zilien.resolve_technique.
  destruct (PyDict.contains kwargs "technique"); [reflexivity |]. simpl.
  repeat match goal with
         | |- context [if ?b then _ else _] => destruct b
         end;
    try reflexivity; apply get_set_other; discriminate.
Qed.

Lemma entries_merged (block general merged : PyDict.dict (list string)) :
  (forall k, PyDict.get merged k =
             match PyDict.get general k with
             | Some g => Some (entries block k ++ g)
             | None => PyDict.get block k
             end) ->
  forall k,
    entries merged k = entries block k ++ entries general k /\
    (PyDict.get merged k = None <-> PyDict.get block k = None /\ PyDict.get general k = None).
Proof.
  intros H k. unfold entries at 1 3. rewrite (H k).
  destruct (PyDict.get general k) as [g |].
  - split; [reflexivity |]. split; [discriminate | intros [_ E]; discriminate].
  - unfold entries. destruct (PyDict.get block k) as [b |]; rewrite ?app_nil_r.
    + split; [reflexivity |]. split; [discriminate | intros [E _]; discriminate].
    + split; [reflexivity |]. split; auto.
Qed.

(** C9.  Once a call of [read] has returned on a reader, every later call,
    whatever its arguments, returns the value of that call: it leaves the
    reader as it is, opens no file, and only prints a message.  On a reader
    that had not read before, the value is the measurement constructed by
    the first call. *)
Theorem read_again_returns_first_measurement :
  forall (P : ZilienData.Platform) (w w1 : ZilienData.world ZilienData.float) (path : string)
         (cls : ZilienData.measurement_class) (name : option string)
         (kwargs : PyDict.dict (ZilienData.pyobj ZilienData.float))
         (m : option (ZilienData.measurement ZilienData.float)),
    Zilien.read path cls name kwargs w = (inr m, w1) ->
    (ZilienData._path_to_file (ZilienData.self_ w) = None -> exists m0, m = Some m0) /\
    forall (path' : string) (cls' : ZilienData.measurement_class) (name' : option string)
           (kwargs' : PyDict.dict (ZilienData.pyobj ZilienData.float)),
    exists text,
      Zilien.read path' cls' name' kwargs' w1
      = (inr m, ZilienData.mk_world (ZilienData.self_ w1) (ZilienData.stdout w1 ++ [text])
                                (ZilienData.opened w1)).
Proof.
  intros P w w1 path cls name kwargs m Hread.
  destruct (ZilienData._path_to_file (ZilienData.self_ w)) as [old |] eqn:Hpath.
  - split; [discriminate |].
    unfold Zilien.read, Zilien.mbind, Zilien.get_self in Hread. simpl in Hread.
    rewrite Hpath in Hread. simpl in Hread. injection Hread as <- <-.
    intros path' cls' name' kwargs'. eexists.
    unfold Zilien.read, Zilien.mbind, Zilien.get_self. simpl.
    rewrite Hpath. simpl. reflexivity.
  - destruct (read_fresh_inv path cls name kwargs w w1 m Hpath Hread)
      as (lines & metadata & sh & ch & rest & data & ts & series & block & merged
          & _ & _ & _ & _ & _ & _ & Hm & Hw).
    split; [intros _; eexists; exact Hm |].
    intros path' cls' name' kwargs'. eexists.
    unfold Zilien.read, Zilien.mbind, Zilien.get_self. rewrite Hw, Hm. simpl.
    reflexivity.
Qed.

Section Demo.

Existing Instance ZilienExample.platform.

Lemma read_again_returns_first_measurement_witness :
  Zilien.read ZilienExample.demo_path ZilienData.ECMSMeasurement None []
              ZilienExample.fresh_world
  = (inr (Some ZilienExample.demo_measurement), ZilienExample.demo_world) /\
  exists text,
    Zilien.read ZilienExample.color_path ZilienData.MSMeasurement (Some "again"%string) []
                ZilienExample.demo_world
    = (inr (Some ZilienExample.demo_measurement),
       ZilienData.mk_world (ZilienData.self_ ZilienExample.demo_world)
                       (ZilienData.stdout ZilienExample.demo_world ++ [text])
                       (ZilienData.opened ZilienExample.demo_world)).
Proof.
  split; [vm_compute; reflexivity |].
  apply (proj2 (read_again_returns_first_measurement ZilienExample.platform
                  ZilienExample.fresh_world ZilienExample.demo_world ZilienExample.demo_path
                  ZilienData.ECMSMeasurement None [] (Some ZilienExample.demo_measurement)
                  ltac:(vm_compute; reflexivity))).
Defined.

End Demo.

(* ===================================================================== *)
(** * Properties of [Spectrum] *)
(* ===================================================================== *)

Section StoreFacts.

Import Spectra.

(** The object made [k]-th after the store held [h]. *)
Lemma nth_error_new (h objs : heap) (k : nat) :
  nth_error (h ++ objs) (length h + k) = nth_error objs k.
Proof.
  rewrite nth_error_app2 by lia. f_equal. lia.
Qed.

Lemma deref_new (h objs : heap) (k : nat) :
  deref (length h + k) (h ++ objs)
  = match nth_error objs k with
    | Some o => inr (o, h ++ objs)
    | None => inl (PyExn.AttributeError "no such object")
    end.
Proof.
  unfold deref. rewrite nth_error_new. reflexivity.
Qed.

(** References made after the store held [h], as offsets from its size. *)
Lemma loc_shift (n a b : nat) : n + a + b = n + (a + b).
Proof. lia. Qed.

Ltac store_norm :=
  repeat rewrite length_app;
  cbn [length];
  repeat rewrite <- app_assoc;
  cbn [app];
  repeat rewrite loc_shift;
  cbn [Nat.add].

Ltac store_step :=
  store_norm;
  rewrite deref_new;
  cbn [nth_error Spectra.hret Spectra.hraise PyExn.ret PyExn.raise].

Lemma replace_nth_new (h objs : heap) (k : nat) (o : obj) :
  replace_nth (length h + k) o (h ++ objs) = h ++ replace_nth k o objs.
Proof.
  induction h as [| a h IH]; simpl; [reflexivity |]. now rewrite IH.
Qed.

Lemma Qplus_0_l_eq (t : Q) : (0 + t)%Q = t.
Proof.
  destruct t as [num den]. unfold Qplus. simpl. now rewrite Z.mul_1_r.
Qed.

Lemma from_data_makes (h : heap) (x y : list Q) (tstamp : option Q)
      (x_name y_name : string) (x_unit_name y_unit_name : option string) (kw : kwargs) :
  from_data x y tstamp x_name y_name x_unit_name y_unit_name kw h
  = inr (length h + 5,
         h ++ spectrum_objects (length h) x y tstamp x_name y_name x_unit_name
                               y_unit_name kw).
Proof.
  unfold from_data, from_series, hbind, alloc. cbn [PyExn.ret].
  unfold get_data, get_name, get_unit_name, hbind.
  do 3 store_step.
  unfold from_field, from_dict, __init__, hbind, hret, alloc, get_name.
  cbn [k_name k_technique k_metadata k_sample_name k_reader k_field k_field_id PyExn.ret].
  unfold spectrum_objects.
  destruct (k_name kw) as [name |].
  - cbn [k_name k_technique k_metadata k_sample_name k_reader k_field k_field_id PyExn.ret].
    store_norm. reflexivity.
  - unfold hbind. store_step.
    cbn [k_name k_technique k_metadata k_sample_name k_reader k_field k_field_id PyExn.ret].
    store_norm. reflexivity.
Qed.

Lemma nth_error_old (h objs : heap) (l : loc) (o : obj) :
  nth_error h l = Some o -> nth_error (h ++ objs) l = Some o.
Proof.
  intros Hl. rewrite nth_error_app1; [exact Hl |].
  apply nth_error_Some. congruence.
Qed.

Lemma nth_error_replace_same {A} (l : list A) (n : nat) (x : A) :
  n < length l -> nth_error (replace_nth n x l) n = Some x.
Proof.
  revert n. induction l as [| y l IH]; intros [| n] Hn; simpl in *; try lia.
  - reflexivity.
  - apply IH. lia.
Qed.

Lemma nth_error_replace_other {A} (l : list A) (n m : nat) (x : A) :
  n <> m -> nth_error (replace_nth n x l) m = nth_error l m.
Proof.
  revert n m. induction l as [| y l IH]; intros [| n] [| m] Hne; simpl; try reflexivity.
  - lia.
  - apply IH. lia.
Qed.

Variable get_object : option nat -> H loc.

Lemma field_loaded (h : heap) (self f axes : loc) (data : ndarray) (items : list loc) :
  spectrum_at h self f axes data items ->
  field get_object self h = inr (f, h).
Proof.
  intros [(name & technique & metadata & sample_name & reader & Hself)
            (fname & funit & Hf) _].
  unfold field, hbind, deref. rewrite Hself. cbn. rewrite Hf. reflexivity.
Qed.

Lemma axes_of_field (h : heap) (self f axes : loc) (data : ndarray) (items : list loc) :
  spectrum_at h self f axes data items ->
  get_axes_series f h = inr (items, h).
Proof.
  intros [_ (fname & funit & Hf) Hlist].
  unfold get_axes_series, hbind, deref. rewrite Hf. cbn. rewrite Hlist. reflexivity.
Qed.

(** The three views of a spectrum over a field whose data starts with the
    row [y_data], whose first axis holds [x_data] and whose second axis is
    a time series that starts with the sample [t0] and has the time stamp
    [base]. *)
Lemma views_of_field (h : heap) (self f axes xs ts : loc) (more : list loc)
      (x_data y_data : ndarray) (rows : list ndarray)
      (tname : string) (tunit : option string) (t0 base : Q) (samples : list ndarray) :
  spectrum_at h self f axes (Array (y_data :: rows)) (xs :: ts :: more) ->
  has_data h xs x_data ->
  nth_error h ts = Some (OTimeSeries tname tunit (Array (Scalar t0 :: samples)) (Some base)) ->
  x get_object self h = inr (x_data, h) /\
  y get_object self h = inr (y_data, h) /\
  tstamp get_object self h = inr (Scalar (t0 + base), h).
Proof.
  intros Hat Hx Hts.
  pose proof (field_loaded _ _ _ _ _ _ Hat) as Hfield.
  pose proof (axes_of_field _ _ _ _ _ _ Hat) as Haxes.
  destruct Hat as [_ (fname & funit & Hf) Hlist].
  split; [| split].
  - unfold x, xseries, hbind. rewrite Hfield, Haxes.
    unfold list_item. cbn [nth_error hret PyExn.ret].
    exact Hx.
  - unfold y, hbind. rewrite Hfield.
    unfold get_data, hbind, deref. rewrite Hf. reflexivity.
  - unfold tstamp, tseries, hbind. rewrite Hfield, Haxes.
    unfold list_item, get_data, get_tstamp, hbind, deref.
    cbn [nth_error hret PyExn.ret]. rewrite Hts. cbn. rewrite Hts. reflexivity.
Qed.

Lemma has_data_old (h objs : heap) (series : loc) (data : ndarray) :
  has_data h series data -> has_data (h ++ objs) series data.
Proof.
  unfold has_data, get_data, hbind, deref.
  destruct (nth_error h series) as [o |] eqn:Ho; [| discriminate].
  rewrite (nth_error_old _ objs _ _ Ho).
  destruct o; cbn; intros E; try discriminate; injection E as ->; reflexivity.
Qed.

Lemma from_field_makes (h : heap) (f : loc) (kw : kwargs)
      (name : string) (unit_name : option string) (data : ndarray) (axes : loc) :
  nth_error h f = Some (OField name unit_name data axes) ->
  from_field f kw h
  = inr (length h,
         h ++ [OSpectrum match k_name kw with Some given => given | None => name end
                         (k_technique kw) (k_metadata kw) (k_sample_name kw)
                         (k_reader kw) f]).
Proof.
  intros Hf. unfold from_field, from_dict, __init__, hbind, hret, alloc, get_name.
  cbn [k_name k_technique k_metadata k_sample_name k_reader k_field k_field_id].
  destruct (k_name kw) as [given |].
  - reflexivity.
  - unfold hbind, deref. rewrite Hf. reflexivity.
Qed.

End StoreFacts.

Lemma from_data_spectrum_at (h : Spectra.heap) (x y : list Q) (tstamp : option Q)
      (x_name y_name : string) (x_unit_name y_unit_name : option string)
      (kw : Spectra.kwargs) :
  let n := length h in
  let h' := h ++ spectrum_objects n x y tstamp x_name y_name x_unit_name y_unit_name kw in
  spectrum_at h' (n + 5) (n + 4) (n + 3) (Spectra.Array [Spectra.vector y]) [n; n + 2] /\
  Spectra.get_data n h' = inr (Spectra.vector x, h') /\
  nth_error h' (n + 2)
  = Some (Spectra.OTimeSeries "spectrum time / [s]" (Some "s"%string)
                              (Spectra.vector [0%Q]) tstamp).
Proof.
  intros n h'. subst n h'. split; [| split].
  - constructor.
    + do 5 eexists. rewrite nth_error_new. reflexivity.
    + do 2 eexists. rewrite nth_error_new. reflexivity.
    + rewrite nth_error_new. reflexivity.
  - unfold Spectra.get_data, Spectra.hbind.
    rewrite <- (Nat.add_0_r (length h)) at 1. rewrite deref_new. reflexivity.
  - rewrite nth_error_new. reflexivity.
Qed.

Lemma explicit_field_spectrum (h : Spectra.heap) (f : Spectra.loc) (data : Spectra.ndarray)
      (x : list Q) (tstamp : Q) (kw : Spectra.kwargs) :
  explicit_field h f data x tstamp ->
  exists (h' : Spectra.heap) (axes xs ts : Spectra.loc) (tname : string)
         (tunit : option string) (t0 base : Q),
    Spectra.from_field f kw h = inr (length h, h') /\
    spectrum_at h' (length h) f axes data [xs; ts] /\
    has_data h' xs (Spectra.vector x) /\
    nth_error h' ts
    = Some (Spectra.OTimeSeries tname tunit (Spectra.vector [t0]) (Some base)) /\
    (t0 + base)%Q = tstamp.
Proof.
  intros (name & unit_name & axes & xs & ts & tname & tunit & t0 & base
          & Hf & Haxes & Hx & Hts & Hsum).
  eexists. exists axes, xs, ts, tname, tunit, t0, base.
  split; [eapply from_field_makes; exact Hf |].
  split; [| split; [| split]].
  - constructor.
    + do 5 eexists. rewrite <- (Nat.add_0_r (length h)) at 1. rewrite nth_error_new.
      reflexivity.
    + do 2 eexists. apply nth_error_old. exact Hf.
    + apply nth_error_old. exact Haxes.
  - apply has_data_old. exact Hx.
  - apply nth_error_old. exact Hts.
  - exact Hsum.
Qed.

Lemma explicit_field_invariant (h : Spectra.heap) (f : Spectra.loc) (x : list Q)
      (y0 : Q) (y : list Q) (tstamp : Q) :
  length x = length (y0 :: y) ->
  explicit_field h f (column (y0 :: y)) x tstamp ->
  field_shape_invariant h f.
Proof.
  intros Hlen (name & unit_name & axes & xs & ts & tname & tunit & t0 & base
               & Hf & Haxes & Hx & Hts & Hsum).
  exists [length (y0 :: y); 1]. unfold field_shape, axes_lengths. rewrite Hf, Haxes. split.
  - cbn. rewrite length_map. reflexivity.
  - cbn [fold_right]. unfold has_data in Hx. rewrite Hx.
    unfold Spectra.get_data, Spectra.hbind, Spectra.deref. rewrite Hts.
    cbn. rewrite length_map. cbn in Hlen. rewrite Hlen. reflexivity.
Qed.

(** C6.  For all [x], [y] and every time stamp, the spectrum [from_data]
    makes shows the three views of its inputs.  A spectrum made from a
    Field built by hand over matching axes shows the views [x] and
    [tstamp] as well, but its view [y] is the first row of the data of the
    Field: for data of the shape (N, 1), the shape the invariant of a Field
    asks for over these axes, that is the one value [y0] and not [y],
    unless N is 1; it is [y] only for data of the one row [y], the shape
    (1, N).  The Field of the shape (3, 1) for [y = [10, 20, 30]] gives the
    view [y = [10]]. *)
Theorem spectrum_views_explicit_field :
  (* the spectrum made from the data *)
  (forall (get_object : option nat -> Spectra.H Spectra.loc) (x y : list Q) (tstamp : Q)
          (x_name y_name : string) (x_unit_name y_unit_name : option string)
          (kw : Spectra.kwargs) (h : Spectra.heap),
      exists s h',
        Spectra.from_data x y (Some tstamp) x_name y_name x_unit_name y_unit_name kw h
        = inr (s, h') /\
        Spectra.x get_object s h' = inr (Spectra.vector x, h') /\
        Spectra.y get_object s h' = inr (Spectra.vector y, h') /\
        Spectra.tstamp get_object s h' = inr (Spectra.Scalar tstamp, h')) /\
  (* a Field of the shape (N, 1) *)
  (forall (get_object : option nat -> Spectra.H Spectra.loc) (x : list Q) (y0 : Q)
          (y : list Q) (tstamp : Q) (kw : Spectra.kwargs) (h : Spectra.heap)
          (f : Spectra.loc),
      length x = length (y0 :: y) ->
      explicit_field h f (column (y0 :: y)) x tstamp ->
      field_shape_invariant h f /\
      exists s h',
        Spectra.from_field f kw h = inr (s, h') /\
        Spectra.x get_object s h' = inr (Spectra.vector x, h') /\
        Spectra.y get_object s h' = inr (Spectra.vector [y0], h') /\
        Spectra.tstamp get_object s h' = inr (Spectra.Scalar tstamp, h') /\
        (y <> [] -> Spectra.vector [y0] <> Spectra.vector (y0 :: y))) /\
  (* a Field of the shape (1, N) *)
  (forall (get_object : option nat -> Spectra.H Spectra.loc) (x y : list Q) (tstamp : Q)
          (kw : Spectra.kwargs) (h : Spectra.heap) (f : Spectra.loc),
      explicit_field h f (Spectra.Array [Spectra.vector y]) x tstamp ->
      exists s h',
        Spectra.from_field f kw h = inr (s, h') /\
        Spectra.x get_object s h' = inr (Spectra.vector x, h') /\
        Spectra.y get_object s h' = inr (Spectra.vector y, h') /\
        Spectra.tstamp get_object s h' = inr (Spectra.Scalar tstamp, h')) /\
  (* the Field made by hand *)
  (explicit_field Spectra.hand_made_field 3 (column [10; 20; 30]%Q) [1; 2; 3]%Q 100%Q /\
   field_shape_invariant Spectra.hand_made_field 3 /\
   exists s h',
     Spectra.from_field 3 Spectra.no_kwargs Spectra.hand_made_field = inr (s, h') /\
     Spectra.x Spectra.no_backend s h' = inr (Spectra.vector [1; 2; 3]%Q, h') /\
     Spectra.y Spectra.no_backend s h' = inr (Spectra.vector [10%Q], h') /\
     Spectra.tstamp Spectra.no_backend s h' = inr (Spectra.Scalar 100%Q, h') /\
     Spectra.vector [10%Q] <> Spectra.vector [10; 20; 30]%Q).
Proof.
  split; [| split; [| split]].
  - intros get_object x y tstamp x_name y_name x_unit_name y_unit_name kw h.
    do 2 eexists. split; [apply from_data_makes |].
    destruct (from_data_spectrum_at h x y (Some tstamp) x_name y_name x_unit_name
                                    y_unit_name kw) as (Hat & Hx & Hts).
    pose proof (views_of_field get_object _ _ _ _ _ _ _ _ _ _ _ _ _ _ _ Hat Hx Hts)
      as (Vx & Vy & Vt).
    rewrite Qplus_0_l_eq in Vt. auto.
  - intros get_object x y0 y tstamp kw h f Hlen Hfield.
    split; [exact (explicit_field_invariant _ _ _ _ _ _ Hlen Hfield) |].
    destruct (explicit_field_spectrum _ _ _ _ _ kw Hfield)
      as (h' & axes & xs & ts & tname & tunit & t0 & base & Hmake & Hat & Hx & Hts & Hsum).
    exists (length h), h'. split; [exact Hmake |].
    pose proof (views_of_field get_object _ _ _ _ _ _ _ _ _ _ _ _ _ _ _ Hat Hx Hts)
      as (Vx & Vy & Vt).
    rewrite Hsum in Vt. repeat (split; [assumption |]).
    intros Hy E. destruct y as [| y1 y]; [now apply Hy | discriminate E].
  - intros get_object x y tstamp kw h f Hfield.
    destruct (explicit_field_spectrum _ _ _ _ _ kw Hfield)
      as (h' & axes & xs & ts & tname & tunit & t0 & base & Hmake & Hat & Hx & Hts & Hsum).
    exists (length h), h'. split; [exact Hmake |].
    pose proof (views_of_field get_object _ _ _ _ _ _ _ _ _ _ _ _ _ _ _ Hat Hx Hts)
      as (Vx & Vy & Vt).
    rewrite Hsum in Vt. auto.
  - split; [| split].
    + exists "signal"%string, (Some "A"%string), 2, 0, 1, "time"%string, (Some "s"%string),
        5%Q, 95%Q.
      repeat split; reflexivity.
    + exists [3; 1]. split; reflexivity.
    + do 2 eexists. split; [reflexivity |]. split; [reflexivity |].
      split; [reflexivity |]. split; [reflexivity |]. discriminate.
Qed.

Lemma spectrum_views_explicit_field_witness :
  length [1; 2; 3]%Q = length [10; 20; 30]%Q /\
  explicit_field Spectra.hand_made_field 3 (column [10; 20; 30]%Q) [1; 2; 3]%Q 100%Q /\
  field_shape_invariant Spectra.hand_made_field 3 /\
  exists s h',
    Spectra.from_field 3 Spectra.no_kwargs Spectra.hand_made_field = inr (s, h') /\
    Spectra.x Spectra.no_backend s h' = inr (Spectra.vector [1; 2; 3]%Q, h') /\
    Spectra.y Spectra.no_backend s h' = inr (Spectra.vector [10%Q], h') /\
    Spectra.tstamp Spectra.no_backend s h' = inr (Spectra.Scalar 100%Q, h') /\
    ([20; 30]%Q <> [] -> Spectra.vector [10%Q] <> Spectra.vector [10; 20; 30]%Q).
Proof.
  assert (Hfield : explicit_field Spectra.hand_made_field 3 (column [10; 20; 30]%Q)
                                  [1; 2; 3]%Q 100%Q).
  { exists "signal"%string, (Some "A"%string), 2, 0, 1, "time"%string, (Some "s"%string),
      5%Q, 95%Q.
    repeat split; reflexivity. }
  split; [reflexivity |]. split; [exact Hfield |].
  exact (proj1 (proj2 spectrum_views_explicit_field) Spectra.no_backend [1; 2; 3]%Q 10%Q
               [20; 30]%Q 100%Q Spectra.no_kwargs Spectra.hand_made_field 3 eq_refl Hfield).
Defined.


Lemma shape_vector (l : list Q) : Spectra.shape (Spectra.vector l) = [length l].
Proof.
  unfold Spectra.vector. simpl. rewrite length_map. destruct l; reflexivity.
Qed.

(** C7.  The Field [from_data] wraps has data of shape (1, N), where N is
    the length of [y], over the axes [x] of length N and the time series of
    one sample: the shape is not (N, 1), and the invariant of a Field fails
    for it unless N is 1.  For [x = [1, 2]] and [y = [3, 4]] the shape is
    (1, 2) and the lengths of the axes are (2, 1). *)
Theorem from_data_field_shape :
  (forall (h : Spectra.heap) (x y : list Q) (tstamp : option Q) (x_name y_name : string)
          (x_unit_name y_unit_name : option string) (kw : Spectra.kwargs),
      exists s h' f axes,
        Spectra.from_data x y tstamp x_name y_name x_unit_name y_unit_name kw h
        = inr (s, h') /\
        spectrum_at h' s f axes (Spectra.Array [Spectra.vector y]) [length h; length h + 2] /\
        field_shape h' f = Some [1; length y] /\
        axes_lengths h' f = Some [length x; 1]) /\
  (exists s h' f,
      Spectra.from_data [1; 2]%Q [3; 4]%Q (Some 0%Q) "x" "y" None None Spectra.no_kwargs []
      = inr (s, h') /\
      Spectra.field Spectra.no_backend s h' = inr (f, h') /\
      field_shape h' f = Some [1; 2] /\
      axes_lengths h' f = Some [2; 1] /\
      ~ field_shape_invariant h' f).
Proof.
  split.
  - intros h x y tstamp x_name y_name x_unit_name y_unit_name kw.
    do 4 eexists. split; [apply from_data_makes |].
    destruct (from_data_spectrum_at h x y tstamp x_name y_name x_unit_name y_unit_name kw)
      as (Hat & Hx & Hts).
    split; [exact Hat |].
    destruct Hat as [_ (fname & funit & Hf) Hlist].
    unfold field_shape, axes_lengths. rewrite Hf, Hlist. split.
    + cbn [Spectra.shape length]. rewrite shape_vector. reflexivity.
    + cbn [fold_right]. rewrite Hx.
      unfold Spectra.get_data, Spectra.hbind, Spectra.deref. rewrite Hts.
      cbn. rewrite length_map. reflexivity.
  - do 3 eexists. split; [reflexivity |]. split; [reflexivity |].
    split; [reflexivity |]. split; [reflexivity |].
    intros [dims [Hshape Hlens]]. vm_compute in Hshape, Hlens. congruence.
Qed.

(** C10, as the code has it.  On a spectrum whose field is loaded,
    [data_objects] returns the axes of the field followed by the field
    itself, in a list of its own: the store is as it was before the call,
    [field.axes_series] is still the list of the axes alone, and the next
    call returns a list of the same items again, not a longer one. *)
Theorem data_objects_returns_axes_and_field :
  forall (get_object : option nat -> Spectra.H Spectra.loc) (h : Spectra.heap)
         (self f axes : Spectra.loc) (data : Spectra.ndarray) (items : list Spectra.loc),
    spectrum_at h self f axes data items ->
    exists h1 h2,
      Spectra.data_objects get_object self h = inr (items ++ [f], h1) /\
      h1 = h /\
      Spectra.get_axes_series f h1 = inr (items, h1) /\
      Spectra.data_objects get_object self h1 = inr (items ++ [f], h2) /\
      h2 = h.
Proof.
  intros get_object h self f axes data items Hat.
  pose proof (field_loaded get_object _ _ _ _ _ _ Hat) as Hfield.
  pose proof (axes_of_field _ _ _ _ _ _ Hat) as Haxes.
  assert (Hrun : Spectra.data_objects get_object self h = inr (items ++ [f], h)).
  { unfold Spectra.data_objects, Spectra.hbind. rewrite Hfield, Haxes, Hfield. reflexivity. }
  exists h, h. auto.
Qed.

Lemma data_objects_returns_axes_and_field_witness :
  exists s h,
    Spectra.from_data [1; 2]%Q [3; 4]%Q (Some 0%Q) "x" "y" None None Spectra.no_kwargs []
    = inr (s, h) /\
    spectrum_at h 5 4 3 (Spectra.Array [Spectra.vector [3; 4]%Q]) [0; 2] /\
    exists h1 h2,
      Spectra.data_objects Spectra.no_backend 5 h = inr ([0; 2] ++ [4], h1) /\
      h1 = h /\
      Spectra.get_axes_series 4 h1 = inr ([0; 2], h1) /\
      Spectra.data_objects Spectra.no_backend 5 h1 = inr ([0; 2] ++ [4], h2) /\
      h2 = h.
Proof.
  do 2 eexists. split; [reflexivity |].
  assert (Hat : spectrum_at
                  (spectrum_objects 0 [1; 2]%Q [3; 4]%Q (Some 0%Q) "x" "y" None None
                                    Spectra.no_kwargs)
                  5 4 3 (Spectra.Array [Spectra.vector [3; 4]%Q]) [0; 2]).
  { constructor; [do 5 eexists | do 2 eexists |]; reflexivity. }
  split; [exact Hat |].
  exact (data_objects_returns_axes_and_field Spectra.no_backend _ 5 4 3 _ [0; 2] Hat).
Defined.

(** C10 as stated fails.  On the spectrum of [x = [1, 2]] and [y = [3, 4]]
    (reference 5, its field at 4, the axes at 0 and 2), the first call of
    [data_objects] returns the two axes and the field; after it
    [field.axes_series] is the list of the two axes, which does not end
    with the field, and the second call returns three items again: there
    are no two calls in a row of which the second returns a list longer by
    one. *)
Lemma data_objects_leaves_field_axes :
  Spectra.from_data [1; 2]%Q [3; 4]%Q (Some 0%Q) "x" "y" None None Spectra.no_kwargs []
  = inr (5, two_point_spectrum) /\
  Spectra.field Spectra.no_backend 5 two_point_spectrum = inr (4, two_point_spectrum) /\
  Spectra.data_objects Spectra.no_backend 5 two_point_spectrum
  = inr ([0; 2; 4], two_point_spectrum) /\
  Spectra.get_axes_series 4 two_point_spectrum = inr ([0; 2], two_point_spectrum) /\
  last [0; 2] 0 <> 4 /\
  ~ (exists first second h1 h2,
        Spectra.data_objects Spectra.no_backend 5 two_point_spectrum = inr (first, h1) /\
        Spectra.data_objects Spectra.no_backend 5 h1 = inr (second, h2) /\
        length second = S (length first)).
Proof.
  assert (Hrun : Spectra.data_objects Spectra.no_backend 5 two_point_spectrum
                 = inr ([0; 2; 4], two_point_spectrum)) by reflexivity.
  split; [reflexivity |]. split; [reflexivity |]. split; [exact Hrun |].
  split; [reflexivity |]. split; [discriminate |].
  intros (first & second & h1 & h2 & E1 & E2 & Hlen).
  rewrite Hrun in E1. injection E1 as <- <-.
  rewrite Hrun in E2. injection E2 as <- <-.
  discriminate Hlen.
Qed.

(* ===================================================================== *)
(** * Further properties of cycle segmentation *)
(* ===================================================================== *)

Lemma argmax_true (mask : list bool) :
  Py.contains_true mask = true -> nth_error mask (Py.argmax mask) = Some true.
Proof.
  induction mask as [| b mask IH]; simpl; [discriminate |].
  destruct b; [reflexivity |]. simpl. intros H.
  unfold Py.contains_true in IH. rewrite H. simpl. apply IH. exact H.
Qed.

Lemma mask_argmax {V} (f : V -> bool) (n : nat) (v : list V) :
  Py.contains_true (map f (Py.slice_from n v)) = true ->
  exists x, nth_error v (n + Py.argmax (map f (Py.slice_from n v))) = Some x /\ f x = true.
Proof.
  intros H. apply argmax_true in H. rewrite nth_error_map in H.
  unfold Py.slice_from in *. rewrite nth_error_skipn in H.
  destruct (nth_error v _) as [x |]; [| discriminate].
  exists x. split; [reflexivity |]. simpl in H. congruence.
Qed.

Lemma mask_without_true {V} (f : V -> bool) (n : nat) (v : list V) :
  (forall x, In x v -> f x = false) ->
  Py.contains_true (map f (Py.slice_from n v)) = false.
Proof.
  intros H. unfold Py.contains_true, Py.slice_from.
  apply not_true_is_false. intros E. apply existsb_exists in E.
  destruct E as [b [Hin ->]]. apply in_map_iff in Hin. destruct Hin as [x [Hx Hin]].
  assert (Hv : In x v).
  { rewrite <- (firstn_skipn n v). apply in_or_app. now right. }
  rewrite (H x Hv) in Hx. discriminate.
Qed.

Lemma registers_at_assign (n2 : nat) (c : Z) (cv : list Z) (i : nat) :
  registers_at (Py.assign_from n2 c cv) i ->
  (i < n2 /\ registers_at cv i) \/
  (i = n2 /\ 1 <= n2 /\ n2 < length cv /\
   exists a, nth_error cv (n2 - 1) = Some a /\ (a < c)%Z).
Proof.
  intros [Hi [a [b [Ha [Hb Hab]]]]].
  assert (Hlen : i < length cv).
  { rewrite <- (assign_from_length n2 c cv). apply nth_error_Some. rewrite Hb. discriminate. }
  apply assign_from_nth in Ha. apply assign_from_nth in Hb.
  destruct Ha as [[Hlt Ha] | [Hge ->]], Hb as [[Hlt' Hb] | [Hge' ->]].
  - left. split; [exact Hlt' |]. split; [exact Hi |]. now exists a, b.
  - right. assert (E : i = n2) by lia. subst i.
    split; [reflexivity |]. split; [exact Hi |]. split; [exact Hlen |]. now exists a.
  - lia.
  - lia.
Qed.

Lemma assign_from_old {A} (k : nat) (x : A) (a : list A) (i : nat) :
  i < k -> nth_error (Py.assign_from k x a) i = nth_error a i.
Proof.
  intros Hi. unfold Py.assign_from.
  destruct (Nat.lt_ge_cases i (length a)) as [Hlt | Hge].
  - rewrite nth_error_app1 by (rewrite length_firstn; lia).
    rewrite nth_error_firstn. destruct (Nat.ltb_spec i k); [reflexivity | lia].
  - rewrite (proj2 (nth_error_None a i)) by exact Hge.
    apply nth_error_None. rewrite length_app, length_firstn, repeat_length. lia.
Qed.

Lemma assign_from_new {A} (k : nat) (x : A) (a : list A) (i : nat) :
  k <= i -> i < length a -> nth_error (Py.assign_from k x a) i = Some x.
Proof.
  intros Hk Hi. unfold Py.assign_from.
  rewrite nth_error_app2 by (rewrite length_firstn; lia).
  rewrite length_firstn. apply nth_error_repeat. lia.
Qed.

Section ScanTraceFacts.

Variable V : Type.
Variable ltb : V -> V -> bool.

Lemma scan_trace_init (v : list V) (sp : V) (N_points N : nat) :
  scan_trace ltb v sp N_points (CV.mk_scan 0%Z 0 (Py.zeros N)).
Proof.
  assert (Hnone : forall i, ~ registers_at (Py.zeros N) i).
  { intros i [_ [a [b [Ha [Hb Hab]]]]]. unfold Py.zeros in *.
    apply nth_error_repeat_inv in Ha. apply nth_error_repeat_inv in Hb. lia. }
  constructor; simpl.
  - intros k x _ Hx. unfold Py.zeros in Hx. now apply nth_error_repeat_inv in Hx.
  - intros i Hi. now apply Hnone in Hi.
  - intros i j Hi. now apply Hnone in Hi.
Qed.

Lemma scan_trace_body (v : list V) (sp : V) (N_points : nat) (st : CV.scan_state) :
  1 <= N_points ->
  scan_trace ltb v sp N_points st ->
  match CV.loop_body V ltb v sp N_points st with
  | CV.Break st' | CV.Continue st' => scan_trace ltb v sp N_points st'
  end.
Proof.
  intros HN Htr. unfold CV.loop_body.
  destruct (Py.contains_true (map _ (Py.slice_from (CV.n st) v))) eqn:Ebehind; simpl;
    [| exact Htr].
  apply mask_argmax in Ebehind. destruct Ebehind as [xb [Hxb Hbehind]].
  set (a1 := Py.argmax (map (fun x => ltb x sp) (Py.slice_from (CV.n st) v))) in *.
  set (n1 := CV.n st + (a1 + N_points)).
  destruct (Py.contains_true (map _ (Py.slice_from n1 v))) eqn:Eahead; simpl.
  - apply mask_argmax in Eahead. destruct Eahead as [xa [Hxa Hahead]].
    set (a2 := Py.argmax (map (fun x => ltb sp x) (Py.slice_from n1 v))) in *.
    set (n2 := n1 + a2) in *.
    destruct Htr as [Htail Hreg Hgap].
    assert (Hnew : forall i,
               registers_at (Py.assign_from n2 (CV.c st + 1)%Z (CV.cycle_vec st)) i ->
               (i < n2 /\ registers_at (CV.cycle_vec st) i) \/ i = n2).
    { intros i Hi. apply registers_at_assign in Hi. destruct Hi as [Hi | [Hi _]]; auto. }
    constructor; simpl.
    + intros k x Hk Hx. apply assign_from_nth in Hx.
      destruct Hx as [[Hlt _] | [_ ->]]; [lia | reflexivity].
    + intros i Hi. apply registers_at_assign in Hi.
      destruct Hi as [[Hlt Hold] | [E [Hpos [Hlen [a [Ha Hac]]]]]].
      * destruct (Hreg i Hold) as [Hpos [[a [Ha Hb]] [Hx Hj]]].
        split; [lia |]. split; [| split; assumption].
        exists a. rewrite !assign_from_old by lia. split; assumption.
      * rewrite E. split; [lia |]. split; [| split].
        -- exists a.
           assert (Ea : a = CV.c st) by (apply (Htail (n2 - 1)); [lia | exact Ha]).
           subst a. split.
           ++ rewrite assign_from_old by lia. exact Ha.
           ++ apply assign_from_new; [lia | exact Hlen].
        -- exists xa. split; [exact Hxa | exact Hahead].
        -- exists (CV.n st + a1), xb. split; [lia |]. split; [exact Hxb | exact Hbehind].
    + intros i j Hi Hj Hij. apply Hnew in Hi. apply Hnew in Hj.
      destruct Hi as [[Hilt Hi] | ->], Hj as [[Hjlt Hj] | ->].
      * exact (Hgap i j Hi Hj Hij).
      * destruct (Hreg i Hi) as [Hpos _]. lia.
      * lia.
      * lia.
  - destruct Htr as [Htail Hreg Hgap]. constructor; simpl.
    + intros k x Hk Hx. apply (Htail k); [lia | exact Hx].
    + intros i Hi. destruct (Hreg i Hi) as [Hpos Hrest]. split; [lia | exact Hrest].
    + exact Hgap.
Qed.

Lemma scan_trace_loop (N : nat) (v : list V) (sp : V) (N_points : nat) :
  1 <= N_points ->
  forall fuel st st',
    scan_trace ltb v sp N_points st ->
    CV.while_loop V ltb fuel N v sp N_points st = Some st' ->
    scan_trace ltb v sp N_points st'.
Proof.
  intros HN. induction fuel as [| fuel IH]; intros st st' Htr; simpl; [discriminate |].
  destruct (CV.n st <? N); [| intros H; injection H as <-; exact Htr].
  pose proof (scan_trace_body v sp N_points st HN Htr) as Hbody.
  destruct (CV.loop_body V ltb v sp N_points st) as [st1 | st1].
  - intros H. injection H as <-. exact Hbody.
  - apply IH. exact Hbody.
Qed.

End ScanTraceFacts.

(** The array [redefine_cycle] returns is the one a state of the scan
    holds that keeps [scan_trace], for the samples and the threshold as the
    scan compares them. *)
Lemma redefine_cycle_trace (V : Type) (ltb : V -> V -> bool) (neg : V -> V)
      (t v : list V) (sp : V) (redox : bool) (N_points : nat) (cycle : list Z) :
  1 <= N_points ->
  CV.redefine_cycle V ltb neg t v sp redox N_points = Some cycle ->
  exists st,
    CV.cycle_vec st = cycle /\
    scan_trace ltb (if redox then v else map neg v) (if redox then sp else neg sp)
               N_points st.
Proof.
  intros HN. unfold CV.redefine_cycle.
  destruct redox; cbn [negb].
  - destruct (CV.while_loop V ltb (S (length t)) (length t) v sp N_points _)
      as [st |] eqn:E; [| discriminate].
    intros H. injection H as <-. exists st. split; [reflexivity |].
    eapply scan_trace_loop; [exact HN | apply scan_trace_init | exact E].
  - destruct (CV.while_loop V ltb (S (length t)) (length t) (map neg v) (neg sp) N_points _)
      as [st |] eqn:E; [| discriminate].
    intros H. injection H as <-. exists st. split; [reflexivity |].
    eapply scan_trace_loop; [exact HN | apply scan_trace_init | exact E].
Qed.

(** X1.  Where the cycle index of [redefine_cycle] goes up, at sample [i]:
    it goes up by exactly one; the potential at sample [i] is ahead of the
    start potential (in the direction of the scan); and a sample that lies
    [N_points] or more before [i] is behind it.  So no cycle starts within
    the first [N_points] samples. *)
Theorem redefine_cycle_registration :
  forall (V : Type) (ltb : V -> V -> bool) (neg : V -> V) (t v : list V)
         (start_potential : V) (redox : bool) (N_points : nat) (cycle : list Z) (i : nat),
    1 <= N_points ->
    CV.redefine_cycle V ltb neg t v start_potential redox N_points = Some cycle ->
    registers_at cycle i ->
    (exists a, nth_error cycle (i - 1) = Some a /\ nth_error cycle i = Some (a + 1)%Z) /\
    (exists x, nth_error v i = Some x /\ ahead ltb neg redox start_potential x = true) /\
    (exists j x, j + N_points <= i /\ nth_error v j = Some x /\
                 behind ltb neg redox start_potential x = true) /\
    N_points <= i.
Proof.
  intros V ltb neg t v sp redox N_points cycle i HN Hrun Hi.
  destruct (redefine_cycle_trace V ltb neg t v sp redox N_points cycle HN Hrun)
    as [st [<- [_ Hreg _]]].
  destruct (Hreg i Hi) as [_ [Hstep [[x [Hx Hahead]] [j [y [Hj [Hy Hbehind]]]]]]].
  split; [exact Hstep |]. unfold ahead, behind. destruct redox.
  - split; [now exists x |]. split; [now exists j, y | lia].
  - rewrite nth_error_map in Hx, Hy.
    destruct (nth_error v i) as [x0 |] eqn:Ei; [| discriminate].
    destruct (nth_error v j) as [y0 |] eqn:Ej; [| discriminate].
    simpl in Hx, Hy. injection Hx as <-. injection Hy as <-.
    split; [now exists x0 |]. split; [| lia].
    exists j, y0. split; [exact Hj |]. split; [exact Ej | exact Hbehind].
Qed.

Lemma redefine_cycle_registration_witness :
  1 <= 2 /\
  CV.redefine_cycle Z Z.ltb Z.opp [0; 1; 2; 3; 4; 5]%Z [0; 2; 2; 0; 0; 3]%Z 1%Z true 2
  = Some [0; 0; 1; 1; 1; 1]%Z /\
  registers_at [0; 0; 1; 1; 1; 1]%Z 2 /\
  (exists a, nth_error [0; 0; 1; 1; 1; 1]%Z (2 - 1) = Some a /\
             nth_error [0; 0; 1; 1; 1; 1]%Z 2 = Some (a + 1)%Z) /\
  (exists x, nth_error [0; 2; 2; 0; 0; 3]%Z 2 = Some x /\
             ahead Z.ltb Z.opp true 1%Z x = true) /\
  (exists j x, j + 2 <= 2 /\ nth_error [0; 2; 2; 0; 0; 3]%Z j = Some x /\
               behind Z.ltb Z.opp true 1%Z x = true) /\
  2 <= 2.
Proof.
  assert (Hreg : registers_at [0; 0; 1; 1; 1; 1]%Z 2).
  { split; [lia |]. exists 0%Z, 1%Z. repeat split; lia. }
  split; [lia |]. split; [reflexivity |]. split; [exact Hreg |].
  apply (redefine_cycle_registration Z Z.ltb Z.opp [0; 1; 2; 3; 4; 5]%Z
           [0; 2; 2; 0; 0; 3]%Z 1%Z true 2 [0; 0; 1; 1; 1; 1]%Z 2);
    [lia | reflexivity | exact Hreg].
Defined.

(** X2.  Two places where the cycle index of [redefine_cycle] goes up are
    [2 * N_points] samples or more apart: no cycle is shorter than that. *)
Theorem redefine_cycle_spacing :
  forall (V : Type) (ltb : V -> V -> bool) (neg : V -> V) (t v : list V)
         (start_potential : V) (redox : bool) (N_points : nat) (cycle : list Z) (i j : nat),
    1 <= N_points ->
    CV.redefine_cycle V ltb neg t v start_potential redox N_points = Some cycle ->
    registers_at cycle i ->
    registers_at cycle j ->
    i < j ->
    i + 2 * N_points <= j.
Proof.
  intros V ltb neg t v sp redox N_points cycle i j HN Hrun Hi Hj Hij.
  destruct (redefine_cycle_trace V ltb neg t v sp redox N_points cycle HN Hrun)
    as [st [<- [_ _ Hgap]]].
  exact (Hgap i j Hi Hj Hij).
Qed.

Lemma redefine_cycle_spacing_witness :
  1 <= 1 /\
  CV.redefine_cycle Z Z.ltb Z.opp [0; 1; 2; 3; 4; 5]%Z [0; 3; 0; 3; 0; 3]%Z 1%Z true 1
  = Some [0; 1; 1; 2; 2; 3]%Z /\
  registers_at [0; 1; 1; 2; 2; 3]%Z 1 /\
  registers_at [0; 1; 1; 2; 2; 3]%Z 3 /\
  1 < 3 /\
  1 + 2 * 1 <= 3.
Proof.
  assert (H1 : registers_at [0; 1; 1; 2; 2; 3]%Z 1).
  { split; [lia |]. exists 0%Z, 1%Z. repeat split; lia. }
  assert (H3 : registers_at [0; 1; 1; 2; 2; 3]%Z 3).
  { split; [lia |]. exists 1%Z, 2%Z. repeat split; lia. }
  split; [lia |]. split; [reflexivity |].
  split; [exact H1 |]. split; [exact H3 |]. split; [lia |].
  apply (redefine_cycle_spacing Z Z.ltb Z.opp [0; 1; 2; 3; 4; 5]%Z
           [0; 3; 0; 3; 0; 3]%Z 1%Z true 1 [0; 1; 1; 2; 2; 3]%Z 1 3);
    [lia | reflexivity | exact H1 | exact H3 | lia].
Defined.

(** X3.  When no sample is behind the start potential, or none is ahead
    of it, [redefine_cycle] counts no cycle: the whole array is 0, for
    every [N_points]. *)
Theorem redefine_cycle_without_crossing :
  forall (V : Type) (ltb : V -> V -> bool) (neg : V -> V) (t v : list V)
         (start_potential : V) (redox : bool) (N_points : nat),
    (forall x, In x v -> behind ltb neg redox start_potential x = false) \/
    (forall x, In x v -> ahead ltb neg redox start_potential x = false) ->
    CV.redefine_cycle V ltb neg t v start_potential redox N_points
    = Some (Py.zeros (length t)).
Proof.
  intros V ltb neg t v sp redox N_points Hnone.
  assert (Hmask : forall sp' v',
             (forall x, In x v' -> ltb x sp' = false) \/
             (forall x, In x v' -> ltb sp' x = false) ->
             CV.while_loop V ltb (S (length t)) (length t) v' sp' N_points
                           (CV.mk_scan 0%Z 0 (Py.zeros (length t)))
             = Some (CV.mk_scan 0%Z
                       (if (0 <? length t) && Py.contains_true
                                                (map (fun x => ltb x sp') (Py.slice_from 0 v'))
                        then 0 + (Py.argmax (map (fun x => ltb x sp') (Py.slice_from 0 v'))
                                  + N_points)
                        else 0)
                       (Py.zeros (length t)))).
  { intros sp' v' H. simpl CV.while_loop. cbn [CV.n].
    destruct (0 <? length t); [| reflexivity]. unfold CV.loop_body. cbn [CV.n CV.c CV.cycle_vec].
    destruct H as [H | H].
    - rewrite (mask_without_true (fun x => ltb x sp') 0 v' H). reflexivity.
    - rewrite (mask_without_true (fun x => ltb sp' x) _ v' H).
      destruct (Py.contains_true _); reflexivity. }
  unfold CV.redefine_cycle. unfold behind, ahead in Hnone. destruct redox; simpl negb; cbv iota.
  - rewrite (Hmask sp v Hnone). reflexivity.
  - rewrite (Hmask (neg sp) (map neg v)); [reflexivity |].
    destruct Hnone as [H | H]; [left | right]; intros x Hx;
      apply in_map_iff in Hx; destruct Hx as [y [<- Hy]]; apply H; exact Hy.
Qed.

Lemma redefine_cycle_without_crossing_witness :
  ((forall x, In x [2; 3; 2; 5]%Z -> behind Z.ltb Z.opp true 1%Z x = false) \/
   (forall x, In x [2; 3; 2; 5]%Z -> ahead Z.ltb Z.opp true 1%Z x = false)) /\
  CV.redefine_cycle Z Z.ltb Z.opp [0; 1; 2; 3]%Z [2; 3; 2; 5]%Z 1%Z true 5
  = Some (Py.zeros (length [0; 1; 2; 3]%Z)).
Proof.
  assert (H : forall x, In x [2; 3; 2; 5]%Z -> behind Z.ltb Z.opp true 1%Z x = false).
  { intros x Hx. simpl in Hx.
    destruct Hx as [<- | [<- | [<- | [<- | []]]]]; reflexivity. }
  split; [left; exact H |].
  apply (redefine_cycle_without_crossing Z Z.ltb Z.opp [0; 1; 2; 3]%Z [2; 3; 2; 5]%Z
           1%Z true 5). left. exact H.
Defined.
(* ===================================================================== *)
(** * Properties of indexing a cyclic voltammagram *)
(* ===================================================================== *)

Lemma range_length_step_one (start stop : Z) :
  Z.to_nat (CVIndexing.range_length start stop 1) = Z.to_nat (stop - start).
Proof.
  unfold CVIndexing.range_length. simpl (0 <? 1)%Z. cbv iota.
  destruct (Z.ltb_spec start stop).
  - rewrite Z.div_1_r. replace (stop - start - 1 + 1)%Z with (stop - start)%Z by lia.
    reflexivity.
  - simpl. lia.
Qed.

(** X4.  A slice key with [int] bounds and no step selects the cycles
    [start], [start + 1], ... up to but not including [stop], in this
    order and without printing; a slice key that leaves out its start or
    its stop raises [TypeError], whatever its step, and selects nothing. *)
Theorem getitem_slice_selects_range :
  forall (format_key : list CVIndexing.element -> string),
    (forall start stop : Z,
        exists cycles,
          CVIndexing.__getitem__ format_key (CVIndexing.KSlice (Some start) (Some stop) None)
          = ([], inr (CVIndexing.Select (CVIndexing.KList (map CVIndexing.EInt cycles)))) /\
          length cycles = Z.to_nat (stop - start) /\
          (forall i, i < length cycles ->
                     nth_error cycles i = Some (start + Z.of_nat i)%Z) /\
          (forall z, In z cycles <-> (start <= z < stop)%Z)) /\
    (forall stop step,
        exists msg,
          CVIndexing.__getitem__ format_key (CVIndexing.KSlice None stop step)
          = ([], inl (PyExn.TypeError msg))) /\
    (forall start step,
        exists msg,
          CVIndexing.__getitem__ format_key (CVIndexing.KSlice start None step)
          = ([], inl (PyExn.TypeError msg))).
Proof.
  intros format_key. split; [| split].
  - intros start stop.
    exists (map (fun k => start + Z.of_nat k * 1)%Z
                (seq 0 (Z.to_nat (CVIndexing.range_length start stop 1)))).
    assert (Hlen : length (map (fun k => start + Z.of_nat k * 1)%Z
                               (seq 0 (Z.to_nat (CVIndexing.range_length start stop 1))))
                   = Z.to_nat (stop - start)).
    { rewrite length_map, length_seq. apply range_length_step_one. }
    assert (Hnth : forall i,
               i < Z.to_nat (stop - start) ->
               nth_error (map (fun k => start + Z.of_nat k * 1)%Z
                              (seq 0 (Z.to_nat (CVIndexing.range_length start stop 1)))) i
               = Some (start + Z.of_nat i)%Z).
    { intros i Hi. rewrite nth_error_map, range_length_step_one.
      rewrite nth_error_seq. destruct (Nat.ltb_spec i (Z.to_nat (stop - start))); [| lia].
      simpl. f_equal. lia. }
    split; [| split; [exact Hlen | split]].
    + unfold CVIndexing.__getitem__, CVIndexing.range. simpl (1 =? 0)%Z. cbv iota.
      cbn [PyExn.bind PyExn.ret].
      replace (forallb _ _) with true; [reflexivity |].
      symmetry. apply forallb_forall. intros e He. apply in_map_iff in He.
      destruct He as [z [<- _]]. reflexivity.
    + intros i Hi. apply Hnth. rewrite <- Hlen. exact Hi.
    + intros z. split.
      * intros Hz. apply In_nth_error in Hz. destruct Hz as [i Hi].
        assert (Hlt : i < Z.to_nat (stop - start)).
        { rewrite <- Hlen. apply nth_error_Some. rewrite Hi. discriminate. }
        rewrite (Hnth i Hlt) in Hi. injection Hi as <-. lia.
      * intros Hz. apply (nth_error_In _ (Z.to_nat (z - start))).
        rewrite Hnth by lia. f_equal. lia.
  - intros stop step. eexists. reflexivity.
  - intros [start |] step; eexists; reflexivity.
Qed.



(* ===================================================================== *)
(** * Properties of the string operations *)
(* ===================================================================== *)

Section StringFacts.

Local Open Scope string_scope.

Lemma append_nil_r (s : string) : s ++ EmptyString = s.
Proof. induction s as [| c s IH]; simpl; [reflexivity | now rewrite IH]. Qed.

Lemma append_assoc (a b c : string) : (a ++ b) ++ c = a ++ b ++ c.
Proof. induction a as [| d a IH]; simpl; [reflexivity | now rewrite IH]. Qed.

Lemma length_append (a b : string) :
  String.length (a ++ b) = String.length a + String.length b.
Proof. induction a as [| d a IH]; simpl; [reflexivity | now rewrite IH]. Qed.

Lemma has_char_app (ch : ascii) (a b : string) :
  has_char ch (a ++ b) = has_char ch a || has_char ch b.
Proof.
  induction a as [| d a IH]; simpl; [reflexivity |].
  rewrite IH. now rewrite orb_assoc.
Qed.

Lemma substring_0_app (s t : string) : substring 0 (String.length s) (s ++ t) = s.
Proof. induction s as [| c s IH]; simpl; [now destruct t | now rewrite IH]. Qed.

Lemma substring_skip (s t : string) (n m : nat) :
  substring (String.length s + n) m (s ++ t) = substring n m t.
Proof. induction s as [| c s IH]; simpl; [reflexivity | exact IH]. Qed.

Lemma substring_all (s : string) : substring 0 (String.length s) s = s.
Proof. induction s as [| c s IH]; simpl; [reflexivity | now rewrite IH]. Qed.

Lemma substring_suffix (s : string) :
  forall n, n <= String.length s ->
            exists pre, s = pre ++ substring n (String.length s - n) s /\
                        String.length pre = n.
Proof.
  induction s as [| c s IH]; intros n Hn.
  - exists EmptyString. simpl in Hn. assert (n = 0) by lia. subst n. split; reflexivity.
  - destruct n as [| n].
    + exists EmptyString. split; [| reflexivity].
      rewrite Nat.sub_0_r, substring_all. reflexivity.
    + simpl in Hn. destruct (IH n ltac:(lia)) as [pre [E Hlen]].
      exists (String c pre). simpl. split; [now rewrite <- E | now rewrite Hlen].
Qed.

(** [s.endswith(suffix)] holds exactly for the strings that end with
    [suffix]. *)
Lemma endswith_app (pre suffix : string) : PyStr.endswith (pre ++ suffix) suffix = true.
Proof.
  unfold PyStr.endswith. rewrite length_append.
  replace (String.length pre + String.length suffix - String.length suffix)
    with (String.length pre + 0) by lia.
  rewrite substring_skip, substring_all, String.eqb_refl.
  rewrite andb_true_r. apply Nat.leb_le. lia.
Qed.

Lemma endswith_inv (s suffix : string) :
  PyStr.endswith s suffix = true -> exists pre, s = pre ++ suffix.
Proof.
  unfold PyStr.endswith. intros H. apply andb_true_iff in H. destruct H as [Hlen Heq].
  apply Nat.leb_le in Hlen. apply String.eqb_eq in Heq.
  destruct (substring_suffix s (String.length s - String.length suffix) ltac:(lia))
    as [pre [E _]].
  replace (String.length s - (String.length s - String.length suffix))
    with (String.length suffix) in E by lia.
  rewrite Heq in E. now exists pre.
Qed.

Lemma ascii_eqb_sym (a b : ascii) : Ascii.eqb a b = Ascii.eqb b a.
Proof.
  destruct (Ascii.eqb_spec a b) as [-> | Hne].
  - now rewrite Ascii.eqb_refl.
  - symmetry. apply Ascii.eqb_neq. congruence.
Qed.

(** [ch in s] for a character. *)
Lemma contains_char (ch : ascii) (s : string) :
  PyStr.contains (String ch EmptyString) s = has_char ch s.
Proof.
  unfold PyStr.contains. induction s as [| d s IH]; simpl; [reflexivity |].
  destruct (ascii_dec ch d) as [-> | Hne].
  - rewrite Ascii.eqb_refl. simpl. now destruct s.
  - assert (E : Ascii.eqb d ch = false) by (apply Ascii.eqb_neq; congruence).
    rewrite E. simpl. rewrite <- IH.
    destruct (index 0 (String ch EmptyString) s); reflexivity.
Qed.

Lemma regex_text_clean (s : string) :
  has_char PyStr.newline s = false -> PyStr.regex_text s = Some s.
Proof.
  intros H. unfold PyStr.regex_text.
  destruct (PyStr.endswith s (String PyStr.newline EmptyString)) eqn:E.
  - apply endswith_inv in E. destruct E as [pre ->].
    rewrite has_char_app in H. simpl in H. rewrite orb_true_r in H. discriminate.
  - rewrite contains_char, H. reflexivity.
Qed.

Lemma regex_text_line (s : string) :
  has_char PyStr.newline s = false ->
  PyStr.regex_text (s ++ String PyStr.newline EmptyString) = Some s.
Proof.
  intros H. unfold PyStr.regex_text. rewrite endswith_app.
  rewrite length_append. simpl String.length.
  replace (String.length s + 1 - 1) with (String.length s) by lia.
  rewrite substring_0_app, contains_char, H. reflexivity.
Qed.

Lemma regex_text_inv (s body : string) :
  PyStr.regex_text s = Some body ->
  has_char PyStr.newline body = false /\
  (s = body \/ s = body ++ String PyStr.newline EmptyString).
Proof.
  unfold PyStr.regex_text.
  destruct (PyStr.endswith s (String PyStr.newline EmptyString)) eqn:E.
  - apply endswith_inv in E. destruct E as [pre ->].
    rewrite length_append. simpl String.length.
    replace (String.length pre + 1 - 1) with (String.length pre) by lia.
    rewrite substring_0_app, contains_char.
    destruct (has_char PyStr.newline pre) eqn:Hpre; [discriminate |].
    intros H. injection H as <-. split; [exact Hpre | now right].
  - rewrite contains_char.
    destruct (has_char PyStr.newline s) eqn:Hs; [discriminate |].
    intros H. injection H as <-. split; [exact Hs | now left].
Qed.

(** [s.split(sep)] *)
Lemma split_length (sep : ascii) (s : string) :
  length (PyStr.split sep s) = S (count_char sep s).
Proof.
  induction s as [| c s IH]; simpl; [reflexivity |].
  destruct (Ascii.eqb c sep); simpl; [now rewrite IH |].
  destruct (PyStr.split sep s); simpl in *; [discriminate | exact IH].
Qed.

Lemma split_cell (sep : ascii) (s : string) :
  has_char sep s = false -> PyStr.split sep s = [s].
Proof.
  induction s as [| c s IH]; simpl; [reflexivity |].
  intros H. apply orb_false_iff in H. destruct H as [Hc Hs].
  rewrite Hc, (IH Hs). reflexivity.
Qed.

Lemma split_app (sep : ascii) (s rest : string) :
  has_char sep s = false ->
  PyStr.split sep (s ++ String sep rest) = s :: PyStr.split sep rest.
Proof.
  induction s as [| c s IH]; simpl.
  - intros _. now rewrite Ascii.eqb_refl.
  - intros H. apply orb_false_iff in H. destruct H as [Hc Hs].
    rewrite Hc, (IH Hs). reflexivity.
Qed.

Lemma split_join (sep : ascii) (parts : list string) :
  parts <> [] ->
  (forall part, In part parts -> has_char sep part = false) ->
  PyStr.split sep (PyStr.join (String sep EmptyString) parts) = parts.
Proof.
  induction parts as [| part parts IH]; intros Hne Hparts; [now elim Hne |].
  destruct parts as [| part' parts].
  - simpl. apply split_cell. apply Hparts. now left.
  - change (PyStr.join (String sep EmptyString) (part :: part' :: parts))
      with (part ++ String sep (PyStr.join (String sep EmptyString) (part' :: parts))).
    rewrite split_app by (apply Hparts; now left).
    rewrite IH; [reflexivity | discriminate |].
    intros p Hp. apply Hparts. now right.
Qed.

Lemma join_has_char (ch sep : ascii) (parts : list string) :
  Ascii.eqb sep ch = false ->
  (forall part, In part parts -> has_char ch part = false) ->
  has_char ch (PyStr.join (String sep EmptyString) parts) = false.
Proof.
  intros Hsep. induction parts as [| part parts IH]; intros Hparts; [reflexivity |].
  destruct parts as [| part' parts].
  - simpl. apply Hparts. now left.
  - change (PyStr.join (String sep EmptyString) (part :: part' :: parts))
      with (part ++ String sep (PyStr.join (String sep EmptyString) (part' :: parts))).
    rewrite has_char_app. simpl. rewrite Hsep, (Hparts part) by now left.
    simpl. apply IH. intros p Hp. apply Hparts. now right.
Qed.

(** [s.strip("\n")] *)
Lemma lstrip_newline_clean (s t : string) :
  has_char PyStr.newline s = false ->
  s <> EmptyString ->
  PyStr.lstrip_newline (s ++ t) = s ++ t.
Proof.
  destruct s as [| c s]; [intros _ H; now elim H |].
  simpl. intros H _. apply orb_false_iff in H. destruct H as [Hc _].
  now rewrite Hc.
Qed.

Lemma rstrip_newline_clean (s : string) :
  has_char PyStr.newline s = false -> PyStr.rstrip_newline s = s.
Proof.
  induction s as [| c s IH]; simpl; [reflexivity |].
  intros H. apply orb_false_iff in H. destruct H as [Hc Hs].
  rewrite (IH Hs). destruct s; [now rewrite Hc | reflexivity].
Qed.

Lemma rstrip_newline_line (s : string) :
  has_char PyStr.newline s = false ->
  PyStr.rstrip_newline (s ++ String PyStr.newline EmptyString) = s.
Proof.
  induction s as [| c s IH]; simpl; [reflexivity |].
  intros H. apply orb_false_iff in H. destruct H as [Hc Hs].
  rewrite (IH Hs). destruct s; [now rewrite Hc | reflexivity].
Qed.

Lemma strip_newline_line (s : string) :
  has_char PyStr.newline s = false ->
  PyStr.strip_newline (s ++ String PyStr.newline EmptyString) = s.
Proof.
  intros H. unfold PyStr.strip_newline. destruct s as [| c s].
  - reflexivity.
  - rewrite lstrip_newline_clean by (exact H || discriminate).
    apply rstrip_newline_line. exact H.
Qed.

Lemma strip_newline_clean (s : string) :
  has_char PyStr.newline s = false -> PyStr.strip_newline s = s.
Proof.
  intros H. unfold PyStr.strip_newline. destruct s as [| c s]; [reflexivity |].
  rewrite <- (append_nil_r (String c s)) at 1.
  rewrite lstrip_newline_clean by (exact H || discriminate).
  rewrite append_nil_r. apply rstrip_newline_clean. exact H.
Qed.

(** The digits a string starts with. *)
Lemma span_digits_inv (s d tail : string) :
  PyStr.span_digits s = (d, tail) -> s = d ++ tail /\ PyStr.all_digits d = true.
Proof.
  revert d tail. induction s as [| c s IH]; simpl; intros d tail H.
  - injection H as <- <-. split; reflexivity.
  - destruct (PyStr.is_digit c) eqn:Hc.
    + destruct (PyStr.span_digits s) as [d' tail'].
      injection H as <- <-. destruct (IH d' tail' eq_refl) as [-> Hd].
      split; [reflexivity |]. simpl. now rewrite Hc.
    + injection H as <- <-. split; reflexivity.
Qed.

Lemma span_digits_app (d : string) (ch : ascii) (tail : string) :
  PyStr.all_digits d = true ->
  PyStr.is_digit ch = false ->
  PyStr.span_digits (d ++ String ch tail) = (d, String ch tail).
Proof.
  intros Hd Hch. induction d as [| c d IH]; simpl.
  - now rewrite Hch.
  - simpl in Hd. apply andb_true_iff in Hd. destruct Hd as [Hc Hd].
    rewrite Hc, (IH Hd). reflexivity.
Qed.

Lemma all_digits_has_char (ch : ascii) (s : string) :
  PyStr.all_digits s = true -> PyStr.is_digit ch = false -> has_char ch s = false.
Proof.
  intros Hs Hch. induction s as [| c s IH]; simpl; [reflexivity |].
  simpl in Hs. apply andb_true_iff in Hs. destruct Hs as [Hc Hs].
  rewrite (IH Hs), orb_false_r. apply Ascii.eqb_neq. intros ->. congruence.
Qed.

End StringFacts.

(* ===================================================================== *)
(** * Further properties of the column splitter *)
(* ===================================================================== *)

Lemma positions_headers (hs : list string) :
  forall (offset k p : nat) (h : string),
    nth_error (positions offset hs) k = Some p ->
    nth_error (filter nonempty hs) k = Some h ->
    nth_error hs (p - offset) = Some h.
Proof.
  induction hs as [| h0 hs IH]; intros offset k p h Hp Hh; simpl in *.
  - destruct k; discriminate.
  - destruct (nonempty h0).
    + destruct k as [| k]; simpl in *.
      * injection Hp as <-. injection Hh as <-. now rewrite Nat.sub_diag.
      * assert (Hlt : S offset <= p).
        { apply nth_error_In in Hp. apply positions_spec in Hp. lia. }
        replace (p - offset) with (S (p - S offset)) by lia.
        exact (IH (S offset) k p h Hp Hh).
    + assert (Hlt : S offset <= p).
      { apply nth_error_In in Hp. apply positions_spec in Hp. lia. }
      replace (p - offset) with (S (p - S offset)) by lia.
      exact (IH (S offset) k p h Hp Hh).
Qed.

Lemma positions_length (hs : list string) :
  forall offset, length (positions offset hs) = length (filter nonempty hs).
Proof.
  induction hs as [| h hs IH]; intros offset; simpl; [reflexivity |].
  destruct (nonempty h); simpl; now rewrite IH.
Qed.

(** X26.  [_get_series_splits] returns as many ranges as non-empty
    headers, so that [zip] in [_form_series] pairs every header with a
    range: the headers are the non-empty cells of the row in their order,
    and the range paired with a header begins at the cell of that header. *)
Theorem series_splits_pair_headers :
  forall series_headers : list string,
    let ranges := fst (Zilien._get_series_splits series_headers) in
    let headers := snd (Zilien._get_series_splits series_headers) in
    length ranges = length headers /\
    headers = filter nonempty series_headers /\
    forall k header b e,
      nth_error headers k = Some header ->
      nth_error ranges k = Some (b, e) ->
      exists i, b = Some i /\ nth_error series_headers i = Some header /\
                header <> EmptyString.
Proof.
  intros hs ranges headers. subst ranges headers.
  rewrite series_splits_positions. cbn [fst snd].
  assert (Hbegins : map fst (Itertools.zip_longest (positions 0 hs) (tl (positions 0 hs)))
                    = map Some (positions 0 hs)) by apply zip_longest_tl_begins.
  split; [| split].
  - rewrite <- (length_map fst), Hbegins, length_map. apply positions_length.
  - reflexivity.
  - intros k header b e Hheader Hrange.
    assert (Hb : nth_error (map Some (positions 0 hs)) k = Some b).
    { rewrite <- Hbegins, nth_error_map, Hrange. reflexivity. }
    rewrite nth_error_map in Hb.
    destruct (nth_error (positions 0 hs) k) as [p |] eqn:Hp; [| discriminate].
    injection Hb as <-. exists p. split; [reflexivity |].
    pose proof (positions_headers hs 0 k p header Hp Hheader) as Hn.
    rewrite Nat.sub_0_r in Hn. split; [exact Hn |].
    apply nth_error_In in Hheader. apply filter_In in Hheader.
    destruct Hheader as [_ Hne]. intros ->. discriminate.
Qed.

Lemma series_splits_pair_headers_witness :
  nth_error (snd (Zilien._get_series_splits ["pot"; EmptyString; "C0M2"; EmptyString]%string)) 1
  = Some "C0M2"%string /\
  nth_error (fst (Zilien._get_series_splits ["pot"; EmptyString; "C0M2"; EmptyString]%string)) 1
  = Some (Some 2, None) /\
  exists i,
    Some 2 = Some i /\
    nth_error ["pot"; EmptyString; "C0M2"; EmptyString]%string i = Some "C0M2"%string /\
    "C0M2"%string <> EmptyString.
Proof.
  split; [reflexivity |]. split; [reflexivity |].
  exact (proj2 (proj2 (series_splits_pair_headers
                         ["pot"; EmptyString; "C0M2"; EmptyString]%string))
               1 "C0M2"%string (Some 2) None eq_refl eq_refl).
Defined.

(* ===================================================================== *)
(** * Properties of the headers and the metadata lines *)
(* ===================================================================== *)

Section HeaderFacts.

Local Open Scope string_scope.

(** [to_mass] with its tests on the letters written as comparisons. *)
Lemma to_mass_unfold (s : string) :
  Zilien.to_mass s
  = match PyStr.regex_text s with
    | Some (String c rest) =>
        if Ascii.eqb c "C" then
          match PyStr.span_digits rest with
          | (String _ _, String m mass) =>
              if Ascii.eqb m "M" then
                match mass with
                | EmptyString => None
                | _ => if PyStr.all_digits mass then Some mass else None
                end
              else None
          | _ => None
          end
        else None
    | _ => None
    end.
Proof.
  unfold Zilien.to_mass.
  destruct (PyStr.regex_text s) as [[| c rest] |]; try reflexivity.
  destruct c as [[] [] [] [] [] [] [] []]; try reflexivity.
  destruct (PyStr.span_digits rest) as [[| d0 d] [| m mass]]; try reflexivity.
  destruct m as [[] [] [] [] [] [] [] []]; reflexivity.
Qed.

Lemma to_mass_inv (s mass : string) :
  Zilien.to_mass s = Some mass ->
  exists channel,
    digits channel /\ digits mass /\
    (s = "C" ++ channel ++ "M" ++ mass \/
     s = "C" ++ channel ++ "M" ++ mass ++ String PyStr.newline EmptyString).
Proof.
  rewrite to_mass_unfold.
  destruct (PyStr.regex_text s) as [[| c rest] |] eqn:Etext; try discriminate.
  destruct (Ascii.eqb_spec c "C") as [-> | _]; [| discriminate].
  destruct (PyStr.span_digits rest) as [[| d0 d] [| m mass']] eqn:Espan; try discriminate.
  destruct (Ascii.eqb_spec m "M") as [-> | _]; [| discriminate].
  destruct mass' as [| m0 mass']; [discriminate |].
  destruct (PyStr.all_digits (String m0 mass')) eqn:Hmass; [| discriminate].
  intros H. injection H as <-.
  apply span_digits_inv in Espan. destruct Espan as [-> Hd].
  apply regex_text_inv in Etext. destruct Etext as [_ Hs].
  exists (String d0 d). split; [split; [discriminate | exact Hd] |].
  split; [split; [discriminate | exact Hmass] |].
  destruct Hs as [-> | ->]; [left | right]; simpl; rewrite ?append_assoc; reflexivity.
Qed.

Lemma to_mass_of_header (channel mass tail : string) :
  digits channel -> digits mass ->
  tail = EmptyString \/ tail = String PyStr.newline EmptyString ->
  Zilien.to_mass ("C" ++ channel ++ "M" ++ mass ++ tail) = Some mass.
Proof.
  intros [Hc Hcd] [Hm Hmd] Htail. rewrite to_mass_unfold.
  assert (Hclean : has_char PyStr.newline ("C" ++ channel ++ "M" ++ mass) = false).
  { simpl. rewrite has_char_app. simpl. rewrite !all_digits_has_char; auto. }
  assert (Etext : PyStr.regex_text ("C" ++ channel ++ "M" ++ mass ++ tail)
                  = Some ("C" ++ channel ++ "M" ++ mass)).
  { destruct Htail as [-> | ->].
    - rewrite append_nil_r. apply regex_text_clean. exact Hclean.
    - replace ("C" ++ channel ++ "M" ++ mass ++ String PyStr.newline EmptyString)
        with (("C" ++ channel ++ "M" ++ mass) ++ String PyStr.newline EmptyString).
      + apply regex_text_line. exact Hclean.
      + simpl. now rewrite !append_assoc. }
  rewrite Etext. simpl append. cbv iota. rewrite Ascii.eqb_refl.
  rewrite (span_digits_app channel "M" mass Hcd eq_refl).
  destruct channel as [| c0 channel]; [now elim Hc |].
  rewrite Ascii.eqb_refl.
  destruct mass as [| m0 mass]; [now elim Hm |].
  now rewrite Hmd.
Qed.

(** The last character of a string written in two ways. *)
Lemma append_last_inj (a b : string) (x y : ascii) :
  a ++ String x EmptyString = b ++ String y EmptyString -> x = y.
Proof.
  revert b. induction a as [| c a IH]; intros [| d b] H; simpl in H.
  - now injection H.
  - injection H as _ H. destruct b; discriminate.
  - injection H as _ H. destruct a; discriminate.
  - injection H as _ H. exact (IH b H).
Qed.

Lemma string_last (s : string) :
  s <> EmptyString -> exists init last, s = init ++ String last EmptyString.
Proof.
  induction s as [| c s IH]; intros Hne; [now elim Hne |].
  destruct s as [| d s].
  - now exists EmptyString, c.
  - destruct (IH ltac:(discriminate)) as [init [last E]].
    exists (String c init), last. simpl. now rewrite <- E.
Qed.

Lemma all_digits_app (a b : string) :
  PyStr.all_digits (a ++ b) = PyStr.all_digits a && PyStr.all_digits b.
Proof.
  induction a as [| c a IH]; simpl; [reflexivity |]. now rewrite IH, andb_assoc.
Qed.

(** A mass header ends with a digit or a line end, so it ends with
    neither [setpoint] nor [value]. *)
Lemma to_mass_not_setpoint (s mass : string) :
  Zilien.to_mass s = Some mass ->
  existsb (PyStr.endswith s) ["setpoint"; "value"] = false.
Proof.
  intros H. apply to_mass_inv in H.
  destruct H as [channel [_ [[Hm Hmd] Hs]]].
  destruct (string_last mass Hm) as [init [last Emass]].
  assert (Hlast : PyStr.is_digit last = true).
  { rewrite Emass, all_digits_app in Hmd. apply andb_true_iff in Hmd.
    destruct Hmd as [_ Hmd]. simpl in Hmd. now rewrite andb_true_r in Hmd. }
  assert (Hend : exists init' last',
             s = init' ++ String last' EmptyString /\
             (PyStr.is_digit last' = true \/ last' = PyStr.newline)).
  { destruct Hs as [-> | ->].
    - exists ("C" ++ channel ++ "M" ++ init), last. split; [| now left].
      rewrite Emass. simpl. now rewrite !append_assoc.
    - exists ("C" ++ channel ++ "M" ++ mass), PyStr.newline. split; [| now right].
      simpl. now rewrite !append_assoc. }
  destruct Hend as [init' [last' [-> Hlast']]].
  simpl. rewrite orb_false_r. apply orb_false_iff. split.
  - apply not_true_is_false. intros E. apply endswith_inv in E. destruct E as [pre E].
    change (pre ++ "setpoint") with (pre ++ "setpoin" ++ String "t" EmptyString) in E.
    rewrite <- append_assoc in E. apply append_last_inj in E. subst last'.
    destruct Hlast' as [Hd | Hn]; discriminate.
  - apply not_true_is_false. intros E. apply endswith_inv in E. destruct E as [pre E].
    change (pre ++ "value") with (pre ++ "valu" ++ String "e" EmptyString) in E.
    rewrite <- append_assoc in E. apply append_last_inj in E. subst last'.
    destruct Hlast' as [Hd | Hn]; discriminate.
Qed.

(** Where the pattern of the Zilien column headers finds its [" ["]. *)
Lemma index_bracket (name rest : string) :
  has_char "[" name = false ->
  index 0 " [" (name ++ " [" ++ rest) = Some (String.length name).
Proof.
  induction name as [| c name IH]; intros H.
  - now destruct rest.
  - simpl in H. apply orb_false_iff in H. destruct H as [Hc Hname].
    change ((String c name) ++ " [" ++ rest) with (String c (name ++ " [" ++ rest)).
    cbn [index]. rewrite (IH Hname).
    replace (prefix " [" (String c (name ++ " [" ++ rest))) with false; [reflexivity |].
    symmetry. cbn [prefix]. destruct (ascii_dec " " c) as [<- | _]; [| reflexivity].
    destruct name as [| d name].
    + cbn [append prefix].
      destruct (ascii_dec "[" " ") as [E | _]; [discriminate | reflexivity].
    + cbn [has_char] in Hname. apply orb_false_iff in Hname. destruct Hname as [Hd _].
      cbn [append prefix].
      destruct (ascii_dec "[" d) as [<- | _]; [discriminate | reflexivity].
Qed.

Lemma zilien_header_unit_of_header (name unit : string) :
  name <> EmptyString -> has_char "[" name = false -> has_char PyStr.newline name = false ->
  unit <> EmptyString -> has_char PyStr.newline unit = false ->
  Zilien.zilien_header_unit (name ++ " [" ++ unit ++ "]") = Some unit.
Proof.
  intros Hname Hbracket Hclean Hunit Hclean'. unfold Zilien.zilien_header_unit.
  rewrite regex_text_clean.
  2:{ rewrite has_char_app, Hclean. simpl. rewrite has_char_app, Hclean'. reflexivity. }
  replace (name ++ " [" ++ unit ++ "]") with ((name ++ " [" ++ unit) ++ "]") at 1
    by (rewrite !append_assoc; reflexivity).
  rewrite endswith_app.
  destruct name as [| c name]; [now elim Hname |].
  simpl in Hbracket. apply orb_false_iff in Hbracket. destruct Hbracket as [_ Hbracket].
  change (String c name ++ " [" ++ unit ++ "]") with (String c (name ++ " [" ++ unit ++ "]")).
  cbn [index]. rewrite (index_bracket name (unit ++ "]") Hbracket).
  cbn [String.length]. rewrite !length_append. cbn [String.length].
  destruct unit as [| u unit]; [now elim Hunit |]. cbn [String.length].
  destruct (Nat.leb_spec (S (String.length name) + 3)
              (S (String.length name + (2 + (S (String.length unit) + 1))) - 1));
    [| lia].
  f_equal.
  replace (S (String.length name + (2 + (S (String.length unit) + 1))) - 1
           - (S (String.length name) + 2))
    with (String.length (String u unit)) by (cbn [String.length]; lia).
  replace (String c (name ++ " [" ++ String u unit ++ "]"))
    with ((String c name ++ " [") ++ String u unit ++ "]")
    by (simpl; rewrite !append_assoc; reflexivity).
  replace (S (String.length name) + 2) with (String.length (String c name ++ " [") + 0)
    by (rewrite length_append; simpl; lia).
  rewrite substring_skip. apply substring_0_app.
Qed.

(** A column has a standard name only under a mass header. *)
Lemma form_names_standard_name_inv (series_header column_header name unit std : string) :
  Zilien._form_names_and_unit series_header column_header = (name, unit, Some std) ->
  PyStr.mem column_header ["Time [s]"; "time/s"] = false /\
  exists mass,
    Zilien.to_mass series_header = Some mass /\
    std = "M" ++ mass /\
    name = "M" ++ mass ++ " [" ++ unit ++ "]".
Proof.
  unfold Zilien._form_names_and_unit.
  destruct (PyStr.mem column_header _); [intros H; discriminate |].
  destruct (existsb _ _); [intros H; discriminate |].
  destruct (Zilien.to_mass series_header) as [mass |]; [| intros H; discriminate].
  intros H. injection H as <- <- <-. split; [reflexivity |].
  exists mass. repeat split; reflexivity.
Qed.

End HeaderFacts.

(** X6.  [to_mass] accepts exactly the headers [C<digits>M<digits>], with
    or without one line end after them, and returns the digits after the
    [M]. *)
Theorem to_mass_accepts_mass_headers :
  forall s mass : string,
    Zilien.to_mass s = Some mass <->
    exists channel,
      digits channel /\ digits mass /\
      (s = ("C" ++ channel ++ "M" ++ mass)%string \/
       s = ("C" ++ channel ++ "M" ++ mass ++ String PyStr.newline EmptyString)%string).
Proof.
  intros s mass. split.
  - apply to_mass_inv.
  - intros [channel [Hc [Hm [-> | ->]]]].
    + rewrite <- (append_nil_r mass) at 1. apply to_mass_of_header; auto.
    + apply to_mass_of_header; auto.
Qed.

(** X7.  [_form_names_and_unit] gives a standard name to the value columns
    of the mass series and to no other column: for a series header
    [C<digits>M<mass>] every column but the time column is named
    [M<mass> [<unit>]] and has the standard name [M<mass>] (a header that
    [to_mass] accepts never counts as a setpoint or value header); and a
    column with a standard name is such a column. *)
Theorem form_names_standard_name_of_mass :
  forall series_header column_header : string,
    (forall mass,
        Zilien.to_mass series_header = Some mass ->
        PyStr.mem column_header ["Time [s]"; "time/s"]%string = false ->
        exists unit,
          Zilien._form_names_and_unit series_header column_header
          = (("M" ++ mass ++ " [" ++ unit ++ "]")%string, unit, Some ("M" ++ mass)%string)) /\
    (forall name unit standard_name,
        Zilien._form_names_and_unit series_header column_header
        = (name, unit, Some standard_name) ->
        PyStr.mem column_header ["Time [s]"; "time/s"]%string = false /\
        exists mass,
          Zilien.to_mass series_header = Some mass /\
          standard_name = ("M" ++ mass)%string /\
          name = ("M" ++ mass ++ " [" ++ unit ++ "]")%string).
Proof.
  intros sh ch. split.
  - intros mass Hmass Htime. unfold Zilien._form_names_and_unit.
    rewrite Htime, (to_mass_not_setpoint sh mass Hmass), Hmass.
    eexists. reflexivity.
  - intros name unit std. apply form_names_standard_name_inv.
Qed.

Lemma form_names_standard_name_of_mass_witness :
  Zilien.to_mass "C0M18" = Some "18"%string /\
  PyStr.mem "M18-H2O [A]" ["Time [s]"; "time/s"]%string = false /\
  (exists unit,
      Zilien._form_names_and_unit "C0M18" "M18-H2O [A]"
      = (("M" ++ "18" ++ " [" ++ unit ++ "]")%string, unit, Some ("M" ++ "18")%string)) /\
  Zilien._form_names_and_unit "C0M18" "M18-H2O [A]"
  = ("M18 [A]"%string, "A"%string, Some "M18"%string) /\
  PyStr.mem "M18-H2O [A]" ["Time [s]"; "time/s"]%string = false /\
  exists mass,
    Zilien.to_mass "C0M18" = Some mass /\
    "M18"%string = ("M" ++ mass)%string /\
    "M18 [A]"%string = ("M" ++ mass ++ " [" ++ "A" ++ "]")%string.
Proof.
  split; [reflexivity |]. split; [reflexivity |]. split.
  - exact (proj1 (form_names_standard_name_of_mass "C0M18" "M18-H2O [A]")
                 "18"%string eq_refl eq_refl).
  - split; [reflexivity |].
    exact (proj2 (form_names_standard_name_of_mass "C0M18" "M18-H2O [A]")
                 "M18 [A]"%string "A"%string "M18"%string eq_refl).
Defined.

(** X8.  For a column header [<name> [<unit>]] ([name] not empty and
    without an opening bracket, [unit] not empty, no line end in either)
    [_form_names_and_unit] returns the unit [<unit>], under every series
    header. *)
Theorem form_names_unit_of_header :
  forall series_header name unit : string,
    name <> EmptyString -> has_char "[" name = false ->
    has_char PyStr.newline name = false ->
    unit <> EmptyString -> has_char PyStr.newline unit = false ->
    snd (fst (Zilien._form_names_and_unit series_header (name ++ " [" ++ unit ++ "]")%string))
    = unit.
Proof.
  intros sh name unit Hname Hbracket Hclean Hunit Hclean'.
  pose proof (zilien_header_unit_of_header name unit Hname Hbracket Hclean Hunit Hclean')
    as Hre.
  unfold Zilien._form_names_and_unit.
  destruct (PyStr.mem _ _) eqn:Htime.
  - unfold PyStr.mem in Htime. cbn [existsb] in Htime. rewrite orb_false_r in Htime.
    apply orb_true_iff in Htime. destruct Htime as [E | E]; apply String.eqb_eq in E;
      rewrite E in Hre; vm_compute in Hre; [| discriminate].
    injection Hre as <-. reflexivity.
  - rewrite Hre. destruct (existsb _ _); [reflexivity |].
    destruct (Zilien.to_mass sh); reflexivity.
Qed.

Lemma form_names_unit_of_header_witness :
  "Pressure"%string <> EmptyString /\ has_char "[" "Pressure" = false /\
  has_char PyStr.newline "Pressure" = false /\
  "mbar"%string <> EmptyString /\ has_char PyStr.newline "mbar" = false /\
  snd (fst (Zilien._form_names_and_unit "Iongauge value"
              ("Pressure" ++ " [" ++ "mbar" ++ "]")%string))
  = "mbar"%string.
Proof.
  split; [discriminate |]. split; [reflexivity |]. split; [reflexivity |].
  split; [discriminate |]. split; [reflexivity |].
  apply (form_names_unit_of_header "Iongauge value" "Pressure" "mbar");
    (discriminate || reflexivity).
Defined.

Section MetadataLineFacts.

Import PyExn PyDict ZilienData.
Context {P : Platform}.
Local Open Scope string_scope.

Lemma tab_is_not_newline : Ascii.eqb PyStr.tab PyStr.newline = false.
Proof. reflexivity. Qed.

(** The cells of a line written by [tsv_line] are the cells it was
    written from. *)
Lemma tsv_line_cells (cells : list string) :
  cells <> [] ->
  (forall c, In c cells -> cell c) ->
  PyStr.split PyStr.tab (PyStr.strip_newline (ZilienExample.tsv_line cells)) = cells.
Proof.
  intros Hne Hcells. unfold ZilienExample.tsv_line.
  rewrite strip_newline_line.
  - apply split_join; [exact Hne |]. intros c Hc. apply (Hcells c Hc).
  - apply join_has_char; [apply tab_is_not_newline |].
    intros c Hc. apply (Hcells c Hc).
Qed.

Lemma well_typed_line_empty : ~ well_typed_line EmptyString.
Proof.
  intros (name & comment & attach & ty & value & H & _). discriminate.
Qed.

Lemma readline_skipn (handle rest : list string) (line : string) :
  Zilien.readline handle = (line, rest) -> line = line_at handle 0 /\ rest = skipn 1 handle.
Proof.
  destruct handle; simpl; intros H; injection H as <- <-; split; reflexivity.
Qed.

Lemma line_at_skipn (handle : list string) (k i : nat) :
  line_at (skipn k handle) i = line_at handle (k + i).
Proof. unfold line_at. apply nth_skipn. Qed.

End MetadataLineFacts.

(** X9.  A metadata line written from five cells (texts without tab and
    line end) is parsed back into them: the item is named
    [<attach_to_series>_<name>], or [<name>] when it is attached to no
    series; a [string] value comes back as it is, a [bool] value as
    whether it is the text [true], and an [int] or [double] value as what
    [int()] or [float()] read from it. *)
Theorem parse_metadata_line_round_trip :
  forall (P : ZilienData.Platform) (name comment attach_to_series value : string),
    cell name -> cell comment -> cell attach_to_series -> cell value ->
    Zilien.parse_metadata_line
      (ZilienExample.tsv_line [name; comment; attach_to_series; "string"; value]%string)
    = inr (full_name attach_to_series name, ZilienData.MStr value) /\
    Zilien.parse_metadata_line
      (ZilienExample.tsv_line [name; comment; attach_to_series; "bool"; value]%string)
    = inr (full_name attach_to_series name, ZilienData.MBool (String.eqb value "true")) /\
    (forall z, ZilienData.py_int value = Some z ->
               Zilien.parse_metadata_line
                 (ZilienExample.tsv_line [name; comment; attach_to_series; "int"; value]%string)
               = inr (full_name attach_to_series name, ZilienData.MInt z)) /\
    (forall x, ZilienData.py_float value = Some x ->
               Zilien.parse_metadata_line
                 (ZilienExample.tsv_line
                    [name; comment; attach_to_series; "double"; value]%string)
               = inr (full_name attach_to_series name, ZilienData.MFloat x)).
Proof.
  intros P name comment attach value Hname Hcomment Hattach Hvalue.
  assert (Hcells : forall ty, cell ty ->
             PyStr.split PyStr.tab
               (PyStr.strip_newline (ZilienExample.tsv_line [name; comment; attach; ty; value]))
             = [name; comment; attach; ty; value]).
  { intros ty Hty. apply tsv_line_cells; [discriminate |].
    intros c [<- | [<- | [<- | [<- | [<- | []]]]]]; assumption. }
  unfold Zilien.parse_metadata_line, full_name.
  split; [| split; [| split]].
  - rewrite Hcells by (split; reflexivity). reflexivity.
  - rewrite Hcells by (split; reflexivity). reflexivity.
  - intros z Hz. rewrite Hcells by (split; reflexivity). cbn. rewrite Hz. reflexivity.
  - intros x Hx. rewrite Hcells by (split; reflexivity). cbn. rewrite Hx. reflexivity.
Qed.

(** X10.  A line that does not hold exactly five tab-separated fields,
    once its line ends are stripped, makes [parse_metadata_line] raise
    [ValueError]; so does the empty line a file handle reads at the end of
    the file. *)
Theorem parse_metadata_line_needs_five_fields :
  forall (P : ZilienData.Platform) (line : string),
    count_char PyStr.tab (PyStr.strip_newline line) <> 4 ->
    exists msg, Zilien.parse_metadata_line line = inl (PyExn.ValueError msg).
Proof.
  intros P line Hcount. unfold Zilien.parse_metadata_line.
  pose proof (split_length PyStr.tab (PyStr.strip_newline line)) as Hlen.
  destruct (PyStr.split PyStr.tab (PyStr.strip_newline line))
    as [| name [| comment [| attach [| ty [| value [| extra more]]]]]];
    try (eexists; reflexivity).
  simpl in Hlen. injection Hlen as Hlen. congruence.
Qed.

(** X11.  [_read_metadata] returns only on a file that holds every
    metadata line it announces: it reads the four fixed lines, then as many
    more as [num_header_lines] (as the fourth line leaves it) counts beyond
    four, and no line it reads lies past the end of the file.  The series
    headers are the cells of the line after the metadata, the column
    headers those of the next line, the data is what follows that line, and
    the metadata has an entry [file_format_version]. *)
Theorem read_metadata_layout :
  forall (P : ZilienData.Platform) (lines series_headers column_headers rest : list string)
         (metadata : PyDict.dict (ZilienData.pyval ZilienData.float)),
    Zilien._read_metadata lines = inr (metadata, series_headers, column_headers, rest) ->
    exists (n : nat) (first : PyDict.dict (ZilienData.pyval ZilienData.float)),
      4 <= n <= length lines /\
      Zilien.read_metadata_lines 4 lines [] = inr (skipn 4 lines, first) /\
      Zilien.header_lines_left first 4 = inr (n - 4) /\
      series_headers = PyStr.split PyStr.tab (PyStr.strip_newline (line_at lines n)) /\
      column_headers = PyStr.split PyStr.tab (PyStr.strip_newline (line_at lines (n + 1))) /\
      rest = skipn (n + 2) lines /\
      PyDict.contains metadata "file_format_version" = true.
Proof.
  intros P lines sh ch rest metadata. unfold Zilien._read_metadata. intros H.
  destruct (Zilien.read_metadata_lines 4 lines []) as [e | [handle1 md1]] eqn:H1;
    [discriminate |].
  cbn [PyExn.bind] in H.
  destruct (Zilien.header_lines_left md1 (Z.of_nat 4)) as [e | left] eqn:Hleft;
    [discriminate |].
  cbn [PyExn.bind] in H.
  destruct (Zilien.read_metadata_lines left handle1 md1) as [e | [handle2 md2]] eqn:H2;
    [discriminate |].
  cbn [PyExn.bind] in H.
  destruct (Zilien.readline handle2) as [line1 handle3] eqn:Hl1.
  destruct (Zilien.readline handle3) as [line2 handle4] eqn:Hl2.
  injection H as <- <- <- <-.
  pose proof H1 as H1'. apply read_metadata_lines_ok in H1'. destruct H1' as [-> Hfirst].
  pose proof H2 as H2'. apply read_metadata_lines_ok in H2'. destruct H2' as [-> Hmore].
  apply readline_skipn in Hl1. destruct Hl1 as [-> ->].
  apply readline_skipn in Hl2. destruct Hl2 as [-> ->].
  rewrite !skipn_skipn, !line_at_skipn.
  exists (4 + left), md1.
  assert (Hlast : well_typed_line (line_at lines (4 + left - 1))).
  { destruct left as [| left].
    - apply (Hfirst 3). lia.
    - specialize (Hmore left ltac:(lia)). rewrite line_at_skipn in Hmore.
      replace (4 + S left - 1) with (4 + left) by lia. exact Hmore. }
  split; [split; [lia |] |].
  { destruct (Nat.le_gt_cases (4 + left) (length lines)) as [Hle | Hgt]; [exact Hle |].
    exfalso. unfold line_at in Hlast. rewrite nth_overflow in Hlast by lia.
    exact (well_typed_line_empty Hlast). }
  split; [reflexivity |].
  split; [change (Z.of_nat 4) with 4%Z in Hleft; rewrite Hleft; f_equal; lia |].
  split; [f_equal; f_equal; f_equal; lia |].
  split; [f_equal; f_equal; f_equal; lia |].
  split; [f_equal; lia |].
  destruct (PyDict.contains md2 "file_format_version") eqn:Hffv; simpl.
  - exact Hffv.
  - unfold PyDict.contains. rewrite get_set_same. reflexivity.
Qed.

Section MetadataDemo.

Existing Instance ZilienExample.platform.

Lemma parse_metadata_line_round_trip_witness :
  cell "pot_count" /\ cell EmptyString /\ cell "pot" /\ cell "3" /\
  Zilien.parse_metadata_line
    (ZilienExample.tsv_line ["pot_count"; EmptyString; "pot"; "string"; "3"]%string)
  = inr (full_name "pot" "pot_count", ZilienData.MStr "3") /\
  Zilien.parse_metadata_line
    (ZilienExample.tsv_line ["pot_count"; EmptyString; "pot"; "bool"; "3"]%string)
  = inr (full_name "pot" "pot_count", ZilienData.MBool (String.eqb "3" "true")) /\
  (forall z, ZilienData.py_int "3" = Some z ->
             Zilien.parse_metadata_line
               (ZilienExample.tsv_line ["pot_count"; EmptyString; "pot"; "int"; "3"]%string)
             = inr (full_name "pot" "pot_count", ZilienData.MInt z)) /\
  (forall x, ZilienData.py_float "3" = Some x ->
             Zilien.parse_metadata_line
               (ZilienExample.tsv_line ["pot_count"; EmptyString; "pot"; "double"; "3"]%string)
             = inr (full_name "pot" "pot_count", ZilienData.MFloat x)).
Proof.
  assert (H1 : cell "pot_count") by (split; reflexivity).
  assert (H2 : cell EmptyString) by (split; reflexivity).
  assert (H3 : cell "pot") by (split; reflexivity).
  assert (H4 : cell "3") by (split; reflexivity).
  split; [exact H1 |]. split; [exact H2 |]. split; [exact H3 |]. split; [exact H4 |].
  exact (parse_metadata_line_round_trip ZilienExample.platform "pot_count" EmptyString "pot" "3"
           H1 H2 H3 H4).
Defined.

Lemma parse_metadata_line_needs_five_fields_witness :
  count_char PyStr.tab (PyStr.strip_newline EmptyString) <> 4 /\
  exists msg, Zilien.parse_metadata_line EmptyString = inl (PyExn.ValueError msg).
Proof.
  assert (H : count_char PyStr.tab (PyStr.strip_newline EmptyString) <> 4) by discriminate.
  split; [exact H |].
  exact (parse_metadata_line_needs_five_fields ZilienExample.platform EmptyString H).
Defined.

Lemma read_metadata_layout_witness :
  exists metadata series_headers column_headers rest,
    Zilien._read_metadata ZilienExample.demo_file
    = inr (metadata, series_headers, column_headers, rest) /\
    exists (n : nat) (first : PyDict.dict (ZilienData.pyval ZilienData.float)),
      4 <= n <= length ZilienExample.demo_file /\
      Zilien.read_metadata_lines 4 ZilienExample.demo_file []
      = inr (skipn 4 ZilienExample.demo_file, first) /\
      Zilien.header_lines_left first 4 = inr (n - 4) /\
      series_headers
      = PyStr.split PyStr.tab (PyStr.strip_newline (line_at ZilienExample.demo_file n)) /\
      column_headers
      = PyStr.split PyStr.tab
          (PyStr.strip_newline (line_at ZilienExample.demo_file (n + 1))) /\
      rest = skipn (n + 2) ZilienExample.demo_file /\
      PyDict.contains metadata "file_format_version" = true.
Proof.
  assert (H : exists metadata series_headers column_headers rest,
             Zilien._read_metadata ZilienExample.demo_file
             = inr (metadata, series_headers, column_headers, rest)).
  { do 4 eexists. vm_compute. reflexivity. }
  destruct H as (metadata & series_headers & column_headers & rest & H).
  exists metadata, series_headers, column_headers, rest. split; [exact H |].
  exact (read_metadata_layout ZilienExample.platform ZilienExample.demo_file
           series_headers column_headers rest metadata H).
Defined.

End MetadataDemo.

(* ===================================================================== *)
(** * Properties of the series of a block *)
(* ===================================================================== *)

Lemma for_each_invariant {A S : Type} (Inv : S -> Prop) (body : S -> A -> PyExn.result S)
      (items : list A) :
  (forall acc x acc', In x items -> Inv acc -> body acc x = inr acc' -> Inv acc') ->
  forall acc acc', Inv acc -> PyExn.for_each items body acc = inr acc' -> Inv acc'.
Proof.
  induction items as [| x items IH]; intros Hstep acc acc' Hinv; simpl.
  - intros H. injection H as <-. exact Hinv.
  - destruct (body acc x) as [e | acc1] eqn:E; [discriminate |]. simpl.
    apply IH.
    + intros a y a' Hy. apply Hstep. now right.
    + eapply Hstep; [now left | exact Hinv | exact E].
Qed.

Section SeriesFacts.

Import PyExn PyDict ZilienData.
Context {P : Platform}.

Lemma last_time_app (c : option (series float)) (l : list (series float)) (s : series float) :
  last_time c (l ++ [s])
  = match s with
    | TimeSeries _ _ _ _ => Some s
    | _ => last_time c l
    end.
Proof.
  revert c. induction l as [| x l IH]; intros c; simpl.
  - destruct s; reflexivity.
  - destruct x; apply IH.
Qed.

Lemma time_ordered_app (c : option (series float)) (l : list (series float))
      (s : series float) :
  time_ordered c l ->
  match s with
  | TimeSeries _ _ _ _ => True
  | ValueSeries _ _ _ tseries => last_time c l = Some tseries
  | DataSeries _ _ _ => False
  end ->
  time_ordered c (l ++ [s]).
Proof.
  revert c. induction l as [| x l IH]; intros c Hl Hs; simpl.
  - destruct s; simpl in *; auto.
  - destruct x; simpl in *.
    + contradiction.
    + apply IH; assumption.
    + destruct Hl as [Hc Hl]. split; [exact Hc |]. apply IH; assumption.
Qed.

Lemma create_series_step_inv (self : reader float) (names_and_units : Zilien.names_and_units_t)
      (data : Np.matrix float)
      (acc acc' : list (series float) * option (series float)) (item : nat * string) :
  series_loop_inv self acc ->
  Zilien.create_series_step self names_and_units data acc item = inr acc' ->
  series_loop_inv self acc' /\
  length (fst acc') <= S (length (fst acc)).
Proof.
  destruct acc as [objs ts], item as [j header]. intros (Hord & Hlast & Hstamp).
  unfold Zilien.create_series_step. simpl in Hord, Hlast, Hstamp.
  destruct (PyStr.mem header _).
  { intros H. injection H as <-. split; [repeat split; assumption | simpl; lia]. }
  destruct (Np.column j data) as [e | col]; [discriminate |]. cbn [bind].
  destruct (forallb isnan col).
  { intros H. injection H as <-. split; [repeat split; assumption | simpl; lia]. }
  destruct (nth_error names_and_units j) as [[[series_name unit] standard_name] |];
    [| discriminate].
  destruct (PyStr.mem header _).
  - intros H. injection H as <-. split; [| simpl; rewrite length_app; simpl; lia].
    split; [| split]; simpl.
    + apply time_ordered_app; [exact Hord | exact I].
    + apply last_time_app.
    + intros name unit_name d tstamp Hin. apply in_app_or in Hin.
      destruct Hin as [Hin | [E | []]].
      * exact (Hstamp _ _ _ _ Hin).
      * now injection E.
  - destruct ts as [tseries |]; [| discriminate].
    intros H. injection H as <-. split; [| simpl; rewrite length_app; simpl; lia].
    split; [| split]; simpl.
    + apply time_ordered_app; [exact Hord | exact Hlast].
    + rewrite last_time_app. exact Hlast.
    + intros name unit_name d tstamp Hin. apply in_app_or in Hin.
      destruct Hin as [Hin | [E | []]].
      * exact (Hstamp _ _ _ _ Hin).
      * discriminate.
Qed.

Lemma create_series_loop_inv (self : reader float) (names_and_units : Zilien.names_and_units_t)
      (data : Np.matrix float) (items : list (nat * string)) :
  forall acc acc',
    series_loop_inv self acc ->
    for_each items (Zilien.create_series_step self names_and_units data) acc = inr acc' ->
    series_loop_inv self acc' /\ length (fst acc') <= length (fst acc) + length items.
Proof.
  induction items as [| item items IH]; intros acc acc' Hinv; simpl.
  - intros H. injection H as <-. split; [exact Hinv | lia].
  - destruct (Zilien.create_series_step self names_and_units data acc item)
      as [e | acc1] eqn:E; [discriminate |]. cbn [bind].
    destruct (create_series_step_inv self names_and_units data acc acc1 item Hinv E)
      as [Hinv1 Hlen1].
    intros H. destruct (IH acc1 acc' Hinv1 H) as [Hinv' Hlen']. split; [exact Hinv' | lia].
Qed.

(** With no row every column is passed over. *)
Lemma create_series_loop_no_rows (self : reader float)
      (names_and_units : Zilien.names_and_units_t) (ncols : nat) (headers : list string) :
  forall (offset : nat) (acc : list (series float) * option (series float)),
    offset + length headers <= ncols ->
    for_each (combine (seq offset (length headers)) headers)
             (Zilien.create_series_step self names_and_units (Np.mk_matrix ncols []))
             acc
    = inr acc.
Proof.
  induction headers as [| h headers IH]; intros offset acc Hlen; [reflexivity |].
  cbn [length seq combine for_each]. cbn [length] in Hlen.
  assert (Hstep : Zilien.create_series_step self names_and_units (Np.mk_matrix ncols [])
                    acc (offset, h) = inr acc).
  { unfold Zilien.create_series_step. destruct acc as [objs ts].
    destruct (PyStr.mem h _); [reflexivity |].
    unfold Np.column. cbn [Np.ncols Np.rows].
    destruct (Nat.ltb_spec offset ncols); [| lia]. reflexivity. }
  rewrite Hstep. cbn [bind]. apply IH. lia.
Qed.

End SeriesFacts.

(** X12.  The series [_create_series_objects] returns for the rows of a
    block are TimeSeries and ValueSeries, the first of them a TimeSeries;
    every ValueSeries refers to the TimeSeries made nearest before it,
    every TimeSeries carries the time stamp of the reader; and there are
    no more of them than columns. *)
Theorem create_series_objects_time_ordered :
  forall (P : ZilienData.Platform) (self : ZilienData.reader ZilienData.float)
         (column_headers : list string) (names_and_units : Zilien.names_and_units_t)
         (data_rows_split : Np.matrix ZilienData.float)
         (series_objects : list (ZilienData.series ZilienData.float)),
    Zilien._create_series_objects self column_headers names_and_units data_rows_split
    = inr series_objects ->
    time_ordered None series_objects /\
    (forall first, hd_error series_objects = Some first ->
                   exists name unit_name data,
                     first = ZilienData.TimeSeries name unit_name data
                                                   (ZilienData._timestamp self)) /\
    (forall name unit_name data tstamp,
        In (ZilienData.TimeSeries name unit_name data tstamp) series_objects ->
        tstamp = ZilienData._timestamp self) /\
    length series_objects <= length column_headers.
Proof.
  intros P self hs nu data objs. unfold Zilien._create_series_objects.
  destruct (PyExn.for_each _ _ _) as [e | [objs' ts]] eqn:E; [discriminate |].
  cbn [PyExn.bind]. intros H. injection H as <-.
  destruct (create_series_loop_inv self nu data (combine (seq 0 (length hs)) hs)
              ([], None) (objs', ts)) as [Hinv Hlen].
  { repeat split; simpl; auto. intros ? ? ? ? []. }
  { exact E. }
  destruct Hinv as (Hord & _ & Hstamp). simpl in Hord, Hstamp, Hlen.
  split; [exact Hord |]. split; [| split; [exact Hstamp |]].
  - intros first Hfirst. destruct objs' as [| s objs']; [discriminate |].
    injection Hfirst as ->. destruct first as [? ? ? | name unit_name d tstamp | ? ? ? ?].
    + contradiction.
    + exists name, unit_name, d. f_equal. apply (Hstamp name unit_name d). now left.
    + simpl in Hord. destruct Hord as [Hnone _]. discriminate.
  - rewrite length_combine, length_seq, Nat.min_id in Hlen. exact Hlen.
Qed.

(** X13.  A block with no row to read, which is what a count of 0 in the
    metadata leaves, gives no series and raises nothing, also when a value
    column stands before the time column; its mass aliases are formed all
    the same.  (The header cells must not outnumber the data columns.) *)
Theorem zilien_dataset_part_without_rows :
  forall (P : ZilienData.Platform) (self : ZilienData.reader ZilienData.float)
         (metadata : PyDict.dict (ZilienData.pyval ZilienData.float))
         (series_header : string) (column_headers : list string)
         (data_columns_split : Np.matrix ZilienData.float),
    ZilienData._metadata self = Some metadata ->
    PyDict.get metadata (series_header ++ "_" ++ series_header ++ "_count")%string
    = Some (ZilienData.MInt 0) ->
    length column_headers <= Np.ncols data_columns_split ->
    Zilien._zilien_dataset_part self series_header column_headers data_columns_split
    = inr ([], Zilien.block_aliases
                 (map (Zilien._form_names_and_unit series_header) column_headers)).
Proof.
  intros P self metadata sh hs data Hmeta Hcount Hlen.
  unfold Zilien._zilien_dataset_part. rewrite Hmeta. cbn [Zilien.attribute PyExn.bind PyExn.ret].
  rewrite Hcount. cbn [Zilien.rows_to_count PyExn.bind PyExn.ret].
  unfold Zilien._create_series_objects, Np.rows_to_int, Np.slice_to_int.
  cbn [Z.leb Z.compare Z.to_nat firstn].
  rewrite (create_series_loop_no_rows self _ (Np.ncols data) hs 0 ([], None)) by exact Hlen.
  reflexivity.
Qed.

(* ===================================================================== *)
(** * Properties of the alias table and of the class of a measurement *)
(* ===================================================================== *)

Section KeyFacts.

Import PyDict.
Context {V : Type}.

Lemma get_in_keys (d : dict V) (k : string) (v : V) :
  get d k = Some v -> In k (map fst d).
Proof.
  induction d as [| [k0 v0] d IH]; simpl; [discriminate |].
  destruct (String.eqb_spec k0 k) as [-> | _]; [now left | right; auto].
Qed.

Lemma get_none_keys (d : dict V) (k : string) :
  get d k = None -> ~ In k (map fst d).
Proof.
  induction d as [| [k0 v0] d IH]; simpl; [intros _ [] |].
  destruct (String.eqb_spec k0 k) as [-> | Hne]; [discriminate |].
  intros H [E | Hin]; [now elim Hne | exact (IH H Hin)].
Qed.

Lemma set_keys (d : dict V) (k k' : string) (v : V) :
  In k' (map fst (set d k v)) -> k' = k \/ In k' (map fst d).
Proof.
  induction d as [| [k0 v0] d IH]; simpl.
  - intros [<- | []]. now left.
  - destruct (String.eqb_spec k0 k) as [-> | _]; simpl.
    + intros [<- | H]; [now left | right; now right].
    + intros [<- | H]; [right; now left |].
      destruct (IH H) as [-> | H']; [now left | right; now right].
Qed.

Lemma set_new (d : dict V) (k : string) (v : V) :
  get d k = None -> set d k v = d ++ [(k, v)].
Proof.
  induction d as [| [k0 v0] d IH]; simpl; [reflexivity |].
  destruct (String.eqb k0 k); [discriminate |]. intros H. now rewrite IH.
Qed.

Lemma update_app (d other more : dict V) :
  update d (other ++ more) = update (update d other) more.
Proof. unfold update. apply fold_left_app. Qed.

(** [d.update(other)] leaves [d] with every item of [other]. *)
Lemma get_update_in (other d : dict V) (k : string) (v : V) :
  NoDup (map fst other) ->
  get other k = Some v ->
  get (update d other) k = Some v.
Proof.
  unfold update. revert d. induction other as [| [k0 v0] other IH]; intros d Hnd H; simpl.
  - discriminate.
  - simpl in H. inversion Hnd as [| ? ? Hnotin Hnd']; subst.
    destruct (String.eqb_spec k0 k) as [-> | Hk].
    + injection H as ->.
      change (fold_left (fun acc kv => set acc (fst kv) (snd kv)) other (set d k v))
        with (update (set d k v) other).
      rewrite get_update_other by (apply get_not_in; exact Hnotin).
      apply get_set_same.
    + apply IH; assumption.
Qed.

End KeyFacts.

Lemma extend_keys (d : PyDict.dict (list string)) (k k' : string) (items : list string) :
  In k' (map fst (PyDict.extend d k items)) -> k' = k \/ In k' (map fst d).
Proof.
  unfold PyDict.extend. destruct (PyDict.get d k); apply set_keys.
Qed.

Lemma append_keys (d : PyDict.dict (list string)) (k k' : string) (item : string) :
  In k' (map fst (PyDict.append d k item)) -> k' = k \/ In k' (map fst d).
Proof.
  unfold PyDict.append. destruct (PyDict.get d k); apply set_keys.
Qed.

(** The keys of the mass aliases of a block are standard names of its
    columns. *)
Lemma block_aliases_keys (names_and_units : Zilien.names_and_units_t) (k : string) :
  In k (map fst (Zilien.block_aliases names_and_units)) ->
  exists name unit, In (name, unit, Some k) names_and_units.
Proof.
  unfold Zilien.block_aliases.
  assert (H : forall (nu : Zilien.names_and_units_t) (d : PyDict.dict (list string)),
             In k (map fst
                     (fold_left
                        (fun aliases (item : string * string * option string) =>
                           let '(series_name, _, standard_name) := item in
                           match standard_name with
                           | Some (String _ _ as standard_name) =>
                               PyDict.append aliases standard_name series_name
                           | Some EmptyString | None => aliases
                           end) nu d)) ->
             In k (map fst d) \/ exists name unit, In (name, unit, Some k) nu).
  { induction nu as [| [[name unit] std] nu IH]; intros d Hk; simpl in Hk; [now left |].
    apply IH in Hk. destruct Hk as [Hk | [n [u Hin]]].
    - destruct std as [[| c std] |]; try (left; exact Hk).
      apply append_keys in Hk. destruct Hk as [-> | Hk]; [| now left].
      right. exists name, unit. now left.
    - right. exists n, u. now right. }
  intros Hk. apply H in Hk. destruct Hk as [[] | Hk]. exact Hk.
Qed.

Lemma fold_extend_keys (part : PyDict.dict (list string)) :
  forall (d : PyDict.dict (list string)) (k : string),
    In k (map fst (fold_left (fun aliases '(standard_name, series_name) =>
                                PyDict.extend aliases standard_name series_name)
                             part d)) ->
    In k (map fst d) \/ In k (map fst part).
Proof.
  induction part as [| [k0 names] part IH]; intros d k Hk; simpl in Hk; [now left |].
  apply IH in Hk. destruct Hk as [Hk | Hk].
  - apply extend_keys in Hk. destruct Hk as [-> | Hk]; [right; now left | now left].
  - right. now right.
Qed.

Section AliasFacts.

Import PyExn PyDict ZilienData.
Context {P : Platform}.

Lemma zilien_dataset_part_aliases (self : reader float) (series_header : string)
      (column_headers : list string) (data : Np.matrix float)
      (column_series : list (series float)) (aliases : dict (list string)) :
  Zilien._zilien_dataset_part self series_header column_headers data
  = inr (column_series, aliases) ->
  aliases = Zilien.block_aliases (map (Zilien._form_names_and_unit series_header)
                                      column_headers).
Proof.
  unfold Zilien._zilien_dataset_part.
  destruct (Zilien.attribute _ _) as [e | metadata]; [discriminate |]. cbn [bind].
  destruct (get metadata _) as [count |]; [| discriminate].
  destruct (Zilien.rows_to_count count data) as [e | rows]; [discriminate |]. cbn [bind].
  destruct (Zilien._create_series_objects _ _ _ _) as [e | cs]; [discriminate |]. cbn [bind].
  intros H. now injection H as _ <-.
Qed.

Lemma block_aliases_mass_keys (series_header : string) (column_headers : list string)
      (k : string) :
  In k (map fst (Zilien.block_aliases
                   (map (Zilien._form_names_and_unit series_header) column_headers))) ->
  mass_name k /\ exists mass, Zilien.to_mass series_header = Some mass.
Proof.
  intros Hk. apply block_aliases_keys in Hk. destruct Hk as [name [unit Hin]].
  apply in_map_iff in Hin. destruct Hin as [ch [Hform _]].
  apply form_names_standard_name_inv in Hform.
  destruct Hform as [_ [mass [Hmass [-> _]]]].
  split; [| now exists mass].
  exists mass. split; [| reflexivity].
  apply to_mass_inv in Hmass. destruct Hmass as [_ [_ [Hd _]]]. exact Hd.
Qed.

Lemma block_aliases_no_mass (series_header : string) (column_headers : list string) :
  Zilien.to_mass series_header = None ->
  Zilien.block_aliases (map (Zilien._form_names_and_unit series_header) column_headers) = [].
Proof.
  intros Hnone.
  destruct (Zilien.block_aliases _) as [| [k names] rest] eqn:E; [reflexivity |].
  assert (Hk : In k (map fst (Zilien.block_aliases
                               (map (Zilien._form_names_and_unit series_header)
                                    column_headers)))).
  { rewrite E. now left. }
  apply block_aliases_mass_keys in Hk. destruct Hk as [_ [mass Hmass]]. congruence.
Qed.

(** One block leaves the alias table with names of masses only, and as it
    is when the class reads no mass block. *)
Lemma form_series_step_aliases (self : reader float)
      (acc acc' : list (series float) * dict (list string))
      (item : string * (option nat * option nat)) :
  Zilien.form_series_step self acc item = inr acc' ->
  (forall k, In k (map fst (snd acc')) -> In k (map fst (snd acc)) \/ mass_name k) /\
  (forall cls, _cls self = Some cls -> issubclass cls MSMeasurement = false ->
               snd acc' = snd acc).
Proof.
  destruct acc as [series aliases], item as [sh [b e]].
  unfold Zilien.form_series_step.
  destruct (_cls self) as [cls |]; [| discriminate]. cbn [Zilien.attribute bind ret].
  destruct (negb (issubclass cls ECMeasurement) && _).
  { intros H. injection H as <-. split; [intros k Hk; now left | reflexivity]. }
  destruct (negb (issubclass cls MSMeasurement)
            && match Zilien.to_mass sh with Some _ => true | None => false end) eqn:Hskip.
  { intros H. injection H as <-. split; [intros k Hk; now left | reflexivity]. }
  destruct (Zilien.attribute "_column_headers" _) as [err | chs]; [discriminate |].
  cbn [bind].
  destruct (Zilien.attribute "_data" _) as [err | data]; [discriminate |]. cbn [bind].
  destruct (Np.array_columns b e data) as [err | cols]; [discriminate |]. cbn [bind].
  destruct (String.eqb sh Zilien.BIOLOGIC_SERIES_NAME).
  - destruct (Zilien._biologic_dataset_part _ _ _) as [err | cs]; [discriminate |].
    cbn [bind]. intros H. injection H as <-.
    split; [intros k Hk; now left | reflexivity].
  - destruct (Zilien._zilien_dataset_part _ _ _ _) as [err | [cs part]] eqn:Epart;
      [discriminate |].
    cbn [bind]. intros H. injection H as <-. cbn [snd].
    apply zilien_dataset_part_aliases in Epart. subst part. split.
    + intros k Hk. apply fold_extend_keys in Hk. destruct Hk as [Hk | Hk]; [now left |].
      right. apply block_aliases_mass_keys in Hk. apply Hk.
    + intros cls' Hcls Hms. injection Hcls as <-. rewrite Hms in Hskip. simpl in Hskip.
      destruct (Zilien.to_mass sh) eqn:Hmass; [discriminate |].
      rewrite (block_aliases_no_mass sh _ Hmass). reflexivity.
Qed.

Lemma form_series_aliases (self : reader float) (series : list (series float))
      (aliases : dict (list string)) :
  Zilien._form_series self = inr (series, aliases) ->
  (forall k, In k (map fst aliases) -> mass_name k) /\
  (forall cls, _cls self = Some cls -> issubclass cls MSMeasurement = false ->
               aliases = []).
Proof.
  unfold Zilien._form_series.
  destruct (Zilien.attribute _ _) as [e | shs]; [discriminate |]. cbn [bind].
  destruct (Zilien._get_series_splits shs) as [splits headers].
  intros H.
  apply (for_each_invariant
           (fun acc : list (ZilienData.series float) * dict (list string) =>
              (forall k, In k (map fst (snd acc)) -> mass_name k) /\
              (forall cls, _cls self = Some cls -> issubclass cls MSMeasurement = false ->
                           snd acc = []))
           (Zilien.form_series_step self) _) in H.
  - exact H.
  - intros acc x acc' _ [Hkeys Hempty] Hstep.
    apply form_series_step_aliases in Hstep. destruct Hstep as [Hk He]. split.
    + intros k Hin. destruct (Hk k Hin) as [Hold | Hm]; [exact (Hkeys k Hold) | exact Hm].
    + intros cls Hcls Hms. rewrite (He cls Hcls Hms). exact (Hempty cls Hcls Hms).
  - split; [intros k [] | reflexivity].
Qed.

Lemma global_names_are_no_masses (cls : measurement_class) (general : dict (list string))
      (k : string) (g : list string) :
  Zilien.ZILIEN_ALIASES cls = Some general -> get general k = Some g -> ~ mass_name k.
Proof.
  intros Hgen Hget [mass [_ ->]].
  destruct cls; simpl in Hgen; try discriminate; injection Hgen as <-;
    simpl in Hget; discriminate.
Qed.

(** A read on a reader that has not read yet leaves the path it was given
    in the reader, whether it returns or raises; a read that raises leaves
    the measurement of the reader as it was. *)
Lemma read_fresh_state (path : string) (cls : measurement_class) (name : option string)
      (kwargs : dict (pyobj float)) (w w' : world float)
      (r : result (option (measurement float))) :
  _path_to_file (self_ w) = None ->
  Zilien.read path cls name kwargs w = (r, w') ->
  _path_to_file (self_ w') = Some path /\
  (forall e, r = inl e -> _measurement (self_ w') = _measurement (self_ w)).
Proof.
  intros Hfresh. unfold Zilien.read, Zilien.mbind, Zilien.get_self. simpl.
  rewrite Hfresh.
  destruct (Zilien.resolve_technique cls kwargs) as [cls' kwargs']. simpl.
  unfold Zilien.open_, Zilien.lift. simpl.
  destruct (open_text path) as [lines |]; simpl;
    [| intros H; injection H as <- <-; split; [reflexivity | intros; reflexivity]].
  destruct (Zilien._read_metadata lines) as [e | [[[metadata sh] ch] rest]]; simpl;
    [intros H; injection H as <- <-; split; [reflexivity | intros; reflexivity] |].
  destruct (genfromtxt rest) as [e | data]; simpl;
    [intros H; injection H as <- <-; split; [reflexivity | intros; reflexivity] |].
  destruct (Zilien.start_time metadata (path_stem path)) as [e | ts]; simpl;
    [intros H; injection H as <- <-; split; [reflexivity | intros; reflexivity] |].
  destruct (Zilien._form_series _) as [e | [series block]]; simpl;
    [intros H; injection H as <- <-; split; [reflexivity | intros; reflexivity] |].
  destruct (Zilien.add_general_aliases cls' block) as [e | merged]; simpl;
    [intros H; injection H as <- <-; split; [reflexivity | intros; reflexivity] |].
  intros H. injection H as <- <-. split; [reflexivity | intros e He; discriminate].
Qed.

Lemma resolve_technique_contains (cls : measurement_class) (kwargs : dict (pyobj float))
      (k : string) (v : pyobj float) :
  get kwargs k = Some v ->
  get (snd (Zilien.resolve_technique cls kwargs)) k = Some v.
Proof.
  intros H. unfold Zilien.resolve_technique.
  destruct (contains kwargs "technique") eqn:Ht; [exact H |]. cbn [snd].
  assert (Hk : "technique"%string <> k).
  { intros <-. unfold contains in Ht. rewrite H in Ht. discriminate. }
  repeat match goal with
         | |- context [if ?b then _ else _] => destruct b
         end;
    try exact H; rewrite get_set_other by exact Hk; exact H.
Qed.

Lemma resolve_technique_keys (cls : measurement_class) (kwargs : dict (pyobj float)) :
  NoDup (map fst kwargs) ->
  NoDup (map fst (snd (Zilien.resolve_technique cls kwargs))).
Proof.
  intros Hnd. unfold Zilien.resolve_technique.
  destruct (contains kwargs "technique") eqn:Ht; [exact Hnd |]. cbn [snd].
  assert (Hnew : forall v, NoDup (map fst (set kwargs "technique" v))).
  { intros v. unfold contains in Ht.
    destruct (get kwargs "technique") eqn:Hget; [discriminate |].
    rewrite (set_new kwargs "technique" v Hget), map_app. simpl.
    apply NoDup_app; [exact Hnd | repeat constructor; intros [] |].
    intros k Hin [<- | []]. exact (get_none_keys kwargs _ Hget Hin). }
  repeat match goal with
         | |- context [if ?b then _ else _] => destruct b
         end;
    try exact Hnd; apply Hnew.
Qed.

End AliasFacts.

(** X14.  The alias table [_form_series] returns has entries for names of
    masses only ([M] and digits), which the mass blocks give it; read as a
    class that is no [MSMeasurement], which passes the mass blocks over, it
    is empty. *)
Theorem form_series_aliases_of_masses :
  forall (P : ZilienData.Platform) (self : ZilienData.reader ZilienData.float)
         (series : list (ZilienData.series ZilienData.float))
         (aliases : PyDict.dict (list string)),
    Zilien._form_series self = inr (series, aliases) ->
    (forall k names, PyDict.get aliases k = Some names -> mass_name k) /\
    (forall cls,
        ZilienData._cls self = Some cls ->
        ZilienData.issubclass cls ZilienData.MSMeasurement = false ->
        aliases = []).
Proof.
  intros P self series aliases H.
  destruct (form_series_aliases self series aliases H) as [Hkeys Hempty].
  split; [| exact Hempty].
  intros k names Hget. apply Hkeys. exact (get_in_keys aliases k names Hget).
Qed.

(** X15.  In the alias table of a measurement that a first read returns
    (without an [aliases] keyword argument), no name has entries from both
    sources: every name of the global default table of the class stands for
    its default list, unchanged, and every other name of the table is the
    name of a mass.  Read as a class that is no [MSMeasurement], the table
    is the default table. *)
Theorem read_aliases_by_source :
  forall (P : ZilienData.Platform) (w w' : ZilienData.world ZilienData.float) (path : string)
         (cls : ZilienData.measurement_class) (name : option string)
         (kwargs : PyDict.dict (ZilienData.pyobj ZilienData.float))
         (m : ZilienData.measurement ZilienData.float),
    ZilienData._path_to_file (ZilienData.self_ w) = None ->
    Zilien.read path cls name kwargs w = (inr (Some m), w') ->
    PyDict.get kwargs "aliases" = None ->
    exists general merged,
      Zilien.ZILIEN_ALIASES (ZilienData.m_cls m) = Some general /\
      PyDict.get (ZilienData.m_kwargs m) "aliases" = Some (ZilienData.PAliases merged) /\
      (forall k g, PyDict.get general k = Some g -> PyDict.get merged k = Some g) /\
      (forall k names,
          PyDict.get merged k = Some names ->
          PyDict.get general k = Some names \/
          (PyDict.get general k = None /\ mass_name k)) /\
      (ZilienData.issubclass (ZilienData.m_cls m) ZilienData.MSMeasurement = false ->
       forall k, PyDict.get merged k = PyDict.get general k).
Proof.
  intros P w w' path cls name kwargs m Hfresh Hread Hkw.
  destruct (read_fresh_inv path cls name kwargs w w' (Some m) Hfresh Hread)
    as (lines & metadata & sh & ch & rest & data & ts & series & block & merged
        & _ & _ & _ & _ & Hform & Hmerge & Hm & _).
  injection Hm as ->.
  destruct (add_general_aliases_spec _ _ _ Hmerge) as [general [Hgen Hget]].
  destruct (form_series_aliases _ series block Hform) as [Hkeys Hempty].
  assert (Hblock : forall k g, PyDict.get general k = Some g -> entries block k = []).
  { intros k g Hg. unfold entries.
    destruct (PyDict.get block k) as [names |] eqn:Hb; [| reflexivity].
    exfalso. apply (global_names_are_no_masses _ general k g Hgen Hg).
    apply Hkeys. exact (get_in_keys block k names Hb). }
  exists general, merged. cbn [ZilienData.m_cls ZilienData.m_kwargs].
  split; [exact Hgen |]. split; [| split; [| split]].
  - rewrite get_update_other.
    + reflexivity.
    + rewrite resolve_technique_keeps_aliases. exact Hkw.
  - intros k g Hg. rewrite Hget, Hg, (Hblock k g Hg). reflexivity.
  - intros k names Hk. rewrite Hget in Hk.
    destruct (PyDict.get general k) as [g |] eqn:Hg.
    + left. rewrite (Hblock k g Hg) in Hk. exact Hk.
    + right. split; [reflexivity |]. apply Hkeys. exact (get_in_keys block k names Hk).
  - intros Hms k. rewrite Hget.
    rewrite (Hempty _ eq_refl Hms).
    destruct (PyDict.get general k); reflexivity.
Qed.

(** X16.  A first read that raises, whatever the exception, leaves the
    path in the reader: every later call of [read] on this reader, whatever
    its arguments, raises nothing, opens no file, prints the message about
    the file already read, and returns the measurement the reader held
    before, which is [None] for a reader fresh from [__init__]. *)
Theorem read_after_failed_read :
  forall (P : ZilienData.Platform) (w w1 : ZilienData.world ZilienData.float) (path : string)
         (cls : ZilienData.measurement_class) (name : option string)
         (kwargs : PyDict.dict (ZilienData.pyobj ZilienData.float)) (e : PyExn.exn),
    ZilienData._path_to_file (ZilienData.self_ w) = None ->
    Zilien.read path cls name kwargs w = (inl e, w1) ->
    forall (path' : string) (cls' : ZilienData.measurement_class) (name' : option string)
           (kwargs' : PyDict.dict (ZilienData.pyobj ZilienData.float)),
    exists text,
      Zilien.read path' cls' name' kwargs' w1
      = (inr (ZilienData._measurement (ZilienData.self_ w)),
         ZilienData.mk_world (ZilienData.self_ w1) (ZilienData.stdout w1 ++ [text])
                             (ZilienData.opened w1)).
Proof.
  intros P w w1 path cls name kwargs e Hfresh Hread path' cls' name' kwargs'.
  destruct (read_fresh_state path cls name kwargs w w1 (inl e) Hfresh Hread)
    as [Hpath Hkeep].
  eexists. unfold Zilien.read, Zilien.mbind, Zilien.get_self. simpl.
  rewrite Hpath. simpl. rewrite (Hkeep e eq_refl). reflexivity.
Qed.

(** X17.  A measurement that a first read returns is of one of the three
    classes of [ZILIEN_ALIASES]: [ECMSMeasurement], [ECMeasurement] or
    [MSMeasurement]; a read as another class (but [Measurement], which
    stands for [ECMSMeasurement]) never returns.  With a keyword [technique]
    of [EC-MS], [EC] or [MS] the class is the one of that name, whatever
    class was asked for; without the keyword the class is the one asked
    for, and the measurement is given the [technique] of its class. *)
Theorem read_returns_zilien_class :
  forall (P : ZilienData.Platform) (w w' : ZilienData.world ZilienData.float) (path : string)
         (cls : ZilienData.measurement_class) (name : option string)
         (kwargs : PyDict.dict (ZilienData.pyobj ZilienData.float))
         (m : ZilienData.measurement ZilienData.float),
    ZilienData._path_to_file (ZilienData.self_ w) = None ->
    Zilien.read path cls name kwargs w = (inr (Some m), w') ->
    (exists technique, technique_of (ZilienData.m_cls m) = Some technique) /\
    (forall technique,
        PyDict.get kwargs "technique" = Some (ZilienData.PStr technique) ->
        technique = "EC-MS"%string \/ technique = "EC"%string \/ technique = "MS"%string ->
        technique_of (ZilienData.m_cls m) = Some technique) /\
    (PyDict.get kwargs "technique" = None ->
     (ZilienData.m_cls m = cls \/
      (cls = ZilienData.Measurement /\ ZilienData.m_cls m = ZilienData.ECMSMeasurement)) /\
     exists technique,
       technique_of (ZilienData.m_cls m) = Some technique /\
       PyDict.get (ZilienData.m_kwargs m) "technique" = Some (ZilienData.PStr technique)).
Proof.
  intros P w w' path cls name kwargs m Hfresh Hread.
  destruct (read_fresh_inv path cls name kwargs w w' (Some m) Hfresh Hread)
    as (lines & metadata & sh & ch & rest & data & ts & series & block & merged
        & _ & _ & _ & _ & _ & Hmerge & Hm & _).
  injection Hm as ->. cbn [ZilienData.m_cls ZilienData.m_kwargs].
  destruct (add_general_aliases_spec _ _ _ Hmerge) as [general [Hgen _]].
  assert (Hclass : exists technique,
             technique_of (fst (Zilien.resolve_technique cls kwargs)) = Some technique).
  { destruct (fst (Zilien.resolve_technique cls kwargs)); simpl in Hgen;
      try discriminate; eexists; reflexivity. }
  split; [exact Hclass |]. split.
  - intros technique Hget Hname. unfold Zilien.resolve_technique, PyDict.contains.
    rewrite Hget. cbn [fst Zilien.is_str].
    destruct Hname as [-> | [-> | ->]]; reflexivity.
  - intros Hnone. revert Hclass. unfold Zilien.resolve_technique, PyDict.contains.
    rewrite Hnone. cbn [fst snd]. intros [technique Htech].
    split.
    + destruct cls; simpl; auto.
    + exists technique. split; [exact Htech |].
      assert (Hset : snd (Zilien.resolve_technique cls kwargs)
                     = PyDict.set kwargs "technique" (ZilienData.PStr technique)).
      { unfold Zilien.resolve_technique, PyDict.contains. rewrite Hnone. cbn [snd].
        destruct cls; simpl in Htech |- *; try discriminate;
          injection Htech as <-; reflexivity. }
      unfold Zilien.resolve_technique, PyDict.contains in Hset. rewrite Hnone in Hset.
      cbn [snd] in Hset. rewrite Hset.
      rewrite (set_new kwargs "technique" _ Hnone), update_app.
      apply get_set_same.
Qed.

(** X18.  [read] hands every keyword argument on to the measurement as it
    was given: in the dict the measurement is constructed from, a key of
    [kwargs] has the value of [kwargs], also where the reader has an entry
    of its own for it ([series_list], [aliases], [tstamp], [metadata]). *)
Theorem read_keeps_keyword_arguments :
  forall (P : ZilienData.Platform) (w w' : ZilienData.world ZilienData.float) (path : string)
         (cls : ZilienData.measurement_class) (name : option string)
         (kwargs : PyDict.dict (ZilienData.pyobj ZilienData.float))
         (m : ZilienData.measurement ZilienData.float)
         (k : string) (v : ZilienData.pyobj ZilienData.float),
    ZilienData._path_to_file (ZilienData.self_ w) = None ->
    Zilien.read path cls name kwargs w = (inr (Some m), w') ->
    NoDup (map fst kwargs) ->
    PyDict.get kwargs k = Some v ->
    PyDict.get (ZilienData.m_kwargs m) k = Some v.
Proof.
  intros P w w' path cls name kwargs m k v Hfresh Hread Hnd Hget.
  destruct (read_fresh_inv path cls name kwargs w w' (Some m) Hfresh Hread)
    as (lines & metadata & sh & ch & rest & data & ts & series & block & merged
        & _ & _ & _ & _ & _ & _ & Hm & _).
  injection Hm as ->. cbn [ZilienData.m_kwargs].
  apply get_update_in.
  - apply resolve_technique_keys. exact Hnd.
  - apply resolve_technique_contains. exact Hget.
Qed.

Section ReaderDemo.

Existing Instance ZilienExample.platform.

Lemma create_series_objects_time_ordered_witness :
  exists series_objects,
    Zilien._create_series_objects
      (ZilienData.self_ ZilienExample.demo_world)
      ["Time [s]"; "Voltage [V]"]%string
      (map (Zilien._form_names_and_unit "pot") ["Time [s]"; "Voltage [V]"]%string)
      ZilienCases.potential_rows
    = inr series_objects /\
    time_ordered None series_objects /\
    (forall first, hd_error series_objects = Some first ->
                   exists name unit_name data,
                     first = ZilienData.TimeSeries
                               name unit_name data
                               (ZilienData._timestamp
                                  (ZilienData.self_ ZilienExample.demo_world))) /\
    (forall name unit_name data tstamp,
        In (ZilienData.TimeSeries name unit_name data tstamp) series_objects ->
        tstamp = ZilienData._timestamp (ZilienData.self_ ZilienExample.demo_world)) /\
    length series_objects <= length ["Time [s]"; "Voltage [V]"]%string.
Proof.
  assert (H : exists series_objects,
             Zilien._create_series_objects
               (ZilienData.self_ ZilienExample.demo_world)
               ["Time [s]"; "Voltage [V]"]%string
               (map (Zilien._form_names_and_unit "pot") ["Time [s]"; "Voltage [V]"]%string)
               ZilienCases.potential_rows
             = inr series_objects).
  { eexists. vm_compute. reflexivity. }
  destruct H as [series_objects H]. exists series_objects. split; [exact H |].
  exact (create_series_objects_time_ordered ZilienExample.platform _ _ _ _ _ H).
Defined.

Lemma zilien_dataset_part_without_rows_witness :
  ZilienData._metadata ZilienCases.reader_without_rows
  = Some [("MFC value_MFC value_count"%string, ZilienData.MInt 0)] /\
  PyDict.get [("MFC value_MFC value_count"%string, ZilienData.MInt (F := ZilienData.float) 0)]
             ("MFC value" ++ "_" ++ "MFC value" ++ "_count")%string
  = Some (ZilienData.MInt 0) /\
  length ["Flow [ml/min]"; "Time [s]"]%string <= Np.ncols ZilienCases.flow_before_time /\
  Zilien._zilien_dataset_part ZilienCases.reader_without_rows
    "MFC value" ["Flow [ml/min]"; "Time [s]"]%string ZilienCases.flow_before_time
  = inr ([], Zilien.block_aliases
               (map (Zilien._form_names_and_unit "MFC value")
                    ["Flow [ml/min]"; "Time [s]"]%string)).
Proof.
  split; [reflexivity |]. split; [reflexivity |]. split; [simpl; lia |].
  apply (zilien_dataset_part_without_rows ZilienExample.platform
           ZilienCases.reader_without_rows
           [("MFC value_MFC value_count"%string, ZilienData.MInt 0)]
           "MFC value" ["Flow [ml/min]"; "Time [s]"]%string ZilienCases.flow_before_time);
    [reflexivity | reflexivity | simpl; lia].
Defined.

Lemma form_series_aliases_of_masses_witness :
  exists series aliases,
    Zilien._form_series (ZilienData.self_ ZilienExample.demo_world) = inr (series, aliases) /\
    (forall k names, PyDict.get aliases k = Some names -> mass_name k) /\
    (forall cls,
        ZilienData._cls (ZilienData.self_ ZilienExample.demo_world) = Some cls ->
        ZilienData.issubclass cls ZilienData.MSMeasurement = false ->
        aliases = []).
Proof.
  assert (H : exists series aliases,
             Zilien._form_series (ZilienData.self_ ZilienExample.demo_world)
             = inr (series, aliases)).
  { do 2 eexists. vm_compute. reflexivity. }
  destruct H as (series & aliases & H). exists series, aliases. split; [exact H |].
  exact (form_series_aliases_of_masses ZilienExample.platform _ series aliases H).
Defined.

Lemma read_aliases_by_source_witness :
  ZilienData._path_to_file (ZilienData.self_ ZilienExample.fresh_world) = None /\
  Zilien.read ZilienExample.demo_path ZilienData.ECMSMeasurement None []
              ZilienExample.fresh_world
  = (inr (Some ZilienExample.demo_measurement), ZilienExample.demo_world) /\
  PyDict.get (V := ZilienData.pyobj ZilienData.float) [] "aliases" = None /\
  exists general merged,
    Zilien.ZILIEN_ALIASES (ZilienData.m_cls ZilienExample.demo_measurement) = Some general /\
    PyDict.get (ZilienData.m_kwargs ZilienExample.demo_measurement) "aliases"
    = Some (ZilienData.PAliases merged) /\
    (forall k g, PyDict.get general k = Some g -> PyDict.get merged k = Some g) /\
    (forall k names,
        PyDict.get merged k = Some names ->
        PyDict.get general k = Some names \/
        (PyDict.get general k = None /\ mass_name k)) /\
    (ZilienData.issubclass (ZilienData.m_cls ZilienExample.demo_measurement)
                           ZilienData.MSMeasurement = false ->
     forall k, PyDict.get merged k = PyDict.get general k).
Proof.
  split; [reflexivity |]. split; [vm_compute; reflexivity |]. split; [reflexivity |].
  apply (read_aliases_by_source ZilienExample.platform ZilienExample.fresh_world
           ZilienExample.demo_world ZilienExample.demo_path ZilienData.ECMSMeasurement
           None [] ZilienExample.demo_measurement).
  - reflexivity.
  - vm_compute. reflexivity.
  - reflexivity.
Defined.

Lemma read_after_failed_read_witness :
  ZilienData._path_to_file (ZilienData.self_ ZilienExample.fresh_world) = None /\
  exists e w1,
    Zilien.read "no such file.tsv" ZilienData.ECMSMeasurement None []
                ZilienExample.fresh_world
    = (inl e, w1) /\
    forall (path' : string) (cls' : ZilienData.measurement_class) (name' : option string)
           (kwargs' : PyDict.dict (ZilienData.pyobj ZilienData.float)),
    exists text,
      Zilien.read path' cls' name' kwargs' w1
      = (inr (ZilienData._measurement (ZilienData.self_ ZilienExample.fresh_world)),
         ZilienData.mk_world (ZilienData.self_ w1) (ZilienData.stdout w1 ++ [text])
                             (ZilienData.opened w1)).
Proof.
  split; [reflexivity |].
  assert (H : exists e w1,
             Zilien.read "no such file.tsv" ZilienData.ECMSMeasurement None []
                         ZilienExample.fresh_world
             = (inl e, w1)).
  { do 2 eexists. vm_compute. reflexivity. }
  destruct H as (e & w1 & H). exists e, w1. split; [exact H |].
  exact (read_after_failed_read ZilienExample.platform ZilienExample.fresh_world w1
           "no such file.tsv" ZilienData.ECMSMeasurement None [] e eq_refl H).
Defined.

Lemma read_returns_zilien_class_witness :
  ZilienData._path_to_file (ZilienData.self_ ZilienExample.fresh_world) = None /\
  Zilien.read ZilienExample.demo_path ZilienData.ECMSMeasurement None []
              ZilienExample.fresh_world
  = (inr (Some ZilienExample.demo_measurement), ZilienExample.demo_world) /\
  (exists technique,
      technique_of (ZilienData.m_cls ZilienExample.demo_measurement) = Some technique) /\
  (forall technique,
      PyDict.get (V := ZilienData.pyobj ZilienData.float) [] "technique"
      = Some (ZilienData.PStr technique) ->
      technique = "EC-MS"%string \/ technique = "EC"%string \/ technique = "MS"%string ->
      technique_of (ZilienData.m_cls ZilienExample.demo_measurement) = Some technique) /\
  (PyDict.get (V := ZilienData.pyobj ZilienData.float) [] "technique" = None ->
   (ZilienData.m_cls ZilienExample.demo_measurement = ZilienData.ECMSMeasurement \/
    (ZilienData.ECMSMeasurement = ZilienData.Measurement /\
     ZilienData.m_cls ZilienExample.demo_measurement = ZilienData.ECMSMeasurement)) /\
   exists technique,
     technique_of (ZilienData.m_cls ZilienExample.demo_measurement) = Some technique /\
     PyDict.get (ZilienData.m_kwargs ZilienExample.demo_measurement) "technique"
     = Some (ZilienData.PStr technique)).
Proof.
  split; [reflexivity |]. split; [vm_compute; reflexivity |].
  apply (read_returns_zilien_class ZilienExample.platform ZilienExample.fresh_world
           ZilienExample.demo_world ZilienExample.demo_path ZilienData.ECMSMeasurement
           None [] ZilienExample.demo_measurement).
  - reflexivity.
  - vm_compute. reflexivity.
Defined.

Lemma read_keeps_keyword_arguments_witness :
  ZilienData._path_to_file (ZilienData.self_ ZilienExample.fresh_world) = None /\
  NoDup (map fst ZilienCases.sample_kwargs) /\
  PyDict.get ZilienCases.sample_kwargs "tstamp" = Some (ZilienData.PFloat (Some 7%Z)) /\
  exists m w',
    Zilien.read ZilienExample.demo_path ZilienData.ECMSMeasurement None
                ZilienCases.sample_kwargs ZilienExample.fresh_world
    = (inr (Some m), w') /\
    PyDict.get (ZilienData.m_kwargs m) "tstamp" = Some (ZilienData.PFloat (Some 7%Z)).
Proof.
  assert (Hnd : NoDup (map fst ZilienCases.sample_kwargs)).
  { simpl. repeat constructor; simpl; intuition discriminate. }
  split; [reflexivity |]. split; [exact Hnd |]. split; [reflexivity |].
  assert (H : exists m w',
             Zilien.read ZilienExample.demo_path ZilienData.ECMSMeasurement None
                         ZilienCases.sample_kwargs ZilienExample.fresh_world
             = (inr (Some m), w')).
  { do 2 eexists. vm_compute. reflexivity. }
  destruct H as (m & w' & H). exists m, w'. split; [exact H |].
  exact (read_keeps_keyword_arguments ZilienExample.platform ZilienExample.fresh_world w'
           ZilienExample.demo_path ZilienData.ECMSMeasurement None
           ZilienCases.sample_kwargs m "tstamp" _ eq_refl H Hnd eq_refl).
Defined.

End ReaderDemo.
(* ===================================================================== *)
(** * The alias table of a read *)
(* ===================================================================== *)

Lemma form_series_ignores_measurement {P : ZilienData.Platform}
      (m : ZilienData.measurement ZilienData.float)
      (self : ZilienData.reader ZilienData.float) :
  Zilien._form_series (Zilien.set__measurement m self) = Zilien._form_series self.
Proof.
  destruct self. reflexivity.
Qed.

(** C8.  The loop that adds the global default aliases of a class to an
    alias table leaves, for every standard name, the names the table had
    for it, in their order, and puts the names of the global default table
    after them: none is dropped or replaced, whatever the table holds.  In a
    first read that returns a measurement (without an [aliases] keyword
    argument of the caller) the table the loop starts from is the one
    [_form_series] returns on the reader of this read, the table of the
    blocks, and the table it leaves is the alias table of the measurement.
    There no name has entries from both sources: the blocks give names of
    masses only, and the global default tables have none of those. *)
Theorem aliases_block_entries_first :
  (* the loop over the global default aliases, on any table *)
  (forall (cls : ZilienData.measurement_class) (block merged : PyDict.dict (list string)),
      Zilien.add_general_aliases cls block = inr merged ->
      exists general,
        Zilien.ZILIEN_ALIASES cls = Some general /\
        forall k,
          entries merged k = entries block k ++ entries general k /\
          (PyDict.get merged k = None <->
           PyDict.get block k = None /\ PyDict.get general k = None)) /\
  (* the alias table of a read *)
  (forall (P : ZilienData.Platform) (w w' : ZilienData.world ZilienData.float)
          (path : string) (cls : ZilienData.measurement_class) (name : option string)
          (kwargs : PyDict.dict (ZilienData.pyobj ZilienData.float))
          (m : ZilienData.measurement ZilienData.float),
      ZilienData._path_to_file (ZilienData.self_ w) = None ->
      Zilien.read path cls name kwargs w = (inr (Some m), w') ->
      PyDict.get kwargs "aliases" = None ->
      exists series block general merged,
        Zilien._form_series (ZilienData.self_ w') = inr (series, block) /\
        Zilien.ZILIEN_ALIASES (ZilienData.m_cls m) = Some general /\
        Zilien.add_general_aliases (ZilienData.m_cls m) block = inr merged /\
        PyDict.get (ZilienData.m_kwargs m) "aliases" = Some (ZilienData.PAliases merged) /\
        (PyDict.get kwargs "series_list" = None ->
         PyDict.get (ZilienData.m_kwargs m) "series_list"
         = Some (ZilienData.PSeriesList series)) /\
        (forall k,
            entries merged k = entries block k ++ entries general k /\
            (PyDict.get merged k = None <->
             PyDict.get block k = None /\ PyDict.get general k = None)) /\
        (forall k, entries block k = [] \/ entries general k = [])).
Proof.
  split.
  - intros cls block merged Hmerge.
    destruct (add_general_aliases_spec _ _ _ Hmerge) as [general [Hgen Hget]].
    exists general. split; [exact Hgen |]. apply entries_merged. exact Hget.
  - intros P w w' path cls name kwargs m Hfresh Hread Hkw.
    destruct (read_fresh_inv path cls name kwargs w w' (Some m) Hfresh Hread)
      as (lines & metadata & sh & ch & rest & data & ts & series & block & merged
          & _ & _ & _ & _ & Hform & Hmerge & Hm & Hw).
    injection Hm as ->.
    destruct (add_general_aliases_spec _ _ _ Hmerge) as [general [Hgen Hget]].
    destruct (form_series_aliases _ series block Hform) as [Hkeys _].
    exists series, block, general, merged.
    cbn [ZilienData.m_cls ZilienData.m_kwargs].
    split; [rewrite Hw; cbn [ZilienData.self_];
            rewrite form_series_ignores_measurement; exact Hform |].
    split; [exact Hgen |]. split; [exact Hmerge |].
    split; [| split; [| split]].
    + rewrite get_update_other.
      * reflexivity.
      * rewrite resolve_technique_keeps_aliases. exact Hkw.
    + intros Hseries. rewrite get_update_other.
      * reflexivity.
      * destruct (PyDict.get (snd (Zilien.resolve_technique cls kwargs)) "series_list")
          as [v |] eqn:Hv; [| reflexivity].
        exfalso. revert Hv. unfold Zilien.resolve_technique.
        destruct (PyDict.contains kwargs "technique"); [cbn [snd]; congruence |].
        cbn [snd].
        repeat match goal with
               | |- context [if ?b then _ else _] => destruct b
               end;
          try congruence; rewrite get_set_other by discriminate; congruence.
    + apply entries_merged. exact Hget.
    + intros k. unfold entries.
      destruct (PyDict.get block k) as [names |] eqn:Hb; [| left; reflexivity].
      destruct (PyDict.get general k) as [g |] eqn:Hg; [| right; reflexivity].
      exfalso. apply (global_names_are_no_masses _ general k g Hgen Hg).
      apply Hkeys. exact (get_in_keys block k names Hb).
Qed.

Section AliasDemo.

Existing Instance ZilienExample.platform.

Lemma aliases_block_entries_first_witness :
  (Zilien.add_general_aliases ZilienData.ECMSMeasurement
     [("raw_potential", ["Ewe/V"]); ("M2", ["M2 [A]"])]%string
   = inr [("raw_potential", ["Ewe/V"; "Voltage [V]"]); ("M2", ["M2 [A]"]);
          ("t", ["Potential time [s]"]); ("raw_current", ["Current [mA]"]);
          ("cycle", ["Cycle [n]"])]%string /\
   exists general,
     Zilien.ZILIEN_ALIASES ZilienData.ECMSMeasurement = Some general /\
     forall k,
       entries [("raw_potential", ["Ewe/V"; "Voltage [V]"]); ("M2", ["M2 [A]"]);
                ("t", ["Potential time [s]"]); ("raw_current", ["Current [mA]"]);
                ("cycle", ["Cycle [n]"])]%string k
       = entries [("raw_potential", ["Ewe/V"]); ("M2", ["M2 [A]"])]%string k
         ++ entries general k /\
       (PyDict.get [("raw_potential", ["Ewe/V"; "Voltage [V]"]); ("M2", ["M2 [A]"]);
                    ("t", ["Potential time [s]"]); ("raw_current", ["Current [mA]"]);
                    ("cycle", ["Cycle [n]"])]%string k = None <->
        PyDict.get [("raw_potential", ["Ewe/V"]); ("M2", ["M2 [A]"])]%string k = None /\
        PyDict.get general k = None)) /\
  ZilienData._path_to_file (ZilienData.self_ ZilienExample.fresh_world) = None /\
  Zilien.read ZilienExample.demo_path ZilienData.ECMSMeasurement None []
              ZilienExample.fresh_world
  = (inr (Some ZilienExample.demo_measurement), ZilienExample.demo_world) /\
  PyDict.get (V := ZilienData.pyobj ZilienData.float) [] "aliases" = None /\
  PyDict.get (ZilienData.m_kwargs ZilienExample.demo_measurement) "aliases"
  = Some (ZilienData.PAliases
            [("M2", ["M2 [A]"]); ("t", ["Potential time [s]"]);
             ("raw_potential", ["Voltage [V]"]); ("raw_current", ["Current [mA]"]);
             ("cycle", ["Cycle [n]"])]%string) /\
  exists series block general merged,
    Zilien._form_series (ZilienData.self_ ZilienExample.demo_world) = inr (series, block) /\
    Zilien.ZILIEN_ALIASES (ZilienData.m_cls ZilienExample.demo_measurement) = Some general /\
    Zilien.add_general_aliases (ZilienData.m_cls ZilienExample.demo_measurement) block
    = inr merged /\
    PyDict.get (ZilienData.m_kwargs ZilienExample.demo_measurement) "aliases"
    = Some (ZilienData.PAliases merged) /\
    (PyDict.get (V := ZilienData.pyobj ZilienData.float) [] "series_list" = None ->
     PyDict.get (ZilienData.m_kwargs ZilienExample.demo_measurement) "series_list"
     = Some (ZilienData.PSeriesList series)) /\
    (forall k,
        entries merged k = entries block k ++ entries general k /\
        (PyDict.get merged k = None <->
         PyDict.get block k = None /\ PyDict.get general k = None)) /\
    (forall k, entries block k = [] \/ entries general k = []).
Proof.
  split.
  { split; [reflexivity |].
    exact (proj1 aliases_block_entries_first ZilienData.ECMSMeasurement
                 [("raw_potential", ["Ewe/V"]); ("M2", ["M2 [A]"])]%string
                 [("raw_potential", ["Ewe/V"; "Voltage [V]"]); ("M2", ["M2 [A]"]);
                  ("t", ["Potential time [s]"]); ("raw_current", ["Current [mA]"]);
                  ("cycle", ["Cycle [n]"])]%string eq_refl). }
  split; [reflexivity |]. split; [vm_compute; reflexivity |]. split; [reflexivity |].
  split; [vm_compute; reflexivity |].
  apply (proj2 aliases_block_entries_first ZilienExample.platform ZilienExample.fresh_world
           ZilienExample.demo_world ZilienExample.demo_path ZilienData.ECMSMeasurement
           None [] ZilienExample.demo_measurement).
  - reflexivity.
  - vm_compute. reflexivity.
  - reflexivity.
Defined.

End AliasDemo.


(* ===================================================================== *)
(** * Further properties of [Spectrum] *)
(* ===================================================================== *)

(** X20.  The property [field] asks the backend for the Field of a
    placeholder once: the first access loads it and puts it in the place
    of the placeholder, and every later access returns the same Field
    without a call of [get_object], also when the backend has gone.  (The
    backend leaves the spectrum as it is and hands out a Field.) *)
Theorem field_loads_once :
  forall (get_object : option nat -> Spectra.H Spectra.loc) (h h1 : Spectra.heap)
         (self placeholder f : Spectra.loc) (field_id : option nat)
         (name : string) (technique : option string) (metadata : option nat)
         (sample_name : option string) (reader : option nat)
         (fname : string) (funit : option string) (data : Spectra.ndarray)
         (axes : Spectra.loc),
    nth_error h self
    = Some (Spectra.OSpectrum name technique metadata sample_name reader placeholder) ->
    nth_error h placeholder = Some (Spectra.OPlaceHolder field_id) ->
    get_object field_id h = inr (f, h1) ->
    nth_error h1 self = nth_error h self ->
    nth_error h1 f = Some (Spectra.OField fname funit data axes) ->
    exists h2,
      Spectra.field get_object self h = inr (f, h2) /\
      nth_error h2 self
      = Some (Spectra.OSpectrum name technique metadata sample_name reader f) /\
      (forall l, l <> self -> nth_error h2 l = nth_error h1 l) /\
      forall other_backend : option nat -> Spectra.H Spectra.loc,
        Spectra.field other_backend self h2 = inr (f, h2).
Proof.
  intros get_object h h1 self p f field_id name technique metadata sample_name reader
         fname funit data axes Hself Hp Hload Hkeep Hf.
  exists (Spectra.replace_nth self
            (Spectra.OSpectrum name technique metadata sample_name reader f) h1).
  assert (Hlen : self < length h1).
  { apply nth_error_Some. rewrite Hkeep, Hself. discriminate. }
  assert (Hne : self <> f).
  { intros ->. rewrite Hkeep, Hself in Hf. discriminate. }
  split; [| split; [| split]].
  - unfold Spectra.field, Spectra.hbind, Spectra.deref. rewrite Hself. cbn.
    rewrite Hp. cbn. rewrite Hload. reflexivity.
  - apply nth_error_replace_same. exact Hlen.
  - intros l Hl. apply nth_error_replace_other. auto.
  - intros other_backend. unfold Spectra.field, Spectra.hbind, Spectra.deref.
    rewrite nth_error_replace_same by exact Hlen. cbn.
    rewrite nth_error_replace_other by exact Hne. rewrite Hf. reflexivity.
Qed.

Lemma field_loads_once_witness :
  nth_error SpectraCases.lazy_store 1
  = Some (Spectra.OSpectrum "lazy" None None None None 0) /\
  nth_error SpectraCases.lazy_store 0 = Some (Spectra.OPlaceHolder (Some 7)) /\
  SpectraCases.backend (Some 7) SpectraCases.lazy_store
  = inr (5, SpectraCases.lazy_store ++ SpectraCases.stored_field 2) /\
  nth_error (SpectraCases.lazy_store ++ SpectraCases.stored_field 2) 1
  = nth_error SpectraCases.lazy_store 1 /\
  nth_error (SpectraCases.lazy_store ++ SpectraCases.stored_field 2) 5
  = Some (Spectra.OField "signal" (Some "A"%string)
                         (Spectra.Array [Spectra.vector [10; 20; 30]%Q]) 4) /\
  exists h2,
    Spectra.field SpectraCases.backend 1 SpectraCases.lazy_store = inr (5, h2) /\
    nth_error h2 1 = Some (Spectra.OSpectrum "lazy" None None None None 5) /\
    (forall l, l <> 1 ->
               nth_error h2 l
               = nth_error (SpectraCases.lazy_store ++ SpectraCases.stored_field 2) l) /\
    forall other_backend : option nat -> Spectra.H Spectra.loc,
      Spectra.field other_backend 1 h2 = inr (5, h2).
Proof.
  split; [reflexivity |]. split; [reflexivity |]. split; [reflexivity |].
  split; [reflexivity |]. split; [reflexivity |].
  exact (field_loads_once SpectraCases.backend SpectraCases.lazy_store
           (SpectraCases.lazy_store ++ SpectraCases.stored_field 2) 1 0 5 (Some 7)
           "lazy" None None None None "signal" (Some "A"%string)
           (Spectra.Array [Spectra.vector [10; 20; 30]%Q]) 4
           eq_refl eq_refl eq_refl eq_refl eq_refl).
Defined.

(** X21.  A spectrum made by [from_data] gives back the names it was made
    with: [x_name] and [y_name] are the names given, the name of the
    spectrum is [y_name] unless a name was given; [xseries] is the series
    object of [x] itself, at every call, while [yseries] makes a new
    DataSeries at every call, with the name, unit and data of [y]. *)
Theorem from_data_names_and_series :
  forall (get_object : option nat -> Spectra.H Spectra.loc) (h : Spectra.heap)
         (x y : list Q) (tstamp : option Q) (x_name y_name : string)
         (x_unit_name y_unit_name : option string) (kw : Spectra.kwargs),
  exists s h',
    Spectra.from_data x y tstamp x_name y_name x_unit_name y_unit_name kw h = inr (s, h') /\
    (exists technique metadata sample_name reader _field,
        nth_error h' s
        = Some (Spectra.OSpectrum
                  match Spectra.k_name kw with Some name => name | None => y_name end
                  technique metadata sample_name reader _field)) /\
    Spectra.x_name get_object s h' = inr (x_name, h') /\
    Spectra.y_name get_object s h' = inr (y_name, h') /\
    Spectra.xseries get_object s h' = inr (length h, h') /\
    nth_error h' (length h) = Some (Spectra.ODataSeries x_name x_unit_name (Spectra.vector x)) /\
    let made := Spectra.ODataSeries y_name y_unit_name (Spectra.vector y) in
    Spectra.yseries get_object s h' = inr (length h', h' ++ [made]) /\
    Spectra.yseries get_object s (h' ++ [made]) = inr (S (length h'), (h' ++ [made]) ++ [made]).
Proof.
  intros get_object h x y tstamp x_name y_name x_unit_name y_unit_name kw.
  do 2 eexists. split; [apply from_data_makes |].
  destruct (from_data_spectrum_at h x y tstamp x_name y_name x_unit_name y_unit_name kw)
    as (Hat & Hx & Hts).
  set (h' := h ++ spectrum_objects (length h) x y tstamp x_name y_name x_unit_name
                                   y_unit_name kw) in *.
  assert (Hxs : nth_error h' (length h)
                = Some (Spectra.ODataSeries x_name x_unit_name (Spectra.vector x))).
  { subst h'. rewrite nth_error_app2 by lia. rewrite Nat.sub_diag. reflexivity. }
  assert (Hf : nth_error h' (length h + 4)
               = Some (Spectra.OField y_name y_unit_name
                         (Spectra.Array [Spectra.vector y]) (length h + 3))).
  { subst h'. rewrite nth_error_new. reflexivity. }
  assert (Hyseries : forall more,
             Spectra.yseries get_object (length h + 5) (h' ++ more)
             = inr (length (h' ++ more),
                    (h' ++ more)
                    ++ [Spectra.ODataSeries y_name y_unit_name (Spectra.vector y)])).
  { intros more.
    assert (Hat' : spectrum_at (h' ++ more) (length h + 5) (length h + 4) (length h + 3)
                               (Spectra.Array [Spectra.vector y])
                               [length h; length h + 2]).
    { destruct Hat as [(n1 & t1 & m1 & s1 & r1 & Hs) (n2 & u2 & Hfield) Hlist].
      constructor.
      - exists n1, t1, m1, s1, r1. apply nth_error_old. exact Hs.
      - exists n2, u2. apply nth_error_old. exact Hfield.
      - apply nth_error_old. exact Hlist. }
    pose proof (field_loaded get_object _ _ _ _ _ _ Hat') as Hfield.
    unfold Spectra.yseries, Spectra.y, Spectra.hbind. rewrite Hfield.
    unfold Spectra.get_name, Spectra.get_data, Spectra.get_unit_name, Spectra.hbind,
      Spectra.deref.
    rewrite (nth_error_old _ more _ _ Hf). cbn. rewrite Hfield.
    rewrite (nth_error_old _ more _ _ Hf). cbn. rewrite Hfield.
    rewrite (nth_error_old _ more _ _ Hf). reflexivity. }
  pose proof (field_loaded get_object _ _ _ _ _ _ Hat) as Hfield.
  pose proof (axes_of_field _ _ _ _ _ _ Hat) as Haxes.
  assert (Hxseries : Spectra.xseries get_object (length h + 5) h' = inr (length h, h')).
  { unfold Spectra.xseries, Spectra.hbind. rewrite Hfield, Haxes.
    reflexivity. }
  split.
  { subst h'. do 5 eexists. rewrite nth_error_new. reflexivity. }
  split.
  { unfold Spectra.x_name, Spectra.hbind. rewrite Hxseries.
    unfold Spectra.get_name, Spectra.hbind, Spectra.deref. rewrite Hxs. reflexivity. }
  split.
  { unfold Spectra.y_name, Spectra.hbind. rewrite Hfield.
    unfold Spectra.get_name, Spectra.hbind, Spectra.deref. rewrite Hf. reflexivity. }
  split; [exact Hxseries |]. split; [exact Hxs |].
  cbv zeta. split.
  - pose proof (Hyseries []) as H0. rewrite !app_nil_r in H0. exact H0.
  - rewrite (Hyseries [_]). rewrite length_app. cbn [length].
    rewrite Nat.add_1_r. reflexivity.
Qed.

(** X22.  A spectrum made by [from_data] without a time stamp (the
    default, [None]) has its [x] and [y] views, and its [tstamp] view
    raises [TypeError]: the sample 0 of the time series and [None] cannot
    be added. *)
Theorem from_data_without_tstamp :
  forall (get_object : option nat -> Spectra.H Spectra.loc) (h : Spectra.heap)
         (x y : list Q) (x_name y_name : string)
         (x_unit_name y_unit_name : option string) (kw : Spectra.kwargs),
  exists s h',
    Spectra.from_data x y None x_name y_name x_unit_name y_unit_name kw h = inr (s, h') /\
    Spectra.x get_object s h' = inr (Spectra.vector x, h') /\
    Spectra.y get_object s h' = inr (Spectra.vector y, h') /\
    exists msg, Spectra.tstamp get_object s h' = inl (PyExn.TypeError msg).
Proof.
  intros get_object h x y x_name y_name x_unit_name y_unit_name kw.
  do 2 eexists. split; [apply from_data_makes |].
  destruct (from_data_spectrum_at h x y None x_name y_name x_unit_name y_unit_name kw)
    as (Hat & Hx & Hts).
  pose proof (field_loaded get_object _ _ _ _ _ _ Hat) as Hfield.
  pose proof (axes_of_field _ _ _ _ _ _ Hat) as Haxes.
  pose proof Hat as [_ (fname & funit & Hf) Hlist].
  split; [| split].
  - unfold Spectra.x, Spectra.xseries, Spectra.hbind. rewrite Hfield, Haxes.
    unfold Spectra.list_item. cbn [nth_error Spectra.hret PyExn.ret]. exact Hx.
  - unfold Spectra.y, Spectra.hbind. rewrite Hfield.
    unfold Spectra.get_data, Spectra.hbind, Spectra.deref. rewrite Hf. reflexivity.
  - eexists. unfold Spectra.tstamp, Spectra.tseries, Spectra.hbind. rewrite Hfield, Haxes.
    unfold Spectra.list_item, Spectra.get_data, Spectra.get_tstamp, Spectra.hbind,
      Spectra.deref.
    cbn [nth_error Spectra.hret PyExn.ret]. rewrite Hts. cbn.
    rewrite Hts. reflexivity.
Qed.

(* ===================================================================== *)
(** * Properties of [ZilienSpectrumReader.read] *)
(* ===================================================================== *)

Section SpectrumReaderFacts.

Import PyExn PyDict ZilienData.
Context {P : Platform}.

(** Lines without the mark of the scan start leave [tstamp] as it is. *)
Lemma scan_tstamp_without_mark (k : nat) :
  forall (f : list string) (tstamp : option float),
    (forall i, i < k ->
               PyStr.contains "Mass scan started at [s]" (line_at f i) = false) ->
    Zilien.scan_tstamp k f tstamp = inr tstamp.
Proof.
  induction k as [| k IH]; intros f tstamp Hlines; [reflexivity |].
  cbn [Zilien.scan_tstamp].
  destruct (Zilien.readline f) as [line rest] eqn:Hline.
  apply readline_skipn in Hline. destruct Hline as [-> ->].
  rewrite (Hlines 0) by lia. apply IH.
  intros i Hi. rewrite line_at_skipn. apply Hlines. lia.
Qed.

End SpectrumReaderFacts.

(** X23.  [ZilienSpectrumReader.read] looks for the start of the mass scan
    in the first ten lines of the file only: on a file that has a mass
    column and the column [Current [A]], and none of whose first ten lines
    holds [Mass scan started at [s]], it raises [UnboundLocalError] for
    [tstamp], also when a later line holds the mark. *)
Theorem spectrum_read_needs_scan_start :
  forall (P : ZilienData.Platform) (self_path : option string) (path : string)
         (cls : option Zilien.spectrum_class)
         (kwargs : PyDict.dict (ZilienData.pyobj ZilienData.float))
         (df : PyDict.dict (list ZilienData.float)) (x_name : string)
         (x y : list ZilienData.float) (lines : list string),
    path <> EmptyString ->
    ZilienData.read_csv path = inr df ->
    Zilien.find_mass_column df Zilien.ZILIEN_MASS_COLUMN_NAMES = Some (x_name, x) ->
    PyDict.get df "Current [A]" = Some y ->
    ZilienData.open_text path = Some lines ->
    (forall i, i < 10 ->
               PyStr.contains "Mass scan started at [s]" (line_at lines i) = false) ->
    Zilien.spectrum_read self_path path cls kwargs = inl (PyExn.UnboundLocalError "tstamp").
Proof.
  intros P self_path path cls kwargs df x_name x y lines Hpath Hcsv Hmass Hy Hopen Hlines.
  unfold Zilien.spectrum_read.
  destruct path as [| c path]; [now elim Hpath |].
  rewrite Hcsv. cbn [PyExn.bind]. rewrite Hmass, Hy, Hopen.
  rewrite (scan_tstamp_without_mark 10 lines None Hlines). reflexivity.
Qed.

Lemma spectrum_read_needs_scan_start_witness :
  "late.tsv"%string <> EmptyString /\
  ZilienData.read_csv (Platform := ZilienCases.late_marker_platform) "late.tsv"
  = inr [("Mass [AMU]"%string, [Some 2%Z; Some 4%Z]);
         ("Current [A]"%string, [Some 10%Z; Some 20%Z])] /\
  Zilien.find_mass_column (P := ZilienCases.late_marker_platform)
    [("Mass [AMU]"%string, [Some 2%Z; Some 4%Z]);
     ("Current [A]"%string, [Some 10%Z; Some 20%Z])]
    Zilien.ZILIEN_MASS_COLUMN_NAMES
  = Some ("Mass [AMU]"%string, [Some 2%Z; Some 4%Z]) /\
  ZilienData.open_text (Platform := ZilienCases.late_marker_platform) "late.tsv"
  = Some ZilienCases.late_marker_file /\
  PyStr.contains "Mass scan started at [s]" (line_at ZilienCases.late_marker_file 10) = true /\
  (forall i, i < 10 ->
             PyStr.contains "Mass scan started at [s]"
                            (line_at ZilienCases.late_marker_file i) = false) /\
  Zilien.spectrum_read (P := ZilienCases.late_marker_platform) None "late.tsv" None []
  = inl (PyExn.UnboundLocalError "tstamp").
Proof.
  assert (Hlines : forall i, i < 10 ->
             PyStr.contains "Mass scan started at [s]"
                            (line_at ZilienCases.late_marker_file i) = false).
  { intros i Hi. do 10 (destruct i as [| i]; [reflexivity |]). lia. }
  split; [discriminate |]. split; [reflexivity |]. split; [reflexivity |].
  split; [reflexivity |]. split; [reflexivity |]. split; [exact Hlines |].
  apply (spectrum_read_needs_scan_start ZilienCases.late_marker_platform None "late.tsv"
           None [] [("Mass [AMU]"%string, [Some 2%Z; Some 4%Z]);
                    ("Current [A]"%string, [Some 10%Z; Some 20%Z])]
           "Mass [AMU]" [Some 2%Z; Some 4%Z] [Some 10%Z; Some 20%Z]
           ZilienCases.late_marker_file);
    [discriminate | reflexivity | reflexivity | reflexivity | reflexivity | exact Hlines].
Defined.

(* ===================================================================== *)
(** * Properties of the files of a tmp directory *)
(* ===================================================================== *)

Section TmpFacts.

Local Open Scope string_scope.

Lemma span_not_dot_run (run tail : string) :
  has_char "." run = false ->
  ZilienTmp.span_not_dot (run ++ String "." tail) = (run, String "." tail).
Proof.
  induction run as [| c run IH]; intros H; [reflexivity |].
  simpl in H. apply orb_false_iff in H. destruct H as [Hc Hrun].
  simpl. rewrite Hc, (IH Hrun). reflexivity.
Qed.

Lemma search_column_none (s : string) :
  has_char "." s = false -> ZilienTmp.search_column s = None.
Proof.
  induction s as [| c s IH]; intros H; [reflexivity |].
  simpl in H. apply orb_false_iff in H. destruct H as [Hc Hs].
  simpl. rewrite Hc. exact (IH Hs).
Qed.

(** The column of a file name: what stands between the first [.] and
    the [.data] after it. *)
Lemma search_column_found (stamp column rest : string) :
  has_char "." stamp = false ->
  column <> EmptyString ->
  has_char "." column = false ->
  ZilienTmp.search_column (stamp ++ "." ++ column ++ ".data" ++ rest) = Some column.
Proof.
  intros Hstamp Hcolumn Hdot. induction stamp as [| c stamp IH].
  - simpl. change (column ++ String "." (String "d" (String "a" (String "t" (String "a" rest)))))
      with (column ++ String "." ("data" ++ rest)).
    rewrite (span_not_dot_run column ("data" ++ rest) Hdot).
    destruct column as [| c column]; [now elim Hcolumn |]. reflexivity.
  - simpl in Hstamp. apply orb_false_iff in Hstamp. destruct Hstamp as [Hc Hstamp].
    simpl. rewrite Hc. apply IH. exact Hstamp.
Qed.

Lemma search_mass_none (s : string) :
  has_char "M" s = false -> ZilienTmp.search_mass s = None.
Proof.
  induction s as [| c s IH]; intros H; [reflexivity |].
  simpl in H. apply orb_false_iff in H. destruct H as [Hc Hs].
  simpl. rewrite Hc. exact (IH Hs).
Qed.

Lemma span_digits_all (d : string) :
  PyStr.all_digits d = true -> PyStr.span_digits d = (d, EmptyString).
Proof.
  induction d as [| c d IH]; intros H; [reflexivity |].
  simpl in H. apply andb_true_iff in H. destruct H as [Hc Hd].
  simpl. rewrite Hc, (IH Hd). reflexivity.
Qed.

(** The mass of a column name: the first [M] with the digits after it. *)
Lemma search_mass_found (pre ds post : string) :
  has_char "M" pre = false ->
  digits ds ->
  post = EmptyString \/ (exists c tail, post = String c tail /\ PyStr.is_digit c = false) ->
  ZilienTmp.search_mass (pre ++ "M" ++ ds ++ post) = Some ("M" ++ ds).
Proof.
  intros Hpre [Hne Hds] Hpost. induction pre as [| c pre IH].
  - simpl.
    assert (Hspan : PyStr.span_digits (ds ++ post) = (ds, post)).
    { destruct Hpost as [-> | [c [tail [-> Hc]]]].
      - rewrite append_nil_r. apply span_digits_all. exact Hds.
      - apply span_digits_app; assumption. }
    rewrite Hspan. destruct ds as [| d ds]; [now elim Hne |]. reflexivity.
  - simpl in Hpre. apply orb_false_iff in Hpre. destruct Hpre as [Hc Hpre].
    simpl. rewrite Hc. apply IH. exact Hpre.
Qed.

End TmpFacts.

(** X24.  For a tmp file named [<stamp>.<column>.data...] (no [.] in
    [stamp] and [column], [column] not empty) whose time stamp converts and
    whose two columns are read, [series_list_from_tmp] returns a TimeSeries
    in seconds and a ValueSeries on it and prints nothing.  When [column]
    holds [M<digits>] (and no [M] before it) the ValueSeries is named
    [M<digits>] with the unit [A]; when it holds no [M] the ValueSeries has
    the name [column] and no unit.  The TimeSeries has the name of the
    ValueSeries followed by [-x]. *)
Theorem series_list_from_tmp_names :
  forall (P : ZilienData.Platform)
         (read_csv_named : string -> string -> string ->
                           PyExn.result (list ZilienData.float * list ZilienData.float))
         (path stamp column rest : string) (tstamp : ZilienData.float)
         (t_data v_data : list ZilienData.float),
    ZilienData.path_name path = (stamp ++ "." ++ column ++ ".data" ++ rest)%string ->
    has_char "." stamp = false ->
    column <> EmptyString ->
    has_char "." column = false ->
    ZilienData.timestamp_string_to_tstamp (substring 0 19 (ZilienData.path_name path))
                                           Zilien.ZILIEN_TIMESTAMP_FORM
    = inr tstamp ->
    (forall t_name v_name, read_csv_named path t_name v_name = inr (t_data, v_data)) ->
    (forall pre ds post,
        column = (pre ++ "M" ++ ds ++ post)%string ->
        has_char "M" pre = false ->
        digits ds ->
        post = EmptyString \/
        (exists c tail, post = String c tail /\ PyStr.is_digit c = false) ->
        ZilienTmp.series_list_from_tmp read_csv_named path
        = ([], inr [ZilienTmp.TimeSeries ("M" ++ ds ++ "-x") "s" t_data tstamp;
                    ZilienTmp.ValueSeries
                      ("M" ++ ds) (Some "A"%string) v_data
                      (ZilienTmp.TimeSeries ("M" ++ ds ++ "-x") "s" t_data tstamp)])) /\
    (has_char "M" column = false ->
     ZilienTmp.series_list_from_tmp read_csv_named path
     = ([], inr [ZilienTmp.TimeSeries (column ++ "-x") "s" t_data tstamp;
                 ZilienTmp.ValueSeries
                   column None v_data
                   (ZilienTmp.TimeSeries (column ++ "-x") "s" t_data tstamp)])).
Proof.
  intros P read_csv_named path stamp column rest tstamp t_data v_data
         Hname Hstamp Hcolumn Hdot Htime Hcsv.
  assert (Hsearch : ZilienTmp.search_column (ZilienData.path_name path) = Some column).
  { rewrite Hname. apply search_column_found; assumption. }
  split.
  - intros pre ds post Hcol Hpre Hds Hpost.
    unfold ZilienTmp.series_list_from_tmp. rewrite Htime, Hsearch, Hcol.
    rewrite (search_mass_found pre ds post Hpre Hds Hpost).
    rewrite Hcsv. cbn [PyExn.ret]. rewrite append_assoc. reflexivity.
  - intros HnoM. unfold ZilienTmp.series_list_from_tmp. rewrite Htime, Hsearch.
    rewrite (search_mass_none column HnoM), Hcsv. reflexivity.
Qed.

(** X25.  A tmp file whose name holds no [.] (so no column), and whose
    time stamp converts, gives no series: [series_list_from_tmp] prints one
    line, reads no frame and returns the empty list, and the loop over the
    files of the directory goes on with the series list it had. *)
Theorem series_list_from_tmp_without_column :
  forall (P : ZilienData.Platform)
         (read_csv_named : string -> string -> string ->
                           PyExn.result (list ZilienData.float * list ZilienData.float))
         (path : string) (tstamp : ZilienData.float),
    has_char "." (ZilienData.path_name path) = false ->
    ZilienData.timestamp_string_to_tstamp (substring 0 19 (ZilienData.path_name path))
                                           Zilien.ZILIEN_TIMESTAMP_FORM
    = inr tstamp ->
    ZilienTmp.series_list_from_tmp read_csv_named path
    = ([("could not find column name in " ++ path)%string], inr []) /\
    (forall other_frames,
        ZilienTmp.series_list_from_tmp other_frames path
        = ZilienTmp.series_list_from_tmp read_csv_named path) /\
    forall tmp_files series_list,
      ZilienTmp.series_of_files read_csv_named (path :: tmp_files) series_list
      = (("could not find column name in " ++ path)%string
           :: fst (ZilienTmp.series_of_files read_csv_named tmp_files series_list),
         snd (ZilienTmp.series_of_files read_csv_named tmp_files series_list)).
Proof.
  intros P read_csv_named path tstamp Hdot Htime.
  assert (Hrun : forall frames,
             ZilienTmp.series_list_from_tmp frames path
             = ([("could not find column name in " ++ path)%string], inr [])).
  { intros frames. unfold ZilienTmp.series_list_from_tmp.
    rewrite Htime, (search_column_none _ Hdot). reflexivity. }
  split; [apply Hrun |]. split.
  - intros other. now rewrite !Hrun.
  - intros tmp_files series_list. cbn [ZilienTmp.series_of_files].
    rewrite Hrun, app_nil_r.
    destruct (ZilienTmp.series_of_files read_csv_named tmp_files series_list) as [printed r].
    reflexivity.
Qed.

Section TmpDemo.

Existing Instance ZilienExample.platform.

Lemma series_list_from_tmp_names_witness :
  ZilienData.path_name "2021-04-20 11_16_18.C0M18.data"
  = ("2021-04-20 11_16_18" ++ "." ++ "C0M18" ++ ".data" ++ EmptyString)%string /\
  has_char "." "2021-04-20 11_16_18" = false /\
  "C0M18"%string <> EmptyString /\
  has_char "." "C0M18" = false /\
  ZilienData.timestamp_string_to_tstamp
    (substring 0 19 (ZilienData.path_name "2021-04-20 11_16_18.C0M18.data"))
    Zilien.ZILIEN_TIMESTAMP_FORM
  = inr (Some 0%Z) /\
  (forall t_name v_name : string,
      ZilienCases.two_columns "2021-04-20 11_16_18.C0M18.data" t_name v_name
      = inr ([Some 1%Z], [Some 2%Z])) /\
  "C0M18"%string = ("C0" ++ "M" ++ "18" ++ EmptyString)%string /\
  has_char "M" "C0" = false /\
  digits "18" /\
  ZilienTmp.series_list_from_tmp ZilienCases.two_columns "2021-04-20 11_16_18.C0M18.data"
  = ([], inr [ZilienTmp.TimeSeries ("M" ++ "18" ++ "-x") "s" [Some 1%Z] (Some 0%Z);
              ZilienTmp.ValueSeries
                ("M" ++ "18") (Some "A"%string) [Some 2%Z]
                (ZilienTmp.TimeSeries ("M" ++ "18" ++ "-x") "s" [Some 1%Z] (Some 0%Z))]).
Proof.
  assert (Hd : digits "18") by (split; [discriminate | reflexivity]).
  split; [reflexivity |]. split; [reflexivity |]. split; [discriminate |].
  split; [reflexivity |]. split; [reflexivity |]. split; [reflexivity |].
  split; [reflexivity |]. split; [reflexivity |]. split; [exact Hd |].
  apply (proj1 (series_list_from_tmp_names ZilienExample.platform ZilienCases.two_columns
                  "2021-04-20 11_16_18.C0M18.data" "2021-04-20 11_16_18" "C0M18"
                  EmptyString
                  (Some 0%Z) [Some 1%Z] [Some 2%Z]
                  eq_refl eq_refl ltac:(discriminate) eq_refl eq_refl
                  (fun _ _ => eq_refl))
               "C0"%string "18"%string EmptyString eq_refl eq_refl Hd (or_introl eq_refl)).
Defined.

Lemma series_list_from_tmp_without_column_witness :
  has_char "." (ZilienData.path_name "2021-04-20 11_16_18 notes") = false /\
  ZilienData.timestamp_string_to_tstamp
    (substring 0 19 (ZilienData.path_name "2021-04-20 11_16_18 notes"))
    Zilien.ZILIEN_TIMESTAMP_FORM
  = inr (Some 0%Z) /\
  ZilienTmp.series_list_from_tmp ZilienCases.two_columns "2021-04-20 11_16_18 notes"
  = ([("could not find column name in " ++ "2021-04-20 11_16_18 notes")%string], inr []) /\
  (forall other_frames,
      ZilienTmp.series_list_from_tmp other_frames "2021-04-20 11_16_18 notes"
      = ZilienTmp.series_list_from_tmp ZilienCases.two_columns "2021-04-20 11_16_18 notes") /\
  forall tmp_files series_list,
    ZilienTmp.series_of_files ZilienCases.two_columns
                              ("2021-04-20 11_16_18 notes"%string :: tmp_files) series_list
    = (("could not find column name in " ++ "2021-04-20 11_16_18 notes")%string
         :: fst (ZilienTmp.series_of_files ZilienCases.two_columns tmp_files series_list),
       snd (ZilienTmp.series_of_files ZilienCases.two_columns tmp_files series_list)).
Proof.
  split; [reflexivity |]. split; [reflexivity |].
  exact (series_list_from_tmp_without_column ZilienExample.platform ZilienCases.two_columns
           "2021-04-20 11_16_18 notes" (Some 0%Z) eq_refl eq_refl).
Defined.

End TmpDemo.
